(** * OpenClaw: Atlas prompt automation and Matrix sync-payload hardening

    A shallow embedding of two TypeScript modules:

    - the Atlas module ([canUseAtlas], [ensureAtlasCdpUrl], [findPromptInput],
      [clickSend], [waitForAssistantMessage], [readStableText],
      [runAtlasPrompt]);
    - [extensions/matrix/src/matrix/client/create-client.ts]
      ([sanitizeUserIdList] and the [updateSyncData] wrapper installed by
      [createMatrixClient]).

    JavaScript strings are modelled as [string] (one [ascii] per code unit,
    read as Latin-1), millisecond quantities as [Z], lengths and counts as
    [nat].  Thrown values are explicit: a call that can reject or throw
    returns a [Settled], a piece of the Atlas module a [Res] together with
    the world it leaves and the trace of the calls it made. *)

From Stdlib Require Import String Ascii List ZArith Lia Bool Arith.
From Stdlib Require Import DecimalString.
Import ListNotations.
Local Open Scope string_scope.
Set Warnings "-register-all".

(* ===================================================================== *)
(** * JavaScript values, strings and thrown values                        *)
(* ===================================================================== *)

Module Js.

(** White space removed by [String.prototype.trim], restricted to the code
    units below 256: TAB, LF, VT, FF, CR, SPACE and NBSP. *)
Definition is_ws (c : ascii) : bool :=
  let n := nat_of_ascii c in
  ((n =? 9) || (n =? 10) || (n =? 11) || (n =? 12) || (n =? 13)
   || (n =? 32) || (n =? 160))%nat.

Fixpoint trimStart (s : string) : string :=
  match s with
  | EmptyString => EmptyString
  | String c s' => if is_ws c then trimStart s' else s
  end.

Fixpoint trimEnd (s : string) : string :=
  match s with
  | EmptyString => EmptyString
  | String c s' =>
      match trimEnd s' with
      | EmptyString => if is_ws c then EmptyString else String c EmptyString
      | t => String c t
      end
  end.

Definition trim (s : string) : string := trimEnd (trimStart s).

(** Truthiness of a string: non-empty. *)
Definition truthy (s : string) : bool :=
  match s with EmptyString => false | _ => true end.

(** [String.prototype.includes]. *)
Definition includes (s needle : string) : bool :=
  match index 0 needle s with Some _ => true | None => false end.

(** Decimal rendering of a non-negative integer in a template literal. *)
Definition nat_to_string (n : nat) : string :=
  NilZero.string_of_uint (Nat.to_uint n).

(** Values that may arrive from a loosely typed source.  Array slots are
    optional: [None] is a hole of a sparse array.  A number is carried by
    the text that [String(n)] gives for it ("3", "-0.5", "1e+21", "NaN"):
    the two modules only ever ask a number for its [typeof] and for that
    text. *)
Inductive JsVal : Type :=
| JUndefined
| JNull
| JBool (b : bool)
| JNum (shown : string)
| JStr (s : string)
| JArr (items : list (option JsVal))
| JObj (fields : list (string * JsVal)).

Definition typeof (v : JsVal) : string :=
  match v with
  | JUndefined => "undefined"
  | JNull => "object"
  | JBool _ => "boolean"
  | JNum _ => "number"
  | JStr _ => "string"
  | JArr _ => "object"
  | JObj _ => "object"
  end.

(** [v == null]. *)
Definition is_nullish (v : JsVal) : bool :=
  match v with JUndefined | JNull => true | _ => false end.

Definition join_comma (parts : list string) : string := String.concat "," parts.

(** [String(v)] for a plain value. *)
Fixpoint to_String (v : JsVal) : string :=
  match v with
  | JUndefined => "undefined"
  | JNull => "null"
  | JBool true => "true"
  | JBool false => "false"
  | JNum shown => shown
  | JStr s => s
  | JArr items =>
      join_comma
        (map (fun slot =>
                match slot with
                | None | Some JUndefined | Some JNull => ""
                | Some x => to_String x
                end) items)
  | JObj _ => "[object Object]"
  end.

(** The classes of [Error] the two modules distinguish with [instanceof]. *)
Inductive ErrorClass : Type :=
| AtlasUnavailableError
| OtherError (name : string).

Definition class_name (c : ErrorClass) : string :=
  match c with
  | AtlasUnavailableError => "AtlasUnavailableError"
  | OtherError n => n
  end.

(** Anything a [throw] or a rejected promise can carry. *)
Inductive Thrown : Type :=
| ThrownError (cls : ErrorClass) (message : string)
| ThrownValue (v : JsVal).

Definition is_AtlasUnavailable (e : Thrown) : bool :=
  match e with
  | ThrownError AtlasUnavailableError _ => true
  | _ => false
  end.

(** [String(err)]; for an [Error] this is [Error.prototype.toString]. *)
Definition String_of_thrown (e : Thrown) : string :=
  match e with
  | ThrownError c m =>
      match class_name c, m with
      | EmptyString, _ => m
      | n, EmptyString => n
      | n, _ => n ++ ": " ++ m
      end
  | ThrownValue v => to_String v
  end.

(** A promise, or a synchronous call that may throw, once settled. *)
Inductive Settled (A : Type) : Type :=
| Fulfilled (a : A)
| Rejected (e : Thrown).
Arguments Fulfilled {A} a.
Arguments Rejected {A} e.

End Js.

(* ===================================================================== *)
(** * Matrix client: sync payload sanitizer                               *)
(* ===================================================================== *)

Module Matrix.
Import Js.

(** The predicate of the [filter] call in [sanitizeUserIdList]:
    [typeof entry === "string" && entry.trim().length > 0]. *)
Definition valid_entry (entry : JsVal) : bool :=
  match entry with
  | JStr s => (0 <? String.length (trim s))%nat
  | _ => false
  end.

(** [Array.prototype.filter] with that predicate; holes are skipped, the
    type guard makes the result a list of strings. *)
Fixpoint filter_valid (items : list (option JsVal)) : list string :=
  match items with
  | [] => []
  | Some (JStr s) :: rest =>
      if valid_entry (JStr s) then s :: filter_valid rest
      else filter_valid rest
  | _ :: rest => filter_valid rest
  end.

(** [sanitizeUserIdList input label warn]: the result and the messages
    handed to [warn], in call order. *)
Definition sanitizeUserIdList (input : JsVal) (label : string)
  : list string * list string :=
  if is_nullish input then ([], [])
  else
    match input with
    | JArr items =>
        let filtered := filter_valid items in
        if negb (List.length filtered =? List.length items)%nat then
          (filtered,
           ["Dropping " ++ nat_to_string (List.length items - List.length filtered)
            ++ " invalid " ++ label ++ " entries from sync payload"])
        else (filtered, [])
    | _ =>
        ([], ["Expected " ++ label ++ " list to be an array, got " ++ typeof input])
    end.

(** A slot of the input array that the sanitizer keeps. *)
Definition slot_valid (slot : option JsVal) : bool :=
  match slot with
  | Some v => valid_entry v
  | None => false
  end.

(** How many slots of the input array are not kept. *)
Definition dropped_count (items : list (option JsVal)) : nat :=
  List.length (filter (fun slot => negb (slot_valid slot)) items).

Definition dropped_warning (n : nat) (label : string) : string :=
  "Dropping " ++ nat_to_string n ++ " invalid " ++ label
  ++ " entries from sync payload".

Definition is_array (v : JsVal) : bool :=
  match v with JArr _ => true | _ => false end.

(** [needle] occurs in [s] at some offset. *)
Definition contains (s needle : string) : Prop :=
  exists m, substring m (String.length needle) s = needle.

(** Outcome of the wrapped call: it fulfils with a value or rejects. *)
Definition Outcome : Type := Settled JsVal.

(** One call of [LogService.warn(module, message, extra?)]. *)
Record LogEntry : Type := mkLog {
  log_module : string;
  log_message : string;
  log_extra : option JsVal
}.

(** The [warn] closure of [createMatrixClient]. *)
Definition warn (message : string) (extra : option JsVal) : LogEntry :=
  mkLog "MatrixClientLite" message extra.

(** The [message] the [catch] clause computes from the caught value. *)
Definition caught_message (err : Thrown) : string :=
  match err with
  | ThrownValue (JStr s) => s
  | ThrownError _ m => m
  | ThrownValue _ => ""
  end.

Definition malformed_signature : string := "Expect value to be String".

Definition not_array_warning (input : JsVal) (label : string) : string :=
  "Expected " ++ label ++ " list to be an array, got " ++ typeof input.

Definition swallowed_warning (message : string) : LogEntry :=
  warn "Ignoring malformed device list entries during crypto sync"
       (Some (JStr message)).

Section UpdateSyncData.

(** [client.crypto.updateSyncData] as bound before patching; the first
    three arguments are passed through untouched. *)
Variable originalUpdateSyncData :
  JsVal -> JsVal -> JsVal -> list string -> list string -> Outcome.

(** The replacement installed on [client.crypto.updateSyncData]. *)
Definition updateSyncData
  (toDeviceMessages otkCounts unusedFallbackKeyAlgs
     changedDeviceLists leftDeviceLists : JsVal)
  : Outcome * list LogEntry :=
  let '(safeChanged, w1) :=
    sanitizeUserIdList changedDeviceLists "changed device list" in
  let '(safeLeft, w2) :=
    sanitizeUserIdList leftDeviceLists "left device list" in
  let logged := map (fun m => warn m None) (w1 ++ w2)%list in
  match originalUpdateSyncData toDeviceMessages otkCounts
          unusedFallbackKeyAlgs safeChanged safeLeft with
  | Fulfilled v => (Fulfilled v, logged)
  | Rejected err =>
      let message := caught_message err in
      if includes message malformed_signature then
        (Fulfilled JUndefined,
         (logged ++
           [warn "Ignoring malformed device list entries during crypto sync"
                 (Some (JStr message))])%list)
      else (Rejected err, logged)
  end.

End UpdateSyncData.

(** A wrapped call that always rejects with a fixed value. *)
Definition always_rejects (e : Thrown)
  : JsVal -> JsVal -> JsVal -> list string -> list string -> Outcome :=
  fun _ _ _ _ _ => Rejected e.

(** ** Clean lists

    What the sanitizer guarantees of its output. *)

(** An identifier that stays non-empty after trimming. *)
Definition nonblank (s : string) : Prop := trim s <> "".

Definition nonblank_b (s : string) : bool := valid_entry (JStr s).

(** A list of identifiers as the wrapped call expects it. *)
Definition clean (ids : list string) : Prop := Forall nonblank ids.

(** The array value holding the given strings. *)
Definition array_of (ids : list string) : JsVal :=
  JArr (map (fun s => Some (JStr s)) ids).

(** The wrapper absorbs this outcome of the wrapped call. *)
Definition absorbed (out : Outcome) : bool :=
  match out with
  | Rejected err => includes (caught_message err) malformed_signature
  | Fulfilled _ => false
  end.

(** A wrapped call that rejects on clean lists and would fulfil on any
    other. *)
Definition rejects_when_clean (e : Thrown)
  : JsVal -> JsVal -> JsVal -> list string -> list string -> Outcome :=
  fun _ _ _ changed left =>
    if forallb nonblank_b changed && forallb nonblank_b left then Rejected e
    else Fulfilled JUndefined.

End Matrix.

(* ===================================================================== *)
(** * Atlas: prompt submission through a remote-controlled browser        *)
(* ===================================================================== *)

Module Atlas.
Import Js.

(** ** Data *)

Definition DEFAULT_ATLAS_CHAT_URL : string := "https://chatgpt.com".

(** [new AtlasUnavailableError(message)]. *)
Definition AtlasUnavailable (message : string) : Thrown :=
  ThrownError AtlasUnavailableError message.

Record ResolvedBrowserProfile : Type := mkProfile {
  name : string;
  cdpUrl : option string
}.

Record BrowserStatus : Type := mkStatus {
  running : bool;
  status_cdpUrl : option string
}.

(** The functions the loaded Playwright module object carries; each of the
    three is looked up on the object before use. *)
Record PwAiModule : Type := mkModule {
  has_createPageViaPlaywright : bool;
  has_getPageForTargetId : bool;
  has_closePageByTargetIdViaPlaywright : bool
}.

Record PageInfo : Type := mkPageInfo { targetId : string }.

Record Page : Type := mkPage { page_handle : nat }.

(** A deferred element reference: a selector and which match it denotes. *)
Inductive Pick : Type := PickAll | PickFirst | PickNth (k : nat).

Record Locator : Type := mkLocator {
  loc_selector : string;
  loc_pick : Pick
}.

Definition locator (selector : string) : Locator := mkLocator selector PickAll.
Definition first (l : Locator) : Locator := mkLocator (loc_selector l) PickFirst.
Definition nth_match (l : Locator) (k : nat) : Locator :=
  mkLocator (loc_selector l) (PickNth k).

Record AtlasPromptResult : Type := mkResult {
  text : string;
  tookMs : Z
}.

(** Result of running a piece of the module: a value, a thrown value, or
    the polling loop was cut off by the iteration bound of the model. *)
Inductive Res (A : Type) : Type :=
| Ok (a : A)
| Throw (e : Thrown)
| OutOfFuel.
Arguments Ok {A} a.
Arguments Throw {A} e.
Arguments OutOfFuel {A}.

(** ** Calls that leave the module, recorded in the trace *)

Inductive Call : Type :=
| CBrowserStatus (profile : string)
| CBrowserStart (profile : string)
| CGetPwAiModule
| CCreatePage (cdp url : string)
| CGetPage (cdp target : string)
| CClosePage (cdp target : string)
| CWaitForLoadState (timeout : Z)
| CWaitFor (l : Locator) (timeout : Z)
| CIsEnabled (l : Locator)
| CIsVisible (l : Locator)
| CClick (l : Locator)
| CPress (l : Locator) (key : string)
| CFill (l : Locator) (value : string) (timeout : Z)
| CCount (l : Locator)
| CWaitForFunction (count : nat) (sel : string) (timeout : Z)
| CInnerText (l : Locator)
| CWaitForTimeout (ms : Z)
| CLogDebug (message : string).

(** What a fulfilled call answered. *)
Inductive Answer : Type :=
| AUnit
| ABool (b : bool)
| ACount (n : nat)
| AText (t : option string)
| AStatus (s : BrowserStatus)
| AModule (m : option PwAiModule)
| APageInfo (i : PageInfo)
| APage (p : Page).

Class ToAnswer (A : Type) : Type := to_answer : A -> Answer.

#[export] Instance ToAnswer_unit : ToAnswer unit := fun _ => AUnit.
#[export] Instance ToAnswer_bool : ToAnswer bool := ABool.
#[export] Instance ToAnswer_nat : ToAnswer nat := ACount.
#[export] Instance ToAnswer_text : ToAnswer (option string) := AText.
#[export] Instance ToAnswer_status : ToAnswer BrowserStatus := AStatus.
#[export] Instance ToAnswer_module : ToAnswer (option PwAiModule) := AModule.
#[export] Instance ToAnswer_pageInfo : ToAnswer PageInfo := APageInfo.
#[export] Instance ToAnswer_page : ToAnswer Page := APage.

Definition settled_answer {A : Type} `{ToAnswer A} (s : Settled A)
  : Settled Answer :=
  match s with
  | Fulfilled a => Fulfilled (to_answer a)
  | Rejected e => Rejected e
  end.

(** One entry of the trace: the clock when the call was made, the call and
    how it settled. *)
Record Event : Type := mkEvent {
  ev_time : Z;
  ev_call : Call;
  ev_reply : Settled Answer
}.

(** ** The collaborators *)

Set Implicit Arguments.

(** Configuration resolution ([browser/config.js]); both functions are
    synchronous and may throw. *)
Record ConfigApi (Config BrowserConfig Resolved : Type) : Type := mkConfigApi {
  browser : Config -> option BrowserConfig;
  resolveBrowserConfig :
    option BrowserConfig -> option Config -> Settled Resolved;
  enabled : Resolved -> bool;
  resolveProfile : Resolved -> string -> Settled (option ResolvedBrowserProfile);
  DEFAULT_ATLAS_BROWSER_PROFILE_NAME : string
}.

(** The browser lifecycle client, the Playwright module and the pages it
    controls, as transitions of a world [W] that also carries the clock. *)
Record Env (W : Type) : Type := mkEnv {
  clock : W -> Z;
  browserStatus : string -> W -> Settled BrowserStatus * W;
  browserStart : string -> W -> Settled unit * W;
  getPwAiModule : W -> Settled (option PwAiModule) * W;
  createPageViaPlaywright : string -> string -> W -> Settled PageInfo * W;
  getPageForTargetId : string -> string -> W -> Settled Page * W;
  closePageByTargetIdViaPlaywright : string -> string -> W -> Settled unit * W;
  waitForLoadState : Page -> Z -> W -> Settled unit * W;
  waitFor : Page -> Locator -> Z -> W -> Settled unit * W;
  isEnabled : Page -> Locator -> W -> Settled bool * W;
  isVisible : Page -> Locator -> W -> Settled bool * W;
  click : Page -> Locator -> W -> Settled unit * W;
  press : Page -> Locator -> string -> W -> Settled unit * W;
  fill : Page -> Locator -> string -> Z -> W -> Settled unit * W;
  count : Page -> Locator -> W -> Settled nat * W;
  waitForFunction : Page -> nat -> string -> Z -> W -> Settled unit * W;
  innerText : Page -> Locator -> W -> Settled (option string) * W;
  waitForTimeout : Page -> Z -> W -> Settled unit * W
}.

Unset Implicit Arguments.

(** ** The monad: world passing, a trace, exceptions *)

Definition M (W A : Type) : Type := W -> Res A * W * list Event.

Section Monad.
Context {W : Type}.

Definition ret {A : Type} (a : A) : M W A := fun w => (Ok a, w, []).

Definition throw {A : Type} (e : Thrown) : M W A := fun w => (Throw e, w, []).

Definition bind {A B : Type} (m : M W A) (k : A -> M W B) : M W B :=
  fun w =>
    match m w with
    | (Ok a, w1, t1) => let '(r, w2, t2) := k a w1 in (r, w2, (t1 ++ t2)%list)
    | (Throw e, w1, t1) => (Throw e, w1, t1)
    | (OutOfFuel, w1, t1) => (OutOfFuel, w1, t1)
    end.

(** [try { m } catch (err) { h err }]. *)
Definition try_catch {A : Type} (m : M W A) (h : Thrown -> M W A) : M W A :=
  fun w =>
    match m w with
    | (Throw e, w1, t1) => let '(r, w2, t2) := h e w1 in (r, w2, (t1 ++ t2)%list)
    | done => done
    end.

(** [try { m } finally { f }]: [f] runs after [m] completed either way;
    if [f] throws, that replaces the completion of [m]. *)
Definition try_finally {A : Type} (m : M W A) (f : M W unit) : M W A :=
  fun w =>
    match m w with
    | (OutOfFuel, w1, t1) => (OutOfFuel, w1, t1)
    | (r, w1, t1) =>
        match f w1 with
        | (Ok _, w2, t2) => (r, w2, (t1 ++ t2)%list)
        | (Throw e, w2, t2) => (Throw e, w2, (t1 ++ t2)%list)
        | (OutOfFuel, w2, t2) => (OutOfFuel, w2, (t1 ++ t2)%list)
        end
    end.

(** [promise.catch(() => dflt)]. *)
Definition catch_default {A : Type} (m : M W A) (dflt : A) : M W A :=
  try_catch m (fun _ => ret dflt).

(** A synchronous call that may throw. *)
Definition lift_settled {A : Type} (s : Settled A) : M W A :=
  match s with
  | Fulfilled a => ret a
  | Rejected e => throw e
  end.

End Monad.

Declare Scope atlas_scope.
Delimit Scope atlas_scope with atlas.
Notation "x <- m ;; k" := (bind m (fun x => k))
  (at level 61, m at next level, right associativity) : atlas_scope.
Notation "m ;;; k" := (bind m (fun _ => k))
  (at level 61, right associativity) : atlas_scope.

(** ** The module's functions *)

(** [a?.trim()]. *)
Definition opt_trim (a : option string) : option string := option_map trim a.

(** [a || b] on optional strings: [a] when it is a non-empty string. *)
Definition or_else (a : option string) (b : string) : string :=
  match a with
  | Some s => if truthy s then s else b
  | None => b
  end.

(** [a ?? b]. *)
Definition nullish_else (a : option string) (b : string) : string :=
  match a with Some s => s | None => b end.

(** [process.env]: a variable is absent or holds a string. *)
Definition ProcessEnv : Type := string -> option string.

(** Truthiness of [process.env.X]. *)
Definition env_truthy (penv : ProcessEnv) (key : string) : bool :=
  match penv key with Some v => truthy v | None => false end.

(** [process.env.X === value]. *)
Definition env_equals (penv : ProcessEnv) (key value : string) : bool :=
  match penv key with Some v => String.eqb v value | None => false end.

Set Implicit Arguments.

Record GateOptions (Config : Type) : Type := mkGateOptions {
  gate_config : option Config;
  gate_sandboxed : option bool
}.

Record PromptOptions (Config : Type) : Type := mkPromptOptions {
  config : option Config;
  sandboxed : option bool;
  prompt : string;
  timeoutMs : Z;
  url : option string
}.

Unset Implicit Arguments.

(** Truthiness of an optional boolean field. *)
Definition flag (b : option bool) : bool :=
  match b with Some true => true | _ => false end.

(** The double quote character, for selectors that contain it. *)
Definition dq : string := String (ascii_of_nat 34) EmptyString.

Definition prompt_selectors : list string :=
  [ "textarea#prompt-textarea";
    "textarea[data-testid=" ++ dq ++ "prompt-textarea" ++ dq ++ "]";
    "textarea[placeholder*=" ++ dq ++ "Message" ++ dq ++ "]";
    "textarea" ].

Definition input_not_found : string :=
  "ChatGPT input not found. Open Atlas, sign in to ChatGPT, then try again.".

Definition assistant_selector : string :=
  "[data-message-author-role=" ++ dq ++ "assistant" ++ dq ++ "]".

Definition send_button_selector : string :=
  "button[data-testid=" ++ dq ++ "send-button" ++ dq ++ "]".

Section Program.
Context {Config BrowserConfig Resolved : Type}.
Variable api : ConfigApi Config BrowserConfig Resolved.

Definition resolveAtlasProfile (cfg : option Config)
  : Settled (option ResolvedBrowserProfile) :=
  match resolveBrowserConfig api
          (match cfg with Some c => browser api c | None => None end) cfg with
  | Rejected e => Rejected e
  | Fulfilled resolved =>
      if negb (enabled api resolved) then Fulfilled None
      else resolveProfile api resolved (DEFAULT_ATLAS_BROWSER_PROFILE_NAME api)
  end.

Definition canUseAtlas (penv : ProcessEnv)
  (options : option (GateOptions Config)) : Settled bool :=
  if env_equals penv "NODE_ENV" "test"
     || env_truthy penv "VITEST"
     || env_truthy penv "VITEST_WORKER_ID"
     || env_truthy penv "JEST_WORKER_ID"
  then Fulfilled false
  else if flag (match options with Some o => gate_sandboxed o | None => None end)
  then Fulfilled false
  else
    match resolveAtlasProfile
            (match options with Some o => gate_config o | None => None end) with
    | Fulfilled (Some _) => Fulfilled true
    | Fulfilled None => Fulfilled false
    | Rejected _ => Fulfilled false
    end.

Context {W : Type}.
Variable env : Env W.
Local Open Scope atlas_scope.

(** [Date.now()]. *)
Definition now : M W Z := fun w => (Ok (clock env w), w, []).

(** An awaited call of a collaborator, with its trace entry. *)
Definition call {A : Type} `{ToAnswer A} (c : Call) (op : W -> Settled A * W)
  : M W A :=
  fun w =>
    let '(s, w') := op w in
    (match s with Fulfilled a => Ok a | Rejected e => Throw e end,
     w', [mkEvent (clock env w) c (settled_answer s)]).

(** [log.debug(message)]: recorded, never fails, leaves the world alone. *)
Definition log_debug (message : string) : M W unit :=
  fun w =>
    (Ok tt, w, [mkEvent (clock env w) (CLogDebug message) (Fulfilled AUnit)]).

Definition ensureAtlasCdpUrl (profile : ResolvedBrowserProfile) : M W string :=
  try_catch
    (status <- call (CBrowserStatus (name profile))
                    (browserStatus env (name profile)) ;;
     status <- (if negb (running status) then
                  call (CBrowserStart (name profile))
                       (browserStart env (name profile)) ;;;
                  call (CBrowserStatus (name profile))
                       (browserStatus env (name profile))
                else ret status) ;;
     let cdp := or_else (opt_trim (status_cdpUrl status))
                        (or_else (opt_trim (cdpUrl profile)) "") in
     if negb (truthy cdp) then
       throw (AtlasUnavailable "Atlas profile has no CDP URL.")
     else ret cdp)
    (fun err =>
       if is_AtlasUnavailable err then throw err
       else throw (AtlasUnavailable
                     ("Atlas browser is not reachable: " ++ String_of_thrown err))).

(** The [for] loop of [findPromptInput]: [Some l] is the [return l] inside
    the loop, [None] is leaving the loop (by exhaustion or by [break]). *)
Fixpoint findPromptInput_loop (page : Page) (deadline : Z)
  (selectors : list string) : M W (option Locator) :=
  match selectors with
  | [] => ret None
  | selector :: rest =>
      let l := first (locator selector) in
      t <- now ;;
      let timeout := Z.min 2500 (Z.max 500 (deadline - t)) in
      if (timeout <=? 0)%Z then ret None
      else
        found <- try_catch
                   (call (CWaitFor l timeout) (waitFor env page l timeout) ;;;
                    en <- catch_default
                            (call (CIsEnabled l) (isEnabled env page l)) false ;;
                    ret (if en then Some l else None))
                   (fun _ => ret None) ;;
        match found with
        | Some l' => ret (Some l')
        | None => findPromptInput_loop page deadline rest
        end
  end.

Definition findPromptInput (page : Page) (timeoutMs : Z) : M W Locator :=
  t0 <- now ;;
  let deadline := (t0 + Z.max 2000 timeoutMs)%Z in
  found <- findPromptInput_loop page deadline prompt_selectors ;;
  match found with
  | Some l => ret l
  | None => throw (AtlasUnavailable input_not_found)
  end.

Definition clickSend (page : Page) (input : Locator) : M W unit :=
  let sendButton := first (locator send_button_selector) in
  canClick <- catch_default
                (call (CIsVisible sendButton) (isVisible env page sendButton))
                false ;;
  en <- (if canClick then
           catch_default
             (call (CIsEnabled sendButton) (isEnabled env page sendButton))
             false
         else ret false) ;;
  if en then
    catch_default (call (CClick sendButton) (click env page sendButton)) tt
  else
    catch_default (call (CPress input "Enter") (press env page input "Enter")) tt.

Definition waitForAssistantMessage (page : Page) (baselineCount : nat)
  (timeoutMs : Z) : M W Locator :=
  let messages := locator assistant_selector in
  let timeout := Z.max 2000 timeoutMs in
  try_catch
    (call (CWaitForFunction baselineCount assistant_selector timeout)
          (waitForFunction env page baselineCount assistant_selector timeout))
    (fun _ => ret tt) ;;;
  n <- call (CCount messages) (count env page messages) ;;
  if (n =? 0)%nat then throw (AtlasUnavailable "No ChatGPT response detected.")
  else ret (nth_match messages (n - 1)).

(** The [while] loop of [readStableText]; [fuel] bounds the iterations. *)
Fixpoint readStableText_loop (fuel : nat) (page : Page) (l : Locator)
  (start timeoutMs : Z) (last : string) (stableTicks : nat) : M W string :=
  match fuel with
  | O => fun w => (OutOfFuel, w, [])
  | S fuel' =>
      t <- now ;;
      if (t - start <? timeoutMs)%Z then
        raw <- catch_default (call (CInnerText l) (innerText env page l))
                             (Some "") ;;
        let text := nullish_else (opt_trim raw) "" in
        let stableTicks' :=
          if truthy text && String.eqb text last then S stableTicks else O in
        if (3 <=? stableTicks')%nat && truthy text then ret text
        else
          call (CWaitForTimeout 400) (waitForTimeout env page 400) ;;;
          readStableText_loop fuel' page l start timeoutMs text stableTicks'
      else ret last
  end.

Definition readStableText (fuel : nat) (page : Page) (l : Locator)
  (timeoutMs : Z) : M W string :=
  start <- now ;;
  readStableText_loop fuel page l start timeoutMs "" 0.

(** The body of the [try] block of [runAtlasPrompt]. *)
Definition runAtlasPrompt_body (fuel : nat) (options : PromptOptions Config)
  (cdp : string) (pageInfo : PageInfo) (start : Z) : M W AtlasPromptResult :=
  page <- call (CGetPage cdp (targetId pageInfo))
               (getPageForTargetId env cdp (targetId pageInfo)) ;;
  catch_default
    (call (CWaitForLoadState 15000) (waitForLoadState env page 15000)) tt ;;;
  input <- findPromptInput page (timeoutMs options) ;;
  let assistantMessages := locator assistant_selector in
  baselineCount <- call (CCount assistantMessages)
                        (count env page assistantMessages) ;;
  call (CFill input (prompt options) (Z.min (timeoutMs options) 10000))
       (fill env page input (prompt options) (Z.min (timeoutMs options) 10000)) ;;;
  clickSend page input ;;;
  message <- waitForAssistantMessage page baselineCount (timeoutMs options) ;;
  txt <- readStableText fuel page message (timeoutMs options) ;;
  if negb (truthy txt) then
    throw (AtlasUnavailable "ChatGPT returned an empty response.")
  else
    t <- now ;;
    ret (mkResult txt (t - start)).

(** The [catch] clause of [runAtlasPrompt]. *)
Definition runAtlasPrompt_catch (err : Thrown) : M W AtlasPromptResult :=
  log_debug ("Atlas prompt failed: " ++ String_of_thrown err) ;;;
  if is_AtlasUnavailable err then throw err
  else throw (AtlasUnavailable ("Atlas prompt failed: " ++ String_of_thrown err)).

(** The [finally] clause: the optional call of the close function, its
    rejection discarded. *)
Definition runAtlasPrompt_finally (pwModule : PwAiModule) (cdp : string)
  (pageInfo : PageInfo) : M W unit :=
  if has_closePageByTargetIdViaPlaywright pwModule then
    catch_default
      (call (CClosePage cdp (targetId pageInfo))
            (closePageByTargetIdViaPlaywright env cdp (targetId pageInfo))) tt
  else ret tt.

Definition runAtlasPrompt (fuel : nat) (options : PromptOptions Config)
  : M W AtlasPromptResult :=
  if flag (sandboxed options) then
    throw (AtlasUnavailable "Atlas is not available in sandboxed sessions.")
  else
    profile <- lift_settled (resolveAtlasProfile (config options)) ;;
    match profile with
    | None => throw (AtlasUnavailable "Atlas profile is not configured.")
    | Some profile =>
        pwModule <- call CGetPwAiModule (getPwAiModule env) ;;
        match pwModule with
        | None =>
            throw (AtlasUnavailable
                     "Playwright is not available for Atlas automation.")
        | Some pwModule =>
            if negb (has_createPageViaPlaywright pwModule)
               || negb (has_getPageForTargetId pwModule)
            then throw (AtlasUnavailable
                          "Playwright is not available for Atlas automation.")
            else
              cdp <- ensureAtlasCdpUrl profile ;;
              let chatUrl := or_else (opt_trim (url options))
                                     DEFAULT_ATLAS_CHAT_URL in
              start <- now ;;
              pageInfo <- call (CCreatePage cdp chatUrl)
                               (createPageViaPlaywright env cdp chatUrl) ;;
              try_finally
                (try_catch (runAtlasPrompt_body fuel options cdp pageInfo start)
                           runAtlasPrompt_catch)
                (runAtlasPrompt_finally pwModule cdp pageInfo)
        end
    end.

End Program.

(** ** Reading a trace *)

Definition is_close_call (e : Event) : bool :=
  match ev_call e with CClosePage _ _ => true | _ => false end.

Definition is_create_call (e : Event) : bool :=
  match ev_call e with CCreatePage _ _ => true | _ => false end.

(** The close calls of a trace, in order. *)
Definition close_calls (tr : list Event) : list Event := filter is_close_call tr.

(** The page a trace opened: the answer of a fulfilled create call. *)
Definition opened_page (e : Event) : option (string * PageInfo) :=
  match ev_call e, ev_reply e with
  | CCreatePage cdp _, Fulfilled (APageInfo i) => Some (cdp, i)
  | _, _ => None
  end.

(** The module a trace loaded. *)
Definition loaded_module (e : Event) : option PwAiModule :=
  match ev_call e, ev_reply e with
  | CGetPwAiModule, Fulfilled (AModule (Some m)) => Some m
  | _, _ => None
  end.

(** The text [readStableText] derives from one settled [innerText] call:
    a rejection and a nullish answer both count as the empty string. *)
Definition sample_text (reply : Settled Answer) : string :=
  match reply with
  | Fulfilled (AText raw) => nullish_else (opt_trim raw) ""
  | _ => ""
  end.

(** The samples a trace took, oldest first. *)
Fixpoint samples_of (tr : list Event) : list string :=
  match tr with
  | [] => []
  | e :: rest =>
      match ev_call e with
      | CInnerText _ => sample_text (ev_reply e) :: samples_of rest
      | _ => samples_of rest
      end
  end.

(** The calls of a trace, without times and answers. *)
Definition calls_of (tr : list Event) : list Call := map ev_call tr.

(** Stability as the specification words it, on the samples seen so far,
    newest first: the four newest samples are one non-empty text. *)
Definition stable_newest_first (seen : list string) : bool :=
  match seen with
  | a :: b :: c :: d :: _ =>
      truthy a && String.eqb a b && String.eqb b c && String.eqb c d
  | _ => false
  end.

Definition stable (samples : list string) : bool :=
  stable_newest_first (rev samples).

(** The stability counter after the samples seen so far, newest first,
    following the update in the loop body with [last] the previous sample
    (the empty string before the first). *)
Fixpoint ticks_after (seen : list string) : nat :=
  match seen with
  | [] => 0
  | x :: older =>
      if truthy x && String.eqb x (hd "" older) then S (ticks_after older)
      else 0
  end.

(** Iterations that suffice for a budget of [timeoutMs] when every pause
    lasts at least its 400 ms. *)
Definition fuel_for (timeoutMs : Z) : nat := Z.to_nat ((timeoutMs + 399) / 400) + 1.

(** The call a trace ends with. *)
Fixpoint last_call (tr : list Event) : option Call :=
  match tr with
  | [] => None
  | e :: rest =>
      match rest with
      | [] => Some (ev_call e)
      | _ => last_call rest
      end
  end.

(** The run of the polling loop ended right after taking a sample. *)
Definition ended_on_sample (tr : list Event) : bool :=
  match last_call tr with
  | Some (CInnerText _) => true
  | _ => false
  end.

(** The shape of a polling trace on locator [l]: samples alternate with
    pauses of 400 ms, and a rejected pause ends it. *)
Inductive polling (l : Locator) : list Event -> Prop :=
| polling_done : polling l []
| polling_sample t reply : polling l [mkEvent t (CInnerText l) reply]
| polling_broken t reply t' e :
    polling l [mkEvent t (CInnerText l) reply;
               mkEvent t' (CWaitForTimeout 400) (Rejected e)]
| polling_more t reply t' rest :
    polling l rest ->
    polling l (mkEvent t (CInnerText l) reply
               :: mkEvent t' (CWaitForTimeout 400) (Fulfilled AUnit) :: rest).

(** Assumptions on the clock under which the polling loop is bounded:
    reading text does not turn the clock back, and a pause that fulfils
    lasted at least the time asked for. *)
Definition reads_keep_time {W : Type} (env : Env W) : Prop :=
  forall page l w, (clock env w <= clock env (snd (innerText env page l w)))%Z.

Definition pauses_take_time {W : Type} (env : Env W) : Prop :=
  forall page ms w w',
    waitForTimeout env page ms w = (Fulfilled tt, w') ->
    (clock env w + ms <= clock env w')%Z.

(** The selectors a trace waited on, in order. *)
Fixpoint waited_on (tr : list Event) : list string :=
  match tr with
  | [] => []
  | e :: rest =>
      match ev_call e with
      | CWaitFor l _ => loc_selector l :: waited_on rest
      | _ => waited_on rest
      end
  end.

(** The per-strategy wait of [findPromptInput] at clock [t]. *)
Definition strategy_timeout (deadline t : Z) : Z :=
  Z.min 2500 (Z.max 500 (deadline - t)).

(** Every visibility wait of a trace was given the per-strategy timeout
    computed from the clock at the time of the call. *)
Definition waits_follow_deadline (deadline : Z) (tr : list Event) : Prop :=
  Forall (fun e => match ev_call e with
                   | CWaitFor _ timeout =>
                       timeout = strategy_timeout deadline (ev_time e)
                   | _ => True
                   end) tr.

(** Calls other than opening and closing a page. *)
Definition inner_call (c : Call) : bool :=
  match c with
  | CCreatePage _ _ | CClosePage _ _ => false
  | _ => true
  end.

(** Every call a computation makes satisfies [ok], from any world. *)
Definition calls_in {W A : Type} (ok : Call -> bool) (m : M W A) : Prop :=
  forall w, Forall (fun e => ok (ev_call e) = true) (snd (m w)).

(** A computation is never cut off by the iteration bound. *)
Definition ends {W A : Type} (m : M W A) : Prop :=
  forall w, fst (fst (m w)) <> OutOfFuel.

(** A computation throws nothing but [AtlasUnavailableError]. *)
Definition throws_unavailable {W A : Type} (m : M W A) : Prop :=
  forall w e, fst (fst (m w)) = Throw e -> is_AtlasUnavailable e = true.

(** ** A scripted world

    For concrete runs: the world is a clock and the list of answers still to
    be given; each call of a collaborator takes the next answer and the time
    it says the call took. *)

Record Step : Type := mkStep {
  took : nat;
  answer : Settled Answer
}.

Record Replay : Type := mkReplay {
  r_clock : Z;
  r_script : list Step
}.

Class OfAnswer (A : Type) : Type := of_answer : Answer -> option A.

#[export] Instance OfAnswer_unit : OfAnswer unit :=
  fun a => match a with AUnit => Some tt | _ => None end.
#[export] Instance OfAnswer_bool : OfAnswer bool :=
  fun a => match a with ABool b => Some b | _ => None end.
#[export] Instance OfAnswer_nat : OfAnswer nat :=
  fun a => match a with ACount n => Some n | _ => None end.
#[export] Instance OfAnswer_text : OfAnswer (option string) :=
  fun a => match a with AText t => Some t | _ => None end.
#[export] Instance OfAnswer_status : OfAnswer BrowserStatus :=
  fun a => match a with AStatus s => Some s | _ => None end.
#[export] Instance OfAnswer_module : OfAnswer (option PwAiModule) :=
  fun a => match a with AModule m => Some m | _ => None end.
#[export] Instance OfAnswer_pageInfo : OfAnswer PageInfo :=
  fun a => match a with APageInfo i => Some i | _ => None end.
#[export] Instance OfAnswer_page : OfAnswer Page :=
  fun a => match a with APage p => Some p | _ => None end.

Definition script_error (message : string) : Thrown :=
  ThrownError (OtherError "Error") message.

(** Take the next answer; [pause] is time the call spends by itself. *)
Definition replay {A : Type} `{OfAnswer A} (pause : Z) (w : Replay)
  : Settled A * Replay :=
  match r_script w with
  | [] => (Rejected (script_error "Target page, context or browser has been closed"),
           mkReplay (r_clock w + pause) [])
  | step :: rest =>
      let w' := mkReplay (r_clock w + pause + Z.of_nat (took step)) rest in
      match answer step with
      | Rejected e => (Rejected e, w')
      | Fulfilled a =>
          match of_answer a with
          | Some v => (Fulfilled v, w')
          | None => (Rejected (script_error "unexpected answer"), w')
          end
      end
  end.

Definition replay_env : Env Replay :=
  {| clock := r_clock;
     browserStatus := fun _ => replay 0;
     browserStart := fun _ => replay 0;
     getPwAiModule := replay 0;
     createPageViaPlaywright := fun _ _ => replay 0;
     getPageForTargetId := fun _ _ => replay 0;
     closePageByTargetIdViaPlaywright := fun _ _ => replay 0;
     waitForLoadState := fun _ _ => replay 0;
     waitFor := fun _ _ _ => replay 0;
     isEnabled := fun _ _ => replay 0;
     isVisible := fun _ _ => replay 0;
     click := fun _ _ => replay 0;
     press := fun _ _ _ => replay 0;
     fill := fun _ _ _ _ => replay 0;
     count := fun _ _ => replay 0;
     waitForFunction := fun _ _ _ _ => replay 0;
     innerText := fun _ _ => replay 0;
     waitForTimeout := fun _ ms => replay ms |}.

(** Answers that arrive at once. *)
Definition yes (a : Answer) : Step := mkStep 0 (Fulfilled a).
Definition no (message : string) : Step := mkStep 0 (Rejected (script_error message)).
Definition says (txt : string) : Step := yes (AText (Some txt)).

(** A configuration interface over trivial configurations. *)
Definition simple_api (resolved : Settled bool)
  (profile : Settled (option ResolvedBrowserProfile)) : ConfigApi unit unit bool :=
  {| browser := fun _ => None;
     resolveBrowserConfig := fun _ _ => resolved;
     enabled := fun b => b;
     resolveProfile := fun _ _ => profile;
     DEFAULT_ATLAS_BROWSER_PROFILE_NAME := "atlas" |}.

Definition atlas_profile : ResolvedBrowserProfile :=
  mkProfile "atlas" (Some "http://127.0.0.1:9222").

Definition good_api : ConfigApi unit unit bool :=
  simple_api (Fulfilled true) (Fulfilled (Some atlas_profile)).

Definition full_module : PwAiModule := mkModule true true true.

Definition page0 : Page := mkPage 0.

Definition ask (question : string) (budget : Z) : PromptOptions unit :=
  mkPromptOptions None None question budget None.

(** ** Scenarios

    Environments, configurations and scripted worlds for concrete runs. *)

(** A recognised test-environment marker is set: NODE_ENV is "test", or
    one of the runner variables holds a non-empty string. *)
Definition holds_text (penv : ProcessEnv) (key : string) : Prop :=
  exists v, penv key = Some v /\ v <> "".

Definition test_marker_set (penv : ProcessEnv) : Prop :=
  penv "NODE_ENV" = Some "test"
  \/ holds_text penv "VITEST"
  \/ holds_text penv "VITEST_WORKER_ID"
  \/ holds_text penv "JEST_WORKER_ID".

(** The caller declares itself sandboxed. *)
Definition declares_sandboxed {Config : Type}
  (options : option (GateOptions Config)) : Prop :=
  exists o, options = Some o /\ gate_sandboxed o = Some true.

Definition gate_config_of {Config : Type}
  (options : option (GateOptions Config)) : option Config :=
  match options with Some o => gate_config o | None => None end.

Definition no_env : ProcessEnv := fun _ => None.

Definition vitest_env : ProcessEnv :=
  fun key => if String.eqb key "VITEST" then Some "true" else None.

Definition throwing_api : ConfigApi unit unit bool :=
  simple_api (Rejected (script_error "Invalid browser config"))
             (Fulfilled (Some atlas_profile)).

Definition paused : Step := yes AUnit.

(** The message element whose text is read. *)
Definition reply_locator : Locator := nth_match (locator assistant_selector) 0.

(** Six samples "a", "a", "b", "b", "b", "b" with their pauses, and more
    text that would follow if the reader kept polling. *)
Definition six_samples : Replay :=
  mkReplay 0 [ says "a"; paused; says "a"; paused; says "b"; paused;
               says "b"; paused; says "b"; paused; says "b"; paused;
               says "b!"; paused ].

(** Text that keeps growing: never stable within a budget of one second. *)
Definition growing_text : Replay :=
  mkReplay 0 [ says "H"; paused; says "He"; paused; says "Hel"; paused;
               says "Hell"; paused ].

(** The page goes away during the first pause. *)
Definition closed_during_pause : Replay :=
  mkReplay 0 [ says "Hello"; no "Target page, context or browser has been closed" ].

(** No connection URL: the field is absent or blank after trimming. *)
Definition no_url (u : option string) : Prop :=
  forall s, u = Some s -> trim s = "".

Definition blank_profile : ResolvedBrowserProfile := mkProfile "atlas" (Some "  ").

Definition blank_api : ConfigApi unit unit bool :=
  simple_api (Fulfilled true) (Fulfilled (Some blank_profile)).

(** The browser does not come up: not running before and after the start
    request, and no URL in the status. *)
Definition never_running : Replay :=
  mkReplay 0 [ yes (AModule (Some full_module));
               yes (AStatus (mkStatus false None));
               paused;
               yes (AStatus (mkStatus false (Some " "))) ].

Definition slow (ms : nat) (a : Answer) : Step := mkStep ms (Fulfilled a).

(** The first strategy finds a disabled field only after 2200 ms, past the
    deadline of a 1000 ms budget; the second strategy then matches. *)
Definition late_second_match : Replay :=
  mkReplay 0 [ slow 1900 AUnit; slow 300 (ABool false);
               yes AUnit; yes (ABool true) ].

Definition second_input : Locator :=
  first (locator ("textarea[data-testid=" ++ dq ++ "prompt-textarea" ++ dq ++ "]")).

Definition live_status : BrowserStatus :=
  mkStatus true (Some "http://127.0.0.1:9222").

(** The browser is up, but opening the page fails in the control layer. *)
Definition page_open_fails : Replay :=
  mkReplay 0 [ yes (AModule (Some full_module));
               yes (AStatus live_status);
               no "connect ECONNREFUSED 127.0.0.1:9222" ].

(** A complete conversation: the page opens, the first strategy finds the
    input, the send button is clicked, one assistant message appears and its
    text "Hello" is stable. [closing] is what follows the last sample. *)
Definition conversation (m : PwAiModule) (closing : list Step) : Replay :=
  mkReplay 0 ([ yes (AModule (Some m));
                yes (AStatus live_status);
                yes (APageInfo (mkPageInfo "T1"));
                yes (APage page0);
                paused;
                yes AUnit; yes (ABool true);
                yes (ACount 0);
                paused;
                yes (ABool true); yes (ABool true); paused;
                paused; yes (ACount 1);
                says "Hello"; paused; says "Hello"; paused;
                says "Hello"; paused; says "Hello" ] ++ closing)%list.

(** ** Words for further properties *)

(** The URL [ensureAtlasCdpUrl] settles on for a status: the live URL when
    it is non-blank, else the profile's, each trimmed. *)
Definition pick_cdp (status : BrowserStatus) (profile : ResolvedBrowserProfile)
  : string :=
  or_else (opt_trim (status_cdpUrl status))
          (or_else (opt_trim (cdpUrl profile)) "").

(** What the [catch] clause of [ensureAtlasCdpUrl] rethrows for [err]. *)
Definition as_unreachable (err : Thrown) : Thrown :=
  if is_AtlasUnavailable err then err
  else AtlasUnavailable ("Atlas browser is not reachable: " ++ String_of_thrown err).

Definition is_start_call (e : Event) : bool :=
  match ev_call e with CBrowserStart _ => true | _ => false end.

(** The options [canUseAtlas] is given by a caller about to run a prompt. *)
Definition gate_of {Config : Type} (options : PromptOptions Config)
  : option (GateOptions Config) :=
  Some (mkGateOptions (config options) (sandboxed options)).

(** The browser is down at first and up, with a padded URL, after the start
    request. *)
Definition restarted_browser : Replay :=
  mkReplay 0 [ yes (AStatus (mkStatus false None)); paused;
               yes (AStatus (mkStatus true (Some " ws://h:1 "))) ].

(** The visibility waiting a trace asked for, in milliseconds. *)
Fixpoint wait_budget (tr : list Event) : Z :=
  match tr with
  | [] => 0
  | e :: rest =>
      match ev_call e with
      | CWaitFor _ timeout => timeout + wait_budget rest
      | _ => wait_budget rest
      end
  end%Z.

Definition send_button : Locator := first (locator send_button_selector).

Definition messages : Locator := locator assistant_selector.

(** The calls each stage is made of. *)
Definition endpoint_call (c : Call) : bool :=
  match c with CBrowserStatus _ | CBrowserStart _ => true | _ => false end.

Definition locate_call (c : Call) : bool :=
  match c with CWaitFor _ _ | CIsEnabled _ => true | _ => false end.

Definition submit_call (c : Call) : bool :=
  match c with
  | CIsVisible _ | CIsEnabled _ | CClick _ | CPress _ _ => true
  | _ => false
  end.

Definition detect_call (c : Call) : bool :=
  match c with CWaitForFunction _ _ _ | CCount _ => true | _ => false end.

Definition poll_call (c : Call) : bool :=
  match c with CInnerText _ | CWaitForTimeout _ => true | _ => false end.

(** Calls that do not read text. *)
Definition not_a_read (c : Call) : bool :=
  match c with CInnerText _ => false | _ => true end.

(** A call of a collaborator does not turn the clock back. *)
Definition keeps_time_op {W A : Type} (env : Env W) (op : W -> Settled A * W)
  : Prop :=
  forall w, (clock env w <= clock env (snd (op w)))%Z.

(** No call made while a page is open turns the clock back. *)
Record steady_clock {W : Type} (env : Env W) : Prop := mkSteady {
  steady_createPage : forall cdp u,
    keeps_time_op env (createPageViaPlaywright env cdp u);
  steady_getPage : forall cdp t, keeps_time_op env (getPageForTargetId env cdp t);
  steady_waitForLoadState : forall p t, keeps_time_op env (waitForLoadState env p t);
  steady_waitFor : forall p l t, keeps_time_op env (waitFor env p l t);
  steady_isEnabled : forall p l, keeps_time_op env (isEnabled env p l);
  steady_isVisible : forall p l, keeps_time_op env (isVisible env p l);
  steady_click : forall p l, keeps_time_op env (click env p l);
  steady_press : forall p l k, keeps_time_op env (press env p l k);
  steady_fill : forall p l v t, keeps_time_op env (fill env p l v t);
  steady_count : forall p l, keeps_time_op env (count env p l);
  steady_waitForFunction : forall p n s t,
    keeps_time_op env (waitForFunction env p n s t);
  steady_innerText : forall p l, keeps_time_op env (innerText env p l);
  steady_waitForTimeout : forall p ms,
    (0 <= ms)%Z -> keeps_time_op env (waitForTimeout env p ms)
}.

(** A computation does not turn the clock back. *)
Definition keeps_time {W A : Type} (env : Env W) (m : M W A) : Prop :=
  forall w, (clock env w <= clock env (snd (fst (m w))))%Z.

(** Calls made before a page is opened. *)
Definition preparing_call (c : Call) : bool :=
  match c with
  | CGetPwAiModule | CBrowserStatus _ | CBrowserStart _ => true
  | _ => false
  end.

(** The conversation of [conversation], with a first strategy that takes
    [ms] milliseconds to become visible. *)
Definition slow_conversation (ms : nat) : Replay :=
  mkReplay 0 [ yes (AModule (Some full_module));
               yes (AStatus live_status);
               slow 50 (APageInfo (mkPageInfo "T1"));
               yes (APage page0);
               paused;
               slow ms AUnit; yes (ABool true);
               yes (ACount 0);
               paused;
               yes (ABool true); yes (ABool true); paused;
               paused; yes (ACount 1);
               says "Hello"; paused; says "Hello"; paused;
               says "Hello"; paused; says " Hello ";
               mkStep 30 (Fulfilled AUnit) ].

(** What the [catch] clause of [runAtlasPrompt] rethrows for [err], and what
    it logs. *)
Definition as_prompt_failure (err : Thrown) : Thrown :=
  if is_AtlasUnavailable err then err
  else AtlasUnavailable ("Atlas prompt failed: " ++ String_of_thrown err).

Definition failure_note (err : Thrown) : string :=
  "Atlas prompt failed: " ++ String_of_thrown err.

Definition is_log_call (e : Event) : bool :=
  match ev_call e with CLogDebug _ => true | _ => false end.

Definition is_fill_call (e : Event) : bool :=
  match ev_call e with CFill _ _ _ => true | _ => false end.

(** A click or a key press. *)
Definition is_submit_action (e : Event) : bool :=
  match ev_call e with CClick _ | CPress _ _ => true | _ => false end.

(** Calls that neither type nor submit nor log. *)
Definition passive_call (c : Call) : bool :=
  match c with
  | CFill _ _ _ | CClick _ | CPress _ _ | CLogDebug _ => false
  | _ => true
  end.

(** The input is never found: every wait times out. *)
Definition input_never_shows : Replay :=
  mkReplay 0 [ yes (AModule (Some full_module));
               yes (AStatus live_status);
               yes (APageInfo (mkPageInfo "T1"));
               yes (APage page0);
               paused;
               no "Timeout 2500ms exceeded"; no "Timeout 2500ms exceeded";
               no "Timeout 2500ms exceeded"; no "Timeout 2500ms exceeded";
               paused ].

(** The page handle cannot be obtained after the page was opened. *)
Definition page_handle_fails : Replay :=
  mkReplay 0 [ yes (AModule (Some full_module));
               yes (AStatus live_status);
               yes (APageInfo (mkPageInfo "T1"));
               no "No page for target T1";
               paused ].

Definition not_a_log (c : Call) : bool :=
  match c with CLogDebug _ => false | _ => true end.

(** An [isEnabled] query answered true: the reply on which
    [findPromptInput] returns the locator it asked about. *)
Definition is_match (e : Event) : bool :=
  match ev_call e, ev_reply e with
  | CIsEnabled _, Fulfilled (ABool true) => true
  | _, _ => false
  end.

(** Calls other than [isEnabled]. *)
Definition not_a_query (c : Call) : bool :=
  match c with CIsEnabled _ => false | _ => true end.

(** The one message of the module that speaks of reachability is
    "Atlas browser is not reachable: ...", built in the [catch] clause of
    [ensureAtlasCdpUrl].  An error says so when its text has the word. *)
Definition says_unreachable (e : Thrown) : bool :=
  includes (String_of_thrown e) "reachable".

End Atlas.

(* ===================================================================== *)
(** * Properties of the sync payload sanitizer                            *)
(* ===================================================================== *)

Module MatrixFacts.
Import Js Matrix.

Lemma filter_valid_as_filter (items : list (option JsVal)) :
  map (fun s => Some (JStr s)) (filter_valid items) = filter slot_valid items.
Proof.
  induction items as [|slot rest IH]; [reflexivity|].
  destruct slot as [v|]; [|exact IH].
  destruct v; try exact IH.
  cbn [filter_valid filter slot_valid].
  destruct (valid_entry (JStr s)); cbn [map]; now rewrite IH.
Qed.

Lemma filter_valid_length (items : list (option JsVal)) :
  List.length (filter_valid items) + dropped_count items = List.length items.
Proof.
  unfold dropped_count.
  induction items as [|slot rest IH]; [reflexivity|].
  destruct slot as [v|]; [|cbn in *; lia].
  destruct v; try (cbn in *; lia).
  cbn [filter_valid filter slot_valid].
  destruct (valid_entry (JStr s)); cbn in *; lia.
Qed.

Lemma filter_valid_nonblank (items : list (option JsVal)) (s : string) :
  In s (filter_valid items) <->
  In (Some (JStr s)) items /\ trim s <> "".
Proof.
  induction items as [|slot rest IH]; [cbn; tauto|].
  assert (Hv : forall t, valid_entry (JStr t) = true <-> trim t <> "").
  { intro t. cbn. destruct (trim t); cbn; split; congruence || easy. }
  destruct slot as [v|].
  2:{ cbn [filter_valid In]. rewrite IH. intuition congruence. }
  destruct v; try (cbn [filter_valid In]; rewrite IH; intuition congruence).
  cbn [filter_valid].
  destruct (valid_entry (JStr s0)) eqn:E; cbn [In]; rewrite IH.
  - apply Hv in E. split.
    + intros [->|[H1 H2]]; auto.
    + intros [[H|H] H2]; [left; congruence|auto].
  - split.
    + intros [H1 H2]; auto.
    + intros [[H|H] H2]; [|auto].
      injection H as ->. apply Hv in H2. congruence.
Qed.

(** C7. For an array input with M slots of which N are not strings that stay
    non-empty after trimming, the sanitizer returns exactly the kept string
    entries, in their original order; the result has length M - N; when
    N > 0 exactly one warning is issued and it states N, and when N = 0 no
    warning is issued. *)
Theorem sanitizeUserIdList_array (items : list (option JsVal)) (label : string) :
  let out := fst (sanitizeUserIdList (JArr items) label) in
  let warnings := snd (sanitizeUserIdList (JArr items) label) in
  let N := dropped_count items in
  map (fun s => Some (JStr s)) out = filter slot_valid items
  /\ (forall s, In s out <-> In (Some (JStr s)) items /\ trim s <> "")
  /\ List.length out = List.length items - N
  /\ warnings = (if (N =? 0)%nat then [] else [dropped_warning N label]).
Proof.
  cbv zeta.
  pose proof (filter_valid_length items) as HL.
  unfold sanitizeUserIdList. cbn [is_nullish].
  destruct (Nat.eqb_spec (List.length (filter_valid items)) (List.length items))
    as [E|E]; cbn [negb fst snd].
  - split; [|split; [|split]].
    + apply filter_valid_as_filter.
    + apply filter_valid_nonblank.
    + lia.
    + replace (dropped_count items) with 0 by lia. reflexivity.
  - split; [|split; [|split]].
    + apply filter_valid_as_filter.
    + apply filter_valid_nonblank.
    + lia.
    + destruct (Nat.eqb_spec (dropped_count items) 0) as [Z|Z]; [lia|].
      unfold dropped_warning.
      replace (List.length items - List.length (filter_valid items))
        with (dropped_count items) by lia.
      reflexivity.
Qed.

(** C8, as stated, fails: [null] is not an array, the sanitizer returns the
    empty list for it and records no warning. *)
Lemma sanitizeUserIdList_null_is_silent :
  ~ (forall (input : JsVal) (label : string),
        is_array input = false ->
        fst (sanitizeUserIdList input label) = []
        /\ snd (sanitizeUserIdList input label) <> []).
Proof.
  intro H. destruct (H JNull "left device list" eq_refl) as [_ Hw].
  apply Hw. reflexivity.
Qed.

(** C8, amended. For every input that is not an array the sanitizer returns
    the empty list (it is a total function: nothing is raised); exactly one
    warning, naming the label and the [typeof] of the input, is recorded
    unless the input is [null] or [undefined], for which none is. *)
Theorem sanitizeUserIdList_non_array (input : JsVal) (label : string) :
  is_array input = false ->
  sanitizeUserIdList input label
  = ([], if is_nullish input then [] else [not_array_warning input label]).
Proof.
  destruct input; cbn; intros H; try reflexivity; discriminate.
Qed.

Lemma sanitizeUserIdList_non_array_witness :
  sanitizeUserIdList (JNum "3") "changed device list"
  = ([], ["Expected changed device list list to be an array, got number"]).
Proof.
  apply (sanitizeUserIdList_non_array (JNum "3") "changed device list").
  reflexivity.
Defined.

Lemma includes_contains (s needle : string) :
  includes s needle = true <-> contains s needle.
Proof.
  unfold includes, contains. split.
  - destruct (index 0 needle s) as [m|] eqn:E; [|discriminate].
    intros _. exists m. now apply index_correct1 with (n := 0).
  - intros [m Hm].
    destruct (index 0 needle s) as [k|] eqn:E; [reflexivity|].
    destruct needle as [|c rest].
    + destruct s; cbn in E; discriminate.
    + exfalso. revert Hm.
      apply index_correct3 with (n := 0); [exact E|discriminate|lia].
Qed.

Lemma updateSyncData_unfold
  (original : JsVal -> JsVal -> JsVal -> list string -> list string -> Outcome)
  (a b c changed left : JsVal) :
  updateSyncData original a b c changed left =
  let safeChanged := fst (sanitizeUserIdList changed "changed device list") in
  let safeLeft := fst (sanitizeUserIdList left "left device list") in
  let logged :=
    map (fun m => warn m None)
        (snd (sanitizeUserIdList changed "changed device list")
         ++ snd (sanitizeUserIdList left "left device list"))%list in
  match original a b c safeChanged safeLeft with
  | Fulfilled v => (Fulfilled v, logged)
  | Rejected err =>
      if includes (caught_message err) malformed_signature then
        (Fulfilled JUndefined,
         (logged ++ [swallowed_warning (caught_message err)])%list)
      else (Rejected err, logged)
  end.
Proof.
  unfold updateSyncData.
  destruct (sanitizeUserIdList changed _) as [sc w1].
  destruct (sanitizeUserIdList left _) as [sl w2].
  reflexivity.
Qed.

(** When the wrapped call fulfils, the wrapper fulfils with the same value
    and adds nothing to the sanitizer's warnings. *)
Lemma updateSyncData_passes_result
  (original : JsVal -> JsVal -> JsVal -> list string -> list string -> Outcome)
  (a b c changed left v : JsVal) :
  original a b c (fst (sanitizeUserIdList changed "changed device list"))
           (fst (sanitizeUserIdList left "left device list")) = Fulfilled v ->
  fst (updateSyncData original a b c changed left) = Fulfilled v.
Proof.
  intros H. rewrite updateSyncData_unfold. cbv zeta. now rewrite H.
Qed.

(** C9. When the wrapped device-list update rejects with a string or an
    [Error] whose message contains "Expect value to be String", the wrapper
    logs one warning and fulfils with [undefined] (a no-op update); when the
    message does not contain it, the wrapper rejects with the very same
    value and logs nothing more. *)
Theorem updateSyncData_swallows_signature_only
  (original : JsVal -> JsVal -> JsVal -> list string -> list string -> Outcome)
  (a b c changed left : JsVal) (err : Thrown) :
  let safeChanged := fst (sanitizeUserIdList changed "changed device list") in
  let safeLeft := fst (sanitizeUserIdList left "left device list") in
  let logged :=
    map (fun m => warn m None)
        (snd (sanitizeUserIdList changed "changed device list")
         ++ snd (sanitizeUserIdList left "left device list"))%list in
  original a b c safeChanged safeLeft = Rejected err ->
  (contains (caught_message err) malformed_signature ->
   updateSyncData original a b c changed left
   = (Fulfilled JUndefined,
      (logged ++ [swallowed_warning (caught_message err)])%list))
  /\ (~ contains (caught_message err) malformed_signature ->
      updateSyncData original a b c changed left = (Rejected err, logged)).
Proof.
  cbv zeta. intros H. rewrite updateSyncData_unfold. cbv zeta. rewrite H.
  split; intros Hc.
  - apply includes_contains in Hc. now rewrite Hc.
  - destruct (includes (caught_message err) malformed_signature) eqn:E;
      [|reflexivity].
    exfalso. apply Hc. now apply includes_contains.
Qed.

Lemma updateSyncData_swallows_signature_only_witness :
  updateSyncData
    (always_rejects
       (ThrownError (OtherError "Error")
                    "Expect value to be String, but received null"))
    JUndefined JUndefined JUndefined
    (JArr [Some (JStr "@a:example.org"); Some JNull]) JUndefined
  = (Fulfilled JUndefined,
     [warn "Dropping 1 invalid changed device list entries from sync payload" None;
      swallowed_warning "Expect value to be String, but received null"])
  /\ updateSyncData
       (always_rejects (ThrownValue (JStr "M_LIMIT_EXCEEDED")))
       JUndefined JUndefined JUndefined (JArr []) (JArr [])
     = (Rejected (ThrownValue (JStr "M_LIMIT_EXCEEDED")), []).
Proof.
  split.
  - apply (updateSyncData_swallows_signature_only
             (always_rejects
                (ThrownError (OtherError "Error")
                   "Expect value to be String, but received null"))
             JUndefined JUndefined JUndefined
             (JArr [Some (JStr "@a:example.org"); Some JNull]) JUndefined
             (ThrownError (OtherError "Error")
                "Expect value to be String, but received null")).
    + reflexivity.
    + exists 0. reflexivity.
  - apply (updateSyncData_swallows_signature_only
             (always_rejects (ThrownValue (JStr "M_LIMIT_EXCEEDED")))
             JUndefined JUndefined JUndefined (JArr []) (JArr [])
             (ThrownValue (JStr "M_LIMIT_EXCEEDED"))).
    + reflexivity.
    + intro Hc. apply includes_contains in Hc. vm_compute in Hc. discriminate.
Defined.

(** ** Further properties of the sanitizer and of the wrapper *)

Lemma nonblank_b_spec (s : string) : nonblank_b s = true <-> nonblank s.
Proof.
  unfold nonblank_b, nonblank. cbn.
  destruct (trim s); cbn; split; congruence || easy.
Qed.

Lemma filter_valid_clean (items : list (option JsVal)) :
  clean (filter_valid items).
Proof.
  apply Forall_forall. intros s Hs.
  now apply filter_valid_nonblank in Hs.
Qed.

Lemma filter_valid_of_clean (ids : list string) :
  clean ids -> filter_valid (map (fun s => Some (JStr s)) ids) = ids.
Proof.
  induction 1 as [|s ids Hs _ IH]; [reflexivity|].
  cbn [map filter_valid]. apply nonblank_b_spec in Hs.
  unfold nonblank_b in Hs. rewrite Hs, IH. reflexivity.
Qed.

Lemma sanitizeUserIdList_of_clean (ids : list string) (label : string) :
  clean ids -> sanitizeUserIdList (array_of ids) label = (ids, []).
Proof.
  intros H. unfold sanitizeUserIdList, array_of. cbn [is_nullish].
  rewrite (filter_valid_of_clean _ H), length_map, Nat.eqb_refl.
  reflexivity.
Qed.

Lemma sanitizeUserIdList_clean (input : JsVal) (label : string) :
  clean (fst (sanitizeUserIdList input label)).
Proof.
  unfold sanitizeUserIdList.
  destruct input; cbn [is_nullish fst]; try constructor.
  destruct (negb _); apply filter_valid_clean.
Qed.

(** X1. Whatever the input (array or not), every identifier the sanitizer
    returns is non-empty after trimming, each comes from a string slot of
    the input array, and at most one warning is issued per call. *)
Theorem sanitizeUserIdList_output_invariant (input : JsVal) (label : string) :
  clean (fst (sanitizeUserIdList input label))
  /\ (forall s, In s (fst (sanitizeUserIdList input label)) ->
      exists items, input = JArr items /\ In (Some (JStr s)) items)
  /\ List.length (snd (sanitizeUserIdList input label)) <= 1.
Proof.
  split; [apply sanitizeUserIdList_clean|].
  unfold sanitizeUserIdList.
  destruct input; cbn [is_nullish fst snd]; try (split; [intros ? []|cbn; lia]).
  split.
  - intros s Hs. exists items. split; [reflexivity|].
    assert (In s (filter_valid items)) as Hin by (destruct (negb _); exact Hs).
    now apply filter_valid_nonblank in Hin.
  - destruct (negb _); cbn; lia.
Qed.

(** X2. Sanitizing is idempotent: feeding the sanitizer's output for an
    array back to it, under any label, returns the same list and issues no
    warning. *)
Theorem sanitizeUserIdList_idempotent (items : list (option JsVal))
  (label label' : string) :
  sanitizeUserIdList
    (array_of (fst (sanitizeUserIdList (JArr items) label))) label'
  = (fst (sanitizeUserIdList (JArr items) label), []).
Proof.
  apply sanitizeUserIdList_of_clean, sanitizeUserIdList_clean.
Qed.

Lemma forallb_nonblank (ids : list string) :
  clean ids -> forallb nonblank_b ids = true.
Proof.
  intros H. apply forallb_forall. intros s Hs.
  apply nonblank_b_spec. unfold clean in H. rewrite Forall_forall in H.
  now apply H.
Qed.

(** X3. The wrapped update is only ever consulted on clean lists: two
    wrapped calls that agree whenever both identifier lists are clean give
    wrappers that agree on every payload. *)
Theorem updateSyncData_consults_clean_lists_only
  (o1 o2 : JsVal -> JsVal -> JsVal -> list string -> list string -> Outcome)
  (a b c changed left : JsVal) :
  (forall ids1 ids2, clean ids1 -> clean ids2 ->
                     o1 a b c ids1 ids2 = o2 a b c ids1 ids2) ->
  updateSyncData o1 a b c changed left = updateSyncData o2 a b c changed left.
Proof.
  intros H. rewrite !updateSyncData_unfold. cbv zeta.
  rewrite (H _ _ (sanitizeUserIdList_clean changed "changed device list")
             (sanitizeUserIdList_clean left "left device list")).
  reflexivity.
Qed.

Lemma updateSyncData_consults_clean_lists_only_witness :
  updateSyncData (always_rejects (ThrownValue (JStr "M_UNKNOWN")))
    JUndefined JUndefined JUndefined
    (JArr [Some (JStr " "); Some (JStr "@a:example.org")]) (JNum "7")
  = updateSyncData (rejects_when_clean (ThrownValue (JStr "M_UNKNOWN")))
      JUndefined JUndefined JUndefined
      (JArr [Some (JStr " "); Some (JStr "@a:example.org")]) (JNum "7").
Proof.
  apply (updateSyncData_consults_clean_lists_only
           (always_rejects (ThrownValue (JStr "M_UNKNOWN")))
           (rejects_when_clean (ThrownValue (JStr "M_UNKNOWN")))).
  intros ids1 ids2 H1 H2. unfold always_rejects, rejects_when_clean.
  rewrite (forallb_nonblank _ H1), (forallb_nonblank _ H2). reflexivity.
Defined.

(** X4. The wrapper rejects only when the wrapped call rejected, with the
    same value, and never with a string or an [Error] whose message contains
    "Expect value to be String". *)
Theorem updateSyncData_rejections
  (original : JsVal -> JsVal -> JsVal -> list string -> list string -> Outcome)
  (a b c changed left : JsVal) (err : Thrown) :
  fst (updateSyncData original a b c changed left) = Rejected err ->
  original a b c (fst (sanitizeUserIdList changed "changed device list"))
           (fst (sanitizeUserIdList left "left device list")) = Rejected err
  /\ ~ contains (caught_message err) malformed_signature.
Proof.
  rewrite updateSyncData_unfold. cbv zeta.
  destruct (original a b c _ _) as [v|e]; cbn [fst]; [discriminate|].
  destruct (includes (caught_message e) malformed_signature) eqn:E; cbn [fst];
    [discriminate|].
  intros [= ->]. split; [reflexivity|].
  intros Hc. apply includes_contains in Hc. congruence.
Qed.

Lemma updateSyncData_rejections_witness :
  always_rejects (ThrownValue (JStr "M_LIMIT_EXCEEDED"))
    JUndefined JUndefined JUndefined
    (fst (sanitizeUserIdList (JArr []) "changed device list"))
    (fst (sanitizeUserIdList JNull "left device list"))
  = Rejected (ThrownValue (JStr "M_LIMIT_EXCEEDED"))
  /\ ~ contains (caught_message (ThrownValue (JStr "M_LIMIT_EXCEEDED")))
                malformed_signature.
Proof.
  apply (updateSyncData_rejections
           (always_rejects (ThrownValue (JStr "M_LIMIT_EXCEEDED")))
           JUndefined JUndefined JUndefined (JArr []) JNull).
  reflexivity.
Defined.

(** X5. On a payload whose two lists are arrays of clean identifiers the
    wrapper is transparent: unless the wrapped call rejects with the
    absorbed signature, the wrapper's outcome is the wrapped call's outcome
    on those very lists and nothing is logged. *)
Theorem updateSyncData_transparent_on_clean
  (original : JsVal -> JsVal -> JsVal -> list string -> list string -> Outcome)
  (a b c : JsVal) (changed left : list string) :
  clean changed -> clean left ->
  absorbed (original a b c changed left) = false ->
  updateSyncData original a b c (array_of changed) (array_of left)
  = (original a b c changed left, []).
Proof.
  intros Hc Hl Ha. rewrite updateSyncData_unfold. cbv zeta.
  rewrite !sanitizeUserIdList_of_clean by assumption. cbn [fst snd app map].
  destruct (original a b c changed left) as [v|e]; [reflexivity|].
  cbn [absorbed] in Ha. now rewrite Ha.
Qed.

Lemma updateSyncData_transparent_on_clean_witness :
  updateSyncData (always_rejects (ThrownValue (JStr "M_LIMIT_EXCEEDED")))
    JUndefined JUndefined JUndefined
    (array_of ["@a:example.org"]) (array_of [])
  = (Rejected (ThrownValue (JStr "M_LIMIT_EXCEEDED")), []).
Proof.
  apply (updateSyncData_transparent_on_clean
           (always_rejects (ThrownValue (JStr "M_LIMIT_EXCEEDED")))
           JUndefined JUndefined JUndefined ["@a:example.org"] []).
  - constructor; [|constructor]. unfold nonblank. vm_compute. discriminate.
  - constructor.
  - vm_compute. reflexivity.
Defined.

End MatrixFacts.

(* ===================================================================== *)
(** * Properties of the Atlas module                                      *)
(* ===================================================================== *)

Module AtlasFacts.
Import Js Atlas.

(** ** The availability gate *)

Section Gate.
Context {Config BrowserConfig Resolved : Type}.
Variable api : ConfigApi Config BrowserConfig Resolved.

Lemma env_truthy_holds (penv : ProcessEnv) (key : string) :
  holds_text penv key -> env_truthy penv key = true.
Proof.
  intros [v [E Hv]]. unfold env_truthy. rewrite E.
  destruct v; [congruence|reflexivity].
Qed.

Lemma env_equals_holds (penv : ProcessEnv) (key v : string) :
  penv key = Some v -> env_equals penv key v = true.
Proof.
  intros E. unfold env_equals. rewrite E. apply String.eqb_refl.
Qed.

(** C10. [canUseAtlas] always returns a boolean (nothing is raised).  It
    returns [false] whenever a test-environment marker is set (NODE_ENV is
    "test", or VITEST, VITEST_WORKER_ID or JEST_WORKER_ID holds a non-empty
    string) or the caller declares itself sandboxed, whatever the
    configuration resolves to; and it returns [false] whenever resolving
    the profile throws. *)
Theorem canUseAtlas_gate (penv : ProcessEnv)
  (options : option (GateOptions Config)) :
  (exists b, canUseAtlas api penv options = Fulfilled b)
  /\ (test_marker_set penv \/ declares_sandboxed options ->
      canUseAtlas api penv options = Fulfilled false)
  /\ (forall e, resolveAtlasProfile api (gate_config_of options) = Rejected e ->
      canUseAtlas api penv options = Fulfilled false).
Proof.
  unfold canUseAtlas. fold (gate_config_of options).
  split; [|split].
  - destruct (_ || _ || _ || _); [now exists false|].
    destruct (flag _); [now exists false|].
    destruct (resolveAtlasProfile api _) as [[p|]|e];
      [now exists true|now exists false|now exists false].
  - intros [Hm|[o [-> Hs]]].
    + assert (E : env_equals penv "NODE_ENV" "test"
                  || env_truthy penv "VITEST"
                  || env_truthy penv "VITEST_WORKER_ID"
                  || env_truthy penv "JEST_WORKER_ID" = true).
      { destruct Hm as [H|[H|[H|H]]].
        - rewrite (env_equals_holds _ _ _ H). reflexivity.
        - rewrite (env_truthy_holds _ _ H). now rewrite !orb_true_r.
        - rewrite (env_truthy_holds _ _ H). now rewrite !orb_true_r.
        - rewrite (env_truthy_holds _ _ H). now rewrite !orb_true_r. }
      now rewrite E.
    + destruct (_ || _ || _ || _); [reflexivity|].
      rewrite Hs. reflexivity.
  - intros e He.
    destruct (_ || _ || _ || _); [reflexivity|].
    destruct (flag _); [reflexivity|].
    now rewrite He.
Qed.

End Gate.

Lemma canUseAtlas_gate_witness :
  canUseAtlas good_api vitest_env None = Fulfilled false
  /\ canUseAtlas good_api no_env (Some (mkGateOptions None (Some true)))
     = Fulfilled false
  /\ canUseAtlas throwing_api no_env None = Fulfilled false.
Proof.
  split; [|split].
  - apply (canUseAtlas_gate good_api vitest_env None).
    left. right. left. exists "true". split; [reflexivity|discriminate].
  - apply (canUseAtlas_gate good_api no_env
             (Some (mkGateOptions None (Some true)))).
    right. eexists. split; reflexivity.
  - apply (canUseAtlas_gate throwing_api no_env None)
      with (e := script_error "Invalid browser config").
    reflexivity.
Defined.

(** ** The stability reader *)

Lemma ticks_after_stable (seen : list string) :
  (3 <=? ticks_after seen)%nat = stable_newest_first seen.
Proof.
  destruct seen as [|a [|b [|c [|d rest]]]]; cbn [ticks_after hd stable_newest_first].
  - reflexivity.
  - destruct a; reflexivity.
  - destruct (truthy a && String.eqb a b); [|reflexivity].
    destruct b; reflexivity.
  - destruct (truthy a && String.eqb a b); [|reflexivity].
    destruct (truthy b && String.eqb b c); [|reflexivity].
    destruct c; reflexivity.
  - destruct (String.eqb_spec a b) as [->|];
      [|destruct (truthy a); reflexivity].
    destruct (String.eqb_spec b c) as [->|];
      [|destruct (truthy b); reflexivity].
    destruct (truthy c); [|reflexivity].
    destruct (String.eqb c d); reflexivity.
Qed.

Lemma stable_newest_first_truthy (x : string) (seen : list string) :
  stable_newest_first (x :: seen) = true -> truthy x = true.
Proof.
  destruct seen as [|b [|c [|d rest]]]; cbn; try discriminate.
  destruct (truthy x); [reflexivity|discriminate].
Qed.

Section StabilityReader.
Context {W : Type}.
Variable env : Env W.
Variables (page : Page) (l : Locator) (start timeoutMs : Z).

Local Abbreviation loop fuel := (readStableText_loop env fuel page l start timeoutMs).

(** One iteration of the loop, spelled out on a world. *)
Lemma readStableText_loop_step (fuel : nat) (seen : list string) (w : W) :
  loop (S fuel) (hd "" seen) (ticks_after seen) w =
  if (clock env w - start <? timeoutMs)%Z then
    let sw := innerText env page l w in
    let ev1 := mkEvent (clock env w) (CInnerText l) (settled_answer (fst sw)) in
    let txt := sample_text (settled_answer (fst sw)) in
    if stable_newest_first (txt :: seen) then (Ok txt, snd sw, [ev1])
    else
      let pw := waitForTimeout env page 400 (snd sw) in
      let ev2 := mkEvent (clock env (snd sw)) (CWaitForTimeout 400)
                         (settled_answer (fst pw)) in
      match fst pw with
      | Rejected e => (Throw e, snd pw, [ev1; ev2])
      | Fulfilled _ =>
          let '(r, w3, t3) := loop fuel (hd "" (txt :: seen))
                                   (ticks_after (txt :: seen)) (snd pw) in
          (r, w3, ev1 :: ev2 :: t3)
      end
  else (Ok (hd "" seen), w, []).
Proof.
  cbn [readStableText_loop]. unfold bind at 1. unfold now at 1.
  destruct (clock env w - start <? timeoutMs)%Z; [|reflexivity].
  cbv zeta.
  unfold bind at 1, catch_default, try_catch, call at 1.
  destruct (innerText env page l w) as [s w1] eqn:Es. cbn [fst snd].
  assert (Ht : forall raw,
             (match s with Fulfilled a => Ok a | Rejected _ => Ok (Some "") end)
             = Ok raw ->
             nullish_else (opt_trim raw) "" = sample_text (settled_answer s)).
  { intros raw. destruct s as [a|e]; intros [= <-]; reflexivity. }
  destruct s as [a|e]; cbn [ret app].
  - specialize (Ht a eq_refl). rewrite Ht.
    set (txt := sample_text _) in *.
    rewrite <- (ticks_after_stable (txt :: seen)). cbn [ticks_after].
    destruct (truthy txt && String.eqb txt (hd "" seen)) eqn:Ec.
    + apply andb_prop in Ec as [Et _]. rewrite Et, andb_true_r.
      destruct (3 <=? S (ticks_after seen))%nat; [reflexivity|].
      unfold bind, call.
      destruct (waitForTimeout env page 400 w1) as [[[]|e2] w2]; cbn [fst snd];
        [|reflexivity].
      cbn [hd]. destruct (readStableText_loop _ _ _ _ _ _ _ _ _) as [[r w3] t3].
      reflexivity.
    + cbn [Nat.leb andb].
      unfold bind, call.
      destruct (waitForTimeout env page 400 w1) as [[[]|e2] w2]; cbn [fst snd];
        [|reflexivity].
      cbn [hd]. destruct (readStableText_loop _ _ _ _ _ _ _ _ _) as [[r w3] t3].
      reflexivity.
  - specialize (Ht (Some "") eq_refl). rewrite Ht.
    set (txt := sample_text _) in *.
    assert (txt = "") as -> by reflexivity.
    cbn [truthy andb Nat.leb].
    replace (stable_newest_first ("" :: seen)) with false
      by (destruct seen as [|b [|c [|d rest]]]; reflexivity).
    unfold bind, call.
    destruct (waitForTimeout env page 400 w1) as [[[]|e2] w2]; cbn [fst snd];
      [|reflexivity].
    cbn [hd ticks_after truthy andb].
    destruct (readStableText_loop _ _ _ _ _ _ _ _ _) as [[r w3] t3].
    reflexivity.
Qed.

Lemma last_call_skip (e1 e2 : Event) (tr : list Event) :
  last_call (e1 :: e2 :: tr) = last_call (e2 :: tr).
Proof. reflexivity. Qed.

(** What a run of the loop does, given the samples [seen] before it
    (newest first), none of which made the text stable. *)
Lemma readStableText_loop_spec (fuel : nat) :
  forall (seen : list string) (w w' : W) (r : Res string) (tr : list Event),
    stable_newest_first seen = false ->
    loop fuel (hd "" seen) (ticks_after seen) w = (r, w', tr) ->
    polling l tr
    /\ (forall k, k < List.length (samples_of tr) ->
        stable_newest_first (rev (firstn k (samples_of tr)) ++ seen) = false)
    /\ match r with
       | Ok t =>
           t = hd "" (rev (samples_of tr) ++ seen)
           /\ ended_on_sample tr
              = stable_newest_first (rev (samples_of tr) ++ seen)
           /\ (ended_on_sample tr = false ->
               (timeoutMs <= clock env w' - start)%Z)
       | Throw e =>
           stable_newest_first (rev (samples_of tr) ++ seen) = false
           /\ exists front t,
               tr = (front ++ [mkEvent t (CWaitForTimeout 400) (Rejected e)])%list
       | OutOfFuel =>
           stable_newest_first (rev (samples_of tr) ++ seen) = false
       end.
Proof.
  induction fuel as [|fuel IH]; intros seen w w' r tr Hseen Hrun.
  - cbn in Hrun. injection Hrun as <- <- <-.
    split; [constructor|]. split; [cbn; lia|]. exact Hseen.
  - rewrite readStableText_loop_step in Hrun.
    destruct (clock env w - start <? timeoutMs)%Z eqn:Et.
    2:{ injection Hrun as <- <- <-.
        split; [constructor|]. split; [cbn; lia|].
        cbn [samples_of rev app].
        split; [reflexivity|]. split; [now rewrite Hseen|].
        intros _. apply Z.ltb_ge in Et. exact Et. }
    cbv zeta in Hrun.
    destruct (innerText env page l w) as [s w1]. cbn [fst snd] in Hrun.
    set (txt := sample_text (settled_answer s)) in *.
    set (ev1 := mkEvent (clock env w) (CInnerText l) (settled_answer s)) in *.
    assert (Hs1 : samples_of [ev1] = [txt]) by reflexivity.
    destruct (stable_newest_first (txt :: seen)) eqn:Est.
    { injection Hrun as <- <- <-.
      split; [constructor|]. rewrite Hs1. cbn [List.length rev app firstn hd].
      split.
      - intros k Hk. replace k with 0 by lia. exact Hseen.
      - split; [reflexivity|]. split; [now rewrite Est|]. discriminate. }
    destruct (waitForTimeout env page 400 w1) as [[[]|e2] w2];
      cbn [fst snd] in Hrun.
    2:{ injection Hrun as <- <- <-.
        split; [constructor|].
        change (samples_of _) with [txt]. cbn [List.length rev app firstn hd].
        split.
        - intros k Hk. replace k with 0 by lia. exact Hseen.
        - split; [exact Est|]. exists [ev1]. eexists. reflexivity. }
    destruct (loop fuel (hd "" (txt :: seen)) (ticks_after (txt :: seen)) w2)
      as [[r3 w3] t3] eqn:Erest.
    injection Hrun as <- <- <-.
    specialize (IH (txt :: seen) w2 w3 r3 t3 Est Erest)
      as (Hshape & Hprefix & Hres).
    set (ev2 := mkEvent (clock env w1) (CWaitForTimeout 400)
                        (Fulfilled (to_answer tt))).
    assert (Hs : samples_of (ev1 :: ev2 :: t3) = txt :: samples_of t3)
      by reflexivity.
    assert (Hrev : forall xs, (rev (txt :: xs) ++ seen = rev xs ++ txt :: seen)%list).
    { intros xs. cbn [rev]. now rewrite <- app_assoc. }
    assert (Hend : ended_on_sample (ev1 :: ev2 :: t3) = ended_on_sample t3).
    { unfold ended_on_sample. rewrite last_call_skip.
      destruct t3 as [|e3 t3']; reflexivity. }
    split; [now apply polling_more|].
    rewrite Hs. split.
    + intros [|k] Hk; [exact Hseen|].
      cbn [firstn]. rewrite Hrev. apply Hprefix. cbn in Hk. lia.
    + rewrite Hrev, Hend. destruct r3 as [t|e|]; try exact Hres.
      destruct Hres as (Hst & front & t & Htr). split; [exact Hst|].
      exists (ev1 :: ev2 :: front), t. now rewrite Htr.
Qed.

(** Under the clock assumptions the loop ends within [fuel_for] of the
    time that is left. *)
Lemma readStableText_loop_ends (Hread : reads_keep_time env)
  (Hpause : pauses_take_time env) (fuel : nat) :
  forall (seen : list string) (w : W),
    fuel_for (timeoutMs - (clock env w - start)) <= fuel ->
    fst (fst (loop fuel (hd "" seen) (ticks_after seen) w)) <> OutOfFuel.
Proof.
  induction fuel as [|fuel IH]; intros seen w Hfuel.
  - unfold fuel_for in Hfuel. lia.
  - rewrite readStableText_loop_step.
    destruct (clock env w - start <? timeoutMs)%Z eqn:Et; [|discriminate].
    apply Z.ltb_lt in Et. cbv zeta.
    pose proof (Hread page l w) as Hr.
    destruct (innerText env page l w) as [s w1]. cbn [fst snd] in *.
    destruct (stable_newest_first _); [discriminate|].
    pose proof (Hpause page 400%Z w1) as Hp.
    destruct (waitForTimeout env page 400 w1) as [[[]|e2] w2];
      cbn [fst snd]; [|discriminate].
    specialize (Hp w2 eq_refl).
    specialize (IH (sample_text (settled_answer s) :: seen) w2).
    destruct (loop fuel _ _ w2) as [[r3 w3] t3]. cbn [fst] in *.
    apply IH. unfold fuel_for in *.
    assert (Hq : ((timeoutMs - (clock env w2 - start) + 399) / 400
                  <= (timeoutMs - (clock env w - start) + 399) / 400 - 1)%Z).
    { replace ((timeoutMs - (clock env w - start) + 399) / 400 - 1)%Z
        with ((timeoutMs - (clock env w - start) + 399 + (-1) * 400) / 400)%Z
        by (rewrite Z.div_add by lia; lia).
      apply Z.div_le_mono; lia. }
    assert (Hpos : (1 <= (timeoutMs - (clock env w - start) + 399) / 400)%Z).
    { apply Z.div_le_lower_bound; lia. }
    lia.
Qed.

End StabilityReader.

Lemma hd_rev_last (d : string) (xs : list string) :
  hd d (rev xs ++ []) = last xs d.
Proof.
  rewrite app_nil_r. induction xs as [|x xs IH] using rev_ind; [reflexivity|].
  rewrite rev_app_distr, last_last. reflexivity.
Qed.

(** [stable] says what the specification says: the samples end with four
    copies of one non-empty text. *)
Lemma stable_four_equal (samples : list string) :
  stable samples = true <->
  exists front t, t <> "" /\ samples = (front ++ [t; t; t; t])%list.
Proof.
  unfold stable. split.
  - destruct (rev samples) as [|a [|b [|c [|d rest]]]] eqn:E; cbn;
      try discriminate.
    destruct (String.eqb_spec a b) as [<-|]; [|now rewrite andb_false_r].
    destruct (String.eqb_spec a c) as [<-|]; [|now rewrite andb_false_r].
    destruct (String.eqb_spec a d) as [<-|]; [|now rewrite andb_false_r].
    rewrite !andb_true_r. intros Ha. exists (rev rest), a. split.
    + intros ->. discriminate.
    + rewrite <- (rev_involutive samples), E. cbn.
      now rewrite <- !app_assoc.
  - intros (front & t & Ht & ->).
    rewrite rev_app_distr. cbn. rewrite String.eqb_refl.
    destruct t; [congruence|reflexivity].
Qed.

Section StabilityReaderTop.
Context {W : Type}.
Variable env : Env W.

Lemma readStableText_unfold (fuel : nat) (page : Page) (l : Locator)
  (timeoutMs : Z) (w : W) :
  readStableText env fuel page l timeoutMs w
  = readStableText_loop env fuel page l (clock env w) timeoutMs
      (hd "" []) (ticks_after []) w.
Proof.
  unfold readStableText, bind, now. cbn [hd ticks_after].
  destruct (readStableText_loop _ _ _ _ _ _ _ _ _) as [[r w'] tr].
  reflexivity.
Qed.

(** C3. On every run of the stability reader the trace alternates text
    reads with pauses of 400 ms; no sample is ever taken once the samples
    so far end with four equal non-empty texts; when the samples taken do
    end so, the reader has returned that text right after the last sample;
    and it returns right after a sample only in that situation. *)
Theorem readStableText_returns_when_stable (fuel : nat) (page : Page)
  (l : Locator) (timeoutMs : Z) (w w' : W) (r : Res string)
  (tr : list Event) :
  readStableText env fuel page l timeoutMs w = (r, w', tr) ->
  polling l tr
  /\ (forall k, k < List.length (samples_of tr) ->
      stable (firstn k (samples_of tr)) = false)
  /\ (stable (samples_of tr) = true ->
      r = Ok (last (samples_of tr) "") /\ ended_on_sample tr = true)
  /\ (forall t, r = Ok t -> ended_on_sample tr = true ->
      stable (samples_of tr) = true /\ t = last (samples_of tr) "").
Proof.
  rewrite readStableText_unfold. intros Hrun.
  apply readStableText_loop_spec in Hrun as (Hshape & Hprefix & Hres);
    [|reflexivity].
  unfold stable.
  split; [exact Hshape|]. split.
  { intros k Hk. specialize (Hprefix k Hk). now rewrite app_nil_r in Hprefix. }
  rewrite hd_rev_last in Hres. rewrite !app_nil_r in Hres. split.
  - intros Hst. destruct r as [t|e|].
    + destruct Hres as (-> & Hend & _). split; [reflexivity|congruence].
    + destruct Hres as [Hno _]. congruence.
    + congruence.
  - intros t -> Hend. destruct Hres as (-> & Hst & _).
    split; [congruence|reflexivity].
Qed.

(** C4, amended. When reading text never turns the clock back and a
    fulfilled pause lasts at least its 400 ms, the stability reader ends
    within [fuel_for timeoutMs] iterations, and it ends in one of two ways:
    it returns the last sample taken (the empty string when none was
    taken), and if the samples did not become stable the budget has by
    then elapsed; or a pause between two samples rejected and the reader
    raises that very rejection.  A failing text read never raises. *)
Theorem readStableText_best_effort
  (Hread : reads_keep_time env) (Hpause : pauses_take_time env)
  (fuel : nat) (page : Page) (l : Locator) (timeoutMs : Z) (w w' : W)
  (r : Res string) (tr : list Event) :
  fuel_for timeoutMs <= fuel ->
  readStableText env fuel page l timeoutMs w = (r, w', tr) ->
  (r = Ok (last (samples_of tr) "")
   /\ (stable (samples_of tr) = false ->
       (timeoutMs <= clock env w' - clock env w)%Z))
  \/ (exists e front t,
         r = Throw e
         /\ tr = (front ++ [mkEvent t (CWaitForTimeout 400) (Rejected e)])%list).
Proof.
  rewrite readStableText_unfold. intros Hfuel Hrun.
  pose proof (readStableText_loop_ends env page l (clock env w) timeoutMs
                Hread Hpause fuel [] w) as Hends.
  rewrite Hrun in Hends. cbn [fst] in Hends.
  apply readStableText_loop_spec in Hrun as (_ & _ & Hres); [|reflexivity].
  rewrite hd_rev_last in Hres. rewrite !app_nil_r in Hres.
  destruct r as [t|e|].
  - left. destruct Hres as (-> & Hend & Htime). split; [reflexivity|].
    unfold stable. intros Hst. apply Htime. congruence.
  - right. destruct Hres as (_ & front & t & ->). now exists e, front, t.
  - exfalso. apply Hends; [|reflexivity].
    replace (timeoutMs - (clock env w - clock env w))%Z with timeoutMs by lia.
    exact Hfuel.
Qed.

End StabilityReaderTop.

Lemma replay_reads_keep_time : reads_keep_time replay_env.
Proof.
  intros page l [c script]. cbn. unfold replay. cbn.
  destruct script as [|[dt [a|e]] rest]; cbn; try lia.
  destruct (of_answer a); cbn; lia.
Qed.

Lemma replay_pauses_take_time : pauses_take_time replay_env.
Proof.
  intros page ms [c script] w'. cbn. unfold replay. cbn.
  destruct script as [|[dt [a|e]] rest]; cbn; try discriminate.
  destruct (of_answer a) as [[]|]; cbn; [|discriminate].
  intros [= <-]. cbn. lia.
Qed.

Lemma readStableText_returns_when_stable_witness :
  let run := readStableText replay_env 8 page0 reply_locator 60000 six_samples in
  fst (fst run) = Ok "b"
  /\ snd (fst run) = mkReplay 2000 [paused; says "b!"; paused]
  /\ samples_of (snd run) = ["a"; "a"; "b"; "b"; "b"; "b"]
  /\ polling reply_locator (snd run)
  /\ (forall k, k < List.length (samples_of (snd run)) ->
      stable (firstn k (samples_of (snd run))) = false)
  /\ (stable (samples_of (snd run)) = true ->
      fst (fst run) = Ok (last (samples_of (snd run)) "")
      /\ ended_on_sample (snd run) = true)
  /\ (forall t, fst (fst run) = Ok t -> ended_on_sample (snd run) = true ->
      stable (samples_of (snd run)) = true
      /\ t = last (samples_of (snd run)) "").
Proof.
  cbv zeta.
  split; [reflexivity|]. split; [reflexivity|]. split; [reflexivity|].
  exact (readStableText_returns_when_stable replay_env 8 page0 reply_locator
           60000 six_samples _ _ _ eq_refl).
Defined.

(** C4, as stated, fails: a rejected pause makes the reader raise. *)
Lemma readStableText_can_raise :
  ~ (forall (W : Type) (env : Env W) (fuel : nat) (page : Page) (l : Locator)
            (timeoutMs : Z) (w : W) (e : Thrown),
        fst (fst (readStableText env fuel page l timeoutMs w)) <> Throw e).
Proof.
  intro H.
  apply (H Replay replay_env 4 page0 reply_locator 1000%Z closed_during_pause
           (script_error "Target page, context or browser has been closed")).
  reflexivity.
Qed.

Lemma readStableText_best_effort_witness :
  let run := readStableText replay_env 4 page0 reply_locator 1000 growing_text in
  fst (fst run) = Ok "Hel"
  /\ snd (fst run) = mkReplay 1200 [says "Hell"; paused]
  /\ samples_of (snd run) = ["H"; "He"; "Hel"]
  /\ ((fst (fst run) = Ok (last (samples_of (snd run)) "")
       /\ (stable (samples_of (snd run)) = false ->
           (1000 <= r_clock (snd (fst run)) - r_clock growing_text)%Z))
      \/ (exists e front t,
             fst (fst run) = Throw e
             /\ snd run
                = (front ++ [mkEvent t (CWaitForTimeout 400) (Rejected e)])%list)).
Proof.
  cbv zeta.
  split; [reflexivity|]. split; [reflexivity|]. split; [reflexivity|].
  exact (readStableText_best_effort replay_env replay_reads_keep_time
           replay_pauses_take_time 4 page0 reply_locator 1000 growing_text
           _ _ _ (le_n 4) eq_refl).
Defined.

(** ** The connection endpoint *)

Lemma no_url_or_else (u : option string) (dflt : string) :
  no_url u -> or_else (opt_trim u) dflt = dflt.
Proof.
  intros H. destruct u as [s|]; [|reflexivity].
  cbn. now rewrite (H s eq_refl).
Qed.

Section Endpoint.
Context {Config BrowserConfig Resolved W : Type}.
Variable api : ConfigApi Config BrowserConfig Resolved.
Variable env : Env W.

(** Whatever goes wrong in [ensureAtlasCdpUrl], the caller sees an
    [AtlasUnavailableError]. *)
Lemma ensureAtlasCdpUrl_throws_unavailable (profile : ResolvedBrowserProfile)
  (w : W) (e : Thrown) :
  fst (fst (ensureAtlasCdpUrl env profile w)) = Throw e ->
  is_AtlasUnavailable e = true.
Proof.
  unfold ensureAtlasCdpUrl, try_catch.
  destruct (bind _ _ w) as [[[a|e0|] w1] t1]; cbn; try discriminate.
  destruct (is_AtlasUnavailable e0) eqn:E; cbn; intros [= <-];
    [exact E|reflexivity].
Qed.

(** C6, amended. When the module loads, the status reports not running
    before and after a start request that itself succeeds, and neither the
    final status nor the profile holds a URL that is non-empty after
    trimming, [runAtlasPrompt] raises [AtlasUnavailableError] with the
    message "Atlas profile has no CDP URL."; the only calls made are the
    module load, the two status queries and the start request: no page is
    opened. *)
Theorem runAtlasPrompt_no_endpoint (fuel : nat) (options : PromptOptions Config)
  (profile : ResolvedBrowserProfile) (m : PwAiModule)
  (s1 s2 : BrowserStatus) (w w1 w2 w3 w4 : W) :
  flag (sandboxed options) = false ->
  resolveAtlasProfile api (config options) = Fulfilled (Some profile) ->
  getPwAiModule env w = (Fulfilled (Some m), w1) ->
  has_createPageViaPlaywright m = true ->
  has_getPageForTargetId m = true ->
  browserStatus env (name profile) w1 = (Fulfilled s1, w2) ->
  running s1 = false ->
  browserStart env (name profile) w2 = (Fulfilled tt, w3) ->
  browserStatus env (name profile) w3 = (Fulfilled s2, w4) ->
  running s2 = false ->
  no_url (status_cdpUrl s2) ->
  no_url (cdpUrl profile) ->
  exists tr,
    runAtlasPrompt api env fuel options w
    = (Throw (AtlasUnavailable "Atlas profile has no CDP URL."), w4, tr)
    /\ calls_of tr = [ CGetPwAiModule;
                       CBrowserStatus (name profile);
                       CBrowserStart (name profile);
                       CBrowserStatus (name profile) ]
    /\ filter is_create_call tr = [].
Proof.
  intros Hsb Hprof Hmod Hc Hg Hs1 Hr1 Hst Hs2 Hr2 Hu2 Hup.
  unfold runAtlasPrompt. rewrite Hsb, Hprof. cbn [lift_settled].
  unfold bind at 1. cbn [ret]. unfold bind at 1, call at 1. rewrite Hmod.
  rewrite Hc, Hg. cbn [negb orb].
  unfold bind at 1. unfold ensureAtlasCdpUrl, try_catch.
  unfold bind at 1, call at 1. rewrite Hs1.
  unfold bind at 1. rewrite Hr1. cbn [negb].
  unfold bind at 1, call at 1. rewrite Hst.
  unfold call at 1. rewrite Hs2.
  rewrite (no_url_or_else _ _ Hu2), (no_url_or_else _ _ Hup).
  cbn. eexists. split; [reflexivity|]. split; reflexivity.
Qed.

End Endpoint.

Lemma runAtlasPrompt_no_endpoint_witness :
  exists tr,
    runAtlasPrompt blank_api replay_env 0 (ask "Hello" 30000) never_running
    = (Throw (AtlasUnavailable "Atlas profile has no CDP URL."),
       mkReplay 0 [], tr)
    /\ calls_of tr = [ CGetPwAiModule; CBrowserStatus "atlas";
                       CBrowserStart "atlas"; CBrowserStatus "atlas" ]
    /\ filter is_create_call tr = [].
Proof.
  apply (runAtlasPrompt_no_endpoint blank_api replay_env 0 (ask "Hello" 30000)
           blank_profile full_module
           (mkStatus false None) (mkStatus false (Some " "))
           never_running
           (mkReplay 0 (tl (r_script never_running)))
           (mkReplay 0 (tl (tl (r_script never_running))))
           (mkReplay 0 (tl (tl (tl (r_script never_running)))))
           (mkReplay 0 []));
    try reflexivity.
  - intros s [= <-]. reflexivity.
  - intros s [= <-]. reflexivity.
Defined.

(** C6, as stated, fails: the browser is reported not running before and
    after a start request that succeeds, neither the status nor the profile
    holds a URL, and the error raised does not speak of reachability; its
    message is about the missing URL. *)
Lemma runAtlasPrompt_no_endpoint_says_no_url :
  ~ (forall (W : Type) (env : Env W) (fuel : nat)
            (options : PromptOptions unit) (m : PwAiModule)
            (s1 s2 : BrowserStatus) (w w1 w2 w3 w4 : W),
        flag (sandboxed options) = false ->
        getPwAiModule env w = (Fulfilled (Some m), w1) ->
        has_createPageViaPlaywright m = true ->
        has_getPageForTargetId m = true ->
        browserStatus env (name blank_profile) w1 = (Fulfilled s1, w2) ->
        running s1 = false ->
        browserStart env (name blank_profile) w2 = (Fulfilled tt, w3) ->
        browserStatus env (name blank_profile) w3 = (Fulfilled s2, w4) ->
        running s2 = false ->
        no_url (status_cdpUrl s2) ->
        no_url (cdpUrl blank_profile) ->
        exists e,
          fst (fst (runAtlasPrompt blank_api env fuel options w)) = Throw e
          /\ is_AtlasUnavailable e = true
          /\ says_unreachable e = true).
Proof.
  intro H.
  destruct (H Replay replay_env 0 (ask "Hello" 30000) full_module
              (mkStatus false None) (mkStatus false (Some " "))
              never_running
              (mkReplay 0 (tl (r_script never_running)))
              (mkReplay 0 (tl (tl (r_script never_running))))
              (mkReplay 0 (tl (tl (tl (r_script never_running)))))
              (mkReplay 0 []))
    as (e & He & _ & Hsays); try reflexivity.
  - intros s [= <-]. reflexivity.
  - intros s [= <-]. reflexivity.
  - vm_compute in He. injection He as <-. vm_compute in Hsays. discriminate.
Qed.

(** ** The input locator *)

(** The [break] of the loop cannot be taken: the timeout has a floor. *)
Lemma strategy_timeout_floor (deadline t : Z) :
  (500 <= strategy_timeout deadline t <= 2500)%Z.
Proof. unfold strategy_timeout. lia. Qed.

Section InputLocator.
Context {W : Type}.
Variable env : Env W.
Variables (page : Page) (deadline : Z).

Local Abbreviation loop := (findPromptInput_loop env page deadline).

Lemma findPromptInput_loop_step (selector : string) (rest : list string)
  (w : W) :
  loop (selector :: rest) w =
  let l := first (locator selector) in
  let timeout := strategy_timeout deadline (clock env w) in
  let vw := waitFor env page l timeout w in
  let ev1 := mkEvent (clock env w) (CWaitFor l timeout)
                     (settled_answer (fst vw)) in
  match fst vw with
  | Rejected _ =>
      let '(r, w', t) := loop rest (snd vw) in (r, w', ev1 :: t)
  | Fulfilled _ =>
      let ew := isEnabled env page l (snd vw) in
      let ev2 := mkEvent (clock env (snd vw)) (CIsEnabled l)
                         (settled_answer (fst ew)) in
      match fst ew with
      | Fulfilled true => (Ok (Some l), snd ew, [ev1; ev2])
      | _ => let '(r, w', t) := loop rest (snd ew) in (r, w', ev1 :: ev2 :: t)
      end
  end.
Proof.
  cbn [findPromptInput_loop]. unfold bind at 1, now at 1.
  fold (strategy_timeout deadline (clock env w)).
  pose proof (strategy_timeout_floor deadline (clock env w)) as Hfloor.
  destruct (Z.leb_spec (strategy_timeout deadline (clock env w)) 0); [lia|].
  cbv zeta. unfold bind at 1, try_catch at 1, bind at 1, call at 1.
  destruct (waitFor env page _ _ w) as [[[]|e] w1]; cbn [fst snd ret app].
  - unfold bind at 1, catch_default, try_catch, call.
    destruct (isEnabled env page _ w1) as [[[|]|e] w2]; cbn [fst snd ret app];
      try reflexivity;
      destruct (findPromptInput_loop _ _ _ _ _) as [[r w'] t]; reflexivity.
  - destruct (findPromptInput_loop _ _ _ _ _) as [[r w'] t]; reflexivity.
Qed.

(** The loop tries the selectors in the order given, each with the
    timeout computed at that moment, and stops at the first that is
    visible and enabled; it comes back empty-handed only after trying
    them all. *)
Lemma findPromptInput_loop_spec (selectors : list string) :
  forall (w w' : W) (r : Res (option Locator)) (tr : list Event),
    loop selectors w = (r, w', tr) ->
    waits_follow_deadline deadline tr
    /\ ((exists tried selector later,
            selectors = (tried ++ selector :: later)%list
            /\ r = Ok (Some (first (locator selector)))
            /\ waited_on tr = (tried ++ [selector])%list)
        \/ (r = Ok None /\ waited_on tr = selectors)).
Proof.
  induction selectors as [|selector rest IH]; intros w w' r tr Hrun.
  - cbn in Hrun. injection Hrun as <- <- <-.
    split; [constructor|]. right. split; reflexivity.
  - rewrite findPromptInput_loop_step in Hrun. cbv zeta in Hrun.
    destruct (waitFor env page _ _ w) as [[[]|e] w1]; cbn [fst snd] in Hrun.
    + destruct (isEnabled env page _ w1) as [[[|]|e] w2]; cbn [fst snd] in Hrun.
      * injection Hrun as <- <- <-.
        split; [repeat constructor|].
        left. exists [], selector, rest. repeat split.
      * destruct (loop rest w2) as [[r3 w3] t3] eqn:E.
        injection Hrun as <- <- <-.
        destruct (IH _ _ _ _ E) as [Hw Hcase].
        split; [repeat constructor; exact Hw|].
        destruct Hcase as [(tried & s & later & -> & -> & Hwt)|[-> Hwt]].
        -- left. exists (selector :: tried), s, later.
           cbn [waited_on ev_call loc_selector first locator].
           rewrite Hwt. repeat split.
        -- right. cbn [waited_on ev_call loc_selector first locator].
           now rewrite Hwt.
      * destruct (loop rest w2) as [[r3 w3] t3] eqn:E.
        injection Hrun as <- <- <-.
        destruct (IH _ _ _ _ E) as [Hw Hcase].
        split; [repeat constructor; exact Hw|].
        destruct Hcase as [(tried & s & later & -> & -> & Hwt)|[-> Hwt]].
        -- left. exists (selector :: tried), s, later.
           cbn [waited_on ev_call loc_selector first locator].
           rewrite Hwt. repeat split.
        -- right. cbn [waited_on ev_call loc_selector first locator].
           now rewrite Hwt.
    + destruct (loop rest w1) as [[r3 w3] t3] eqn:E.
      injection Hrun as <- <- <-.
      destruct (IH _ _ _ _ E) as [Hw Hcase].
      split; [repeat constructor; exact Hw|].
      destruct Hcase as [(tried & s & later & -> & -> & Hwt)|[-> Hwt]].
      * left. exists (selector :: tried), s, later.
        cbn [waited_on ev_call loc_selector first locator].
        rewrite Hwt. repeat split.
      * right. cbn [waited_on ev_call loc_selector first locator].
        now rewrite Hwt.
Qed.

(** A locator the loop returns is the one of a listed selector whose wait
    was fulfilled and which was then found enabled: these are the last two
    calls, and no earlier query was answered true. *)
Lemma findPromptInput_loop_found (selectors : list string) :
  forall (w w' : W) (l : Locator) (tr : list Event),
    loop selectors w = (Ok (Some l), w', tr) ->
    exists front selector tw ms te,
      l = first (locator selector)
      /\ In selector selectors
      /\ tr = (front ++ [ mkEvent tw (CWaitFor l ms) (Fulfilled AUnit);
                          mkEvent te (CIsEnabled l) (Fulfilled (ABool true)) ])%list
      /\ filter is_match front = [].
Proof.
  induction selectors as [|selector rest IH]; intros w w' l tr Hrun.
  - cbn in Hrun. discriminate.
  - rewrite findPromptInput_loop_step in Hrun. cbv zeta in Hrun.
    destruct (waitFor env page _ _ w) as [[[]|e] w1]; cbn [fst snd] in Hrun.
    + destruct (isEnabled env page _ w1) as [[[|]|e] w2]; cbn [fst snd] in Hrun.
      * injection Hrun as <- <- <-.
        exists [], selector, (clock env w),
          (strategy_timeout deadline (clock env w)), (clock env w1).
        repeat split. now left.
      * destruct (loop rest w2) as [[r3 w3] t3] eqn:E.
        injection Hrun as -> <- <-.
        destruct (IH _ _ _ _ E) as (front & s & tw & ms & te & -> & Hin & -> & Hf).
        eexists (_ :: _ :: front), s, tw, ms, te.
        split; [reflexivity|]. split; [now right|].
        split; [reflexivity|]. cbn. exact Hf.
      * destruct (loop rest w2) as [[r3 w3] t3] eqn:E.
        injection Hrun as -> <- <-.
        destruct (IH _ _ _ _ E) as (front & s & tw & ms & te & -> & Hin & -> & Hf).
        eexists (_ :: _ :: front), s, tw, ms, te.
        split; [reflexivity|]. split; [now right|].
        split; [reflexivity|]. cbn. exact Hf.
    + destruct (loop rest w1) as [[r3 w3] t3] eqn:E.
      injection Hrun as -> <- <-.
      destruct (IH _ _ _ _ E) as (front & s & tw & ms & te & -> & Hin & -> & Hf).
      eexists (_ :: front), s, tw, ms, te.
      split; [reflexivity|]. split; [now right|].
      split; [reflexivity|]. cbn. exact Hf.
Qed.

End InputLocator.

Lemma findPromptInput_found {W : Type} (env : Env W) (page : Page)
  (timeoutMs : Z) (w w' : W) (l : Locator) (tr : list Event) :
  findPromptInput env page timeoutMs w = (Ok l, w', tr) ->
  exists front selector tw ms te,
    l = first (locator selector)
    /\ In selector prompt_selectors
    /\ tr = (front ++ [ mkEvent tw (CWaitFor l ms) (Fulfilled AUnit);
                        mkEvent te (CIsEnabled l) (Fulfilled (ABool true)) ])%list
    /\ filter is_match front = [].
Proof.
  unfold findPromptInput, bind at 1, now at 1. cbv zeta. unfold bind at 1.
  destruct (findPromptInput_loop env page _ prompt_selectors w)
    as [[[[l1|]|e1|] w1] t1] eqn:E; cbn [ret throw app];
    intros [= <- <- <-].
  rewrite app_nil_r. exact (findPromptInput_loop_found env page _ _ _ _ _ _ E).
Qed.

(** What [findPromptInput] does on every run: it fails, with the sign-in
    message, exactly when all four strategies were tried without a visible
    and enabled match; the deadline only shortens the waits. *)
Lemma findPromptInput_spec {W : Type} (env : Env W) (page : Page)
  (timeoutMs : Z) (w w' : W) (r : Res Locator) (tr : list Event) :
  findPromptInput env page timeoutMs w = (r, w', tr) ->
  waits_follow_deadline (clock env w + Z.max 2000 timeoutMs) tr
  /\ ((exists tried selector later,
          prompt_selectors = (tried ++ selector :: later)%list
          /\ r = Ok (first (locator selector))
          /\ waited_on tr = (tried ++ [selector])%list)
      \/ (r = Throw (AtlasUnavailable input_not_found)
          /\ waited_on tr = prompt_selectors)).
Proof.
  unfold findPromptInput, bind at 1, now at 1. cbv zeta. unfold bind at 1.
  destruct (findPromptInput_loop env page _ prompt_selectors w)
    as [[r1 w1] t1] eqn:E.
  destruct (findPromptInput_loop_spec env page _ _ _ _ _ _ E) as [Hw Hcase].
  destruct Hcase as [(tried & s & later & Hsel & -> & Hwt)|[-> Hwt]];
    cbn [ret throw app]; intros [= <- <- <-]; rewrite app_nil_r;
    (split; [exact Hw|]).
  - left. now exists tried, s, later.
  - right. split; [reflexivity|exact Hwt].
Qed.

(** C5 at the failing input. Budget 1000 ms, so the deadline is 2000 ms after
    the start at clock 0.  The first strategy becomes visible after 1900 ms
    and is found disabled at 2200 ms; the deadline has passed, yet the second
    strategy is still tried, with a timeout of 500 ms, and its match is
    returned: no failure is raised. *)
Theorem findPromptInput_ignores_deadline :
  findPromptInput replay_env page0 1000 late_second_match
  = (Ok second_input, mkReplay 2200 [],
     [ mkEvent 0 (CWaitFor (first (locator "textarea#prompt-textarea")) 2000)
               (Fulfilled AUnit);
       mkEvent 1900 (CIsEnabled (first (locator "textarea#prompt-textarea")))
               (Fulfilled (ABool false));
       mkEvent 2200 (CWaitFor second_input 500) (Fulfilled AUnit);
       mkEvent 2200 (CIsEnabled second_input) (Fulfilled (ABool true)) ])
  /\ (r_clock late_second_match + Z.max 2000 1000 < 2200)%Z.
Proof. split; reflexivity. Qed.

(** ** Reasoning about traces and completion, combinator by combinator *)

Section Combinators.
Context {W : Type}.
Variable env : Env W.
Variable ok : Call -> bool.

Lemma calls_in_ret {A : Type} (a : A) : calls_in ok (@ret W A a).
Proof. intros w. constructor. Qed.

Lemma calls_in_throw {A : Type} (e : Thrown) : calls_in ok (@throw W A e).
Proof. intros w. constructor. Qed.

Lemma calls_in_now : calls_in ok (now env).
Proof. intros w. constructor. Qed.

Lemma calls_in_lift {A : Type} (s : Settled A) :
  calls_in ok (@lift_settled W A s).
Proof. destruct s; [apply calls_in_ret|apply calls_in_throw]. Qed.

Lemma calls_in_call {A : Type} `{ToAnswer A} (c : Call)
  (op : W -> Settled A * W) :
  ok c = true -> calls_in ok (call env c op).
Proof.
  intros Hc w. unfold call. destruct (op w) as [s w1]. cbn.
  constructor; [exact Hc|constructor].
Qed.

Lemma calls_in_log (message : string) :
  ok (CLogDebug message) = true -> calls_in ok (log_debug env message).
Proof. intros Hc w. cbn. constructor; [exact Hc|constructor]. Qed.

Lemma calls_in_bind {A B : Type} (m : M W A) (k : A -> M W B) :
  calls_in ok m -> (forall a, calls_in ok (k a)) -> calls_in ok (bind m k).
Proof.
  intros Hm Hk w. unfold bind. specialize (Hm w).
  destruct (m w) as [[[a|e|] w1] t1]; cbn [snd] in *; try exact Hm.
  specialize (Hk a w1). destruct (k a w1) as [[r w2] t2]. cbn [snd] in *.
  apply Forall_app. split; assumption.
Qed.

Lemma calls_in_try_catch {A : Type} (m : M W A) (h : Thrown -> M W A) :
  calls_in ok m -> (forall e, calls_in ok (h e)) ->
  calls_in ok (try_catch m h).
Proof.
  intros Hm Hh w. unfold try_catch. specialize (Hm w).
  destruct (m w) as [[[a|e|] w1] t1]; cbn [snd] in *; try exact Hm.
  specialize (Hh e w1). destruct (h e w1) as [[r w2] t2]. cbn [snd] in *.
  apply Forall_app. split; assumption.
Qed.

Lemma calls_in_catch_default {A : Type} (m : M W A) (dflt : A) :
  calls_in ok m -> calls_in ok (catch_default m dflt).
Proof.
  intros Hm. apply calls_in_try_catch; [exact Hm|].
  intros e. apply calls_in_ret.
Qed.

End Combinators.

Section Completion.
Context {W : Type}.
Variable env : Env W.

Lemma ends_ret {A : Type} (a : A) : ends (@ret W A a).
Proof. intros w. discriminate. Qed.

Lemma ends_throw {A : Type} (e : Thrown) : ends (@throw W A e).
Proof. intros w. discriminate. Qed.

Lemma ends_now : ends (now env).
Proof. intros w. discriminate. Qed.

Lemma ends_call {A : Type} `{ToAnswer A} (c : Call) (op : W -> Settled A * W) :
  ends (call env c op).
Proof.
  intros w. unfold call. destruct (op w) as [[a|e] w1]; discriminate.
Qed.

Lemma ends_log (message : string) : ends (log_debug env message).
Proof. intros w. discriminate. Qed.

Lemma ends_bind {A B : Type} (m : M W A) (k : A -> M W B) :
  ends m -> (forall a, ends (k a)) -> ends (bind m k).
Proof.
  intros Hm Hk w. unfold bind. specialize (Hm w).
  destruct (m w) as [[[a|e|] w1] t1]; cbn [fst] in *;
    [|discriminate|now elim Hm].
  specialize (Hk a w1). destruct (k a w1) as [[r w2] t2]. exact Hk.
Qed.

Lemma ends_try_catch {A : Type} (m : M W A) (h : Thrown -> M W A) :
  ends m -> (forall e, ends (h e)) -> ends (try_catch m h).
Proof.
  intros Hm Hh w. unfold try_catch. specialize (Hm w).
  destruct (m w) as [[[a|e|] w1] t1]; cbn [fst] in *;
    [discriminate| |exact Hm].
  specialize (Hh e w1). destruct (h e w1) as [[r w2] t2]. exact Hh.
Qed.

Lemma ends_catch_default {A : Type} (m : M W A) (dflt : A) :
  ends m -> ends (catch_default m dflt).
Proof.
  intros Hm. apply ends_try_catch; [exact Hm|]. intros e. apply ends_ret.
Qed.

(** [promise.catch(() => dflt)] never throws. *)
Lemma catch_default_quiet {A : Type} (m : M W A) (dflt : A) (w : W)
  (e : Thrown) :
  fst (fst (catch_default m dflt w)) <> Throw e.
Proof.
  unfold catch_default, try_catch.
  destruct (m w) as [[[a|e0|] w1] t1]; cbn; discriminate.
Qed.

End Completion.

Create HintDb atlas.

#[local] Hint Resolve calls_in_ret calls_in_throw calls_in_now calls_in_lift
  calls_in_log ends_ret ends_throw ends_now ends_call ends_log : atlas.

(** Walk down a computation, one combinator at a time. *)
Ltac walk :=
  repeat first
    [ solve [auto with atlas]
    | apply calls_in_bind; [|intro]
    | apply calls_in_try_catch; [|intro]
    | apply calls_in_catch_default
    | apply calls_in_call; reflexivity
    | apply ends_bind; [|intro]
    | apply ends_try_catch; [|intro]
    | apply ends_catch_default
    | match goal with
      | |- calls_in _ (if ?b then _ else _) => destruct b
      | |- ends (if ?b then _ else _) => destruct b
      | |- calls_in _ (match ?x with _ => _ end) => destruct x
      | |- ends (match ?x with _ => _ end) => destruct x
      end ].

Section Stages.
Context {W : Type}.
Variable env : Env W.

Lemma ensureAtlasCdpUrl_calls (profile : ResolvedBrowserProfile) :
  calls_in inner_call (ensureAtlasCdpUrl env profile).
Proof. unfold ensureAtlasCdpUrl. walk. Qed.

Lemma ensureAtlasCdpUrl_ends (profile : ResolvedBrowserProfile) :
  ends (ensureAtlasCdpUrl env profile).
Proof. unfold ensureAtlasCdpUrl. walk. Qed.

Lemma findPromptInput_calls (page : Page) (timeoutMs : Z) :
  calls_in inner_call (findPromptInput env page timeoutMs).
Proof.
  unfold findPromptInput. walk.
  induction prompt_selectors as [|selector rest IH];
    cbn [findPromptInput_loop]; walk.
Qed.

Lemma findPromptInput_ends (page : Page) (timeoutMs : Z) :
  ends (findPromptInput env page timeoutMs).
Proof.
  unfold findPromptInput. walk.
  induction prompt_selectors as [|selector rest IH];
    cbn [findPromptInput_loop]; walk.
Qed.

Lemma clickSend_calls (page : Page) (input : Locator) :
  calls_in inner_call (clickSend env page input).
Proof. unfold clickSend. walk. Qed.

Lemma clickSend_ends (page : Page) (input : Locator) :
  ends (clickSend env page input).
Proof. unfold clickSend. walk. Qed.

Lemma waitForAssistantMessage_calls (page : Page) (baseline : nat)
  (timeoutMs : Z) :
  calls_in inner_call (waitForAssistantMessage env page baseline timeoutMs).
Proof. unfold waitForAssistantMessage. walk. Qed.

Lemma waitForAssistantMessage_ends (page : Page) (baseline : nat)
  (timeoutMs : Z) :
  ends (waitForAssistantMessage env page baseline timeoutMs).
Proof. unfold waitForAssistantMessage. walk. Qed.

Lemma readStableText_calls (fuel : nat) (page : Page) (l : Locator)
  (timeoutMs : Z) :
  calls_in inner_call (readStableText env fuel page l timeoutMs).
Proof.
  assert (Hloop : forall start last ticks,
             calls_in inner_call
               (readStableText_loop env fuel page l start timeoutMs last ticks)).
  { induction fuel as [|fuel' IH]; intros start last ticks;
      cbn [readStableText_loop].
    - intros w. constructor.
    - walk. }
  unfold readStableText. apply calls_in_bind; [apply calls_in_now|].
  intros start. apply Hloop.
Qed.

Lemma readStableText_ends (Hread : reads_keep_time env)
  (Hpause : pauses_take_time env) (fuel : nat) (page : Page) (l : Locator)
  (timeoutMs : Z) :
  fuel_for timeoutMs <= fuel ->
  ends (readStableText env fuel page l timeoutMs).
Proof.
  intros Hfuel w. rewrite readStableText_unfold.
  apply readStableText_loop_ends; [exact Hread|exact Hpause|].
  replace (timeoutMs - (clock env w - clock env w))%Z with timeoutMs by lia.
  exact Hfuel.
Qed.

End Stages.

#[local] Hint Resolve ensureAtlasCdpUrl_calls ensureAtlasCdpUrl_ends
  findPromptInput_calls findPromptInput_ends clickSend_calls clickSend_ends
  waitForAssistantMessage_calls waitForAssistantMessage_ends
  readStableText_calls readStableText_ends : atlas.

(** ** The session orchestrator *)

Lemma opened_page_is_create (e : Event) (p : string * PageInfo) :
  opened_page e = Some p -> is_create_call e = true.
Proof.
  unfold opened_page, is_create_call.
  destruct (ev_call e); try discriminate. reflexivity.
Qed.

Lemma inner_is_not_create (tr : list Event) (e : Event) :
  Forall (fun e => inner_call (ev_call e) = true) tr ->
  In e tr -> is_create_call e = false.
Proof.
  intros H Hin. rewrite Forall_forall in H. specialize (H e Hin).
  unfold is_create_call. destruct (ev_call e); try reflexivity; discriminate.
Qed.

Lemma inner_has_no_close (tr : list Event) :
  Forall (fun e => inner_call (ev_call e) = true) tr -> close_calls tr = [].
Proof.
  induction 1 as [|e tr He _ IH]; [reflexivity|].
  unfold close_calls in *. cbn [filter]. rewrite IH.
  unfold is_close_call. destruct (ev_call e); try reflexivity; discriminate.
Qed.

Section Orchestrator.
Context {Config BrowserConfig Resolved W : Type}.
Variable api : ConfigApi Config BrowserConfig Resolved.
Variable env : Env W.

Lemma runAtlasPrompt_body_calls (fuel : nat) (options : PromptOptions Config)
  (cdp : string) (info : PageInfo) (start : Z) :
  calls_in inner_call (runAtlasPrompt_body env fuel options cdp info start).
Proof.
  unfold runAtlasPrompt_body. walk.
Qed.

Lemma runAtlasPrompt_body_ends (Hread : reads_keep_time env)
  (Hpause : pauses_take_time env) (fuel : nat)
  (options : PromptOptions Config) (cdp : string) (info : PageInfo)
  (start : Z) :
  fuel_for (timeoutMs options) <= fuel ->
  ends (runAtlasPrompt_body env fuel options cdp info start).
Proof.
  intros Hfuel. unfold runAtlasPrompt_body. walk.
Qed.

Lemma runAtlasPrompt_catch_calls (err : Thrown) :
  calls_in inner_call (runAtlasPrompt_catch env err).
Proof. unfold runAtlasPrompt_catch. walk. Qed.

Lemma runAtlasPrompt_catch_ends (err : Thrown) :
  ends (runAtlasPrompt_catch env err).
Proof. unfold runAtlasPrompt_catch. walk. Qed.

(** Inside the [try], whatever is thrown leaves as [AtlasUnavailableError]. *)
Lemma runAtlasPrompt_try_wraps (fuel : nat) (options : PromptOptions Config)
  (cdp : string) (info : PageInfo) (start : Z) :
  throws_unavailable
    (try_catch (runAtlasPrompt_body env fuel options cdp info start)
               (runAtlasPrompt_catch env)).
Proof.
  intros w e. unfold try_catch.
  destruct (runAtlasPrompt_body env fuel options cdp info start w)
    as [[[a|e0|] w1] t1]; cbn; try discriminate.
  unfold runAtlasPrompt_catch, bind, log_debug.
  destruct (is_AtlasUnavailable e0) eqn:E; cbn; intros [= <-];
    [exact E|reflexivity].
Qed.

(** The [finally] clause: at most the one close call, and no throw. *)
Lemma runAtlasPrompt_finally_spec (m : PwAiModule) (cdp : string)
  (info : PageInfo) (w : W) :
  exists w' tr,
    runAtlasPrompt_finally env m cdp info w = (Ok tt, w', tr)
    /\ tr = if has_closePageByTargetIdViaPlaywright m then
              [mkEvent (clock env w) (CClosePage cdp (targetId info))
                 (settled_answer
                    (fst (closePageByTargetIdViaPlaywright env cdp
                            (targetId info) w)))]
            else [].
Proof.
  unfold runAtlasPrompt_finally.
  destruct (has_closePageByTargetIdViaPlaywright m).
  - unfold catch_default, try_catch, call.
    destruct (closePageByTargetIdViaPlaywright env cdp (targetId info) w)
      as [[[]|e] w1]; cbn; eexists; eexists; split; reflexivity.
  - exists w, []. split; reflexivity.
Qed.

(** The anatomy of a run: either no page was opened, or the trace is the
    calls before the page, the create call, the calls of the guarded
    block, and the calls of the [finally] clause. *)
Lemma runAtlasPrompt_anatomy (fuel : nat) (options : PromptOptions Config)
  (w w' : W) (r : Res AtlasPromptResult) (tr : list Event) :
  runAtlasPrompt api env fuel options w = (r, w', tr) ->
  (Forall (fun e => opened_page e = None) tr /\ r <> OutOfFuel)
  \/ exists m cdp chatUrl info start before t0 w0 rb wb tb closing,
      tr = (before
              ++ mkEvent t0 (CCreatePage cdp chatUrl) (Fulfilled (APageInfo info))
              :: tb ++ closing)%list
      /\ Forall (fun e => inner_call (ev_call e) = true) before
      /\ (exists em, In em before /\ loaded_module em = Some m)
      /\ try_catch (runAtlasPrompt_body env fuel options cdp info start)
                   (runAtlasPrompt_catch env) w0 = (rb, wb, tb)
      /\ r = rb
      /\ (rb <> OutOfFuel ->
          closing = if has_closePageByTargetIdViaPlaywright m then
                      [mkEvent (clock env wb) (CClosePage cdp (targetId info))
                         (settled_answer
                            (fst (closePageByTargetIdViaPlaywright env cdp
                                    (targetId info) wb)))]
                    else []).
Proof.
  unfold runAtlasPrompt.
  destruct (flag (sandboxed options)).
  { intros [= <- <- <-]. left. split; [constructor|discriminate]. }
  destruct (resolveAtlasProfile api (config options)) as [[profile|]|e0];
    cbn [lift_settled].
  2:{ intros [= <- <- <-]. left. split; [constructor|discriminate]. }
  2:{ intros [= <- <- <-]. left. split; [constructor|discriminate]. }
  unfold bind at 1. cbn [ret]. unfold bind at 1, call at 1.
  destruct (getPwAiModule env w) as [[[m|]|e1] w1] eqn:Em; cbn [settled_answer].
  2:{ intros [= <- <- <-]. left. split; [|discriminate].
      repeat constructor. }
  2:{ intros [= <- <- <-]. left. split; [|discriminate].
      repeat constructor. }
  set (evm := mkEvent (clock env w) CGetPwAiModule
                      (Fulfilled (to_answer (Some m)))).
  destruct (negb (has_createPageViaPlaywright m)
            || negb (has_getPageForTargetId m)).
  { intros [= <- <- <-]. left. split; [|discriminate].
    repeat constructor. }
  unfold bind at 1.
  pose proof (ensureAtlasCdpUrl_calls env profile w1) as Hcdp.
  pose proof (ensureAtlasCdpUrl_ends env profile w1) as Hcdp_ends.
  destruct (ensureAtlasCdpUrl env profile w1) as [[[cdp|e2|] w2] t2];
    cbn [fst snd] in Hcdp, Hcdp_ends.
  2:{ intros [= <- <- <-]. left. split; [|discriminate].
      constructor; [reflexivity|].
      apply Forall_forall. intros e He.
      pose proof (inner_is_not_create _ _ Hcdp He) as Hn.
      destruct (opened_page e) eqn:Ho; [|reflexivity].
      apply opened_page_is_create in Ho. congruence. }
  2:{ now elim Hcdp_ends. }
  cbv zeta. unfold bind at 1, now at 1. unfold bind at 1, call at 1.
  set (chatUrl := or_else (opt_trim (url options)) DEFAULT_ATLAS_CHAT_URL).
  destruct (createPageViaPlaywright env cdp chatUrl w2) as [[info|e3] w3];
    cbn [settled_answer].
  2:{ intros [= <- <- <-]. left. split; [|discriminate].
      constructor; [reflexivity|].
      apply Forall_app. split.
      - apply Forall_forall. intros e He.
        pose proof (inner_is_not_create _ _ Hcdp He) as Hn.
        destruct (opened_page e) eqn:Ho; [|reflexivity].
        apply opened_page_is_create in Ho. congruence.
      - repeat constructor. }
  unfold try_finally.
  destruct (try_catch (runAtlasPrompt_body env fuel options cdp info (clock env w2))
                      (runAtlasPrompt_catch env) w3) as [[rb wb] tb] eqn:Eb.
  destruct (runAtlasPrompt_finally_spec m cdp info wb) as (wf & tf & Ef & Htf).
  intros Hrun. right.
  exists m, cdp, chatUrl, info, (clock env w2), (evm :: t2), (clock env w2), w3,
    rb, wb, tb.
  destruct rb as [a|e|]; rewrite ?Ef in Hrun; injection Hrun as <- <- <-.
  - exists tf. split; [reflexivity|].
    split; [constructor; [reflexivity|exact Hcdp]|].
    split; [exists evm; split; [now left|reflexivity]|].
    split; [exact Eb|]. split; [reflexivity|]. intros _. exact Htf.
  - exists tf. split; [reflexivity|].
    split; [constructor; [reflexivity|exact Hcdp]|].
    split; [exists evm; split; [now left|reflexivity]|].
    split; [exact Eb|]. split; [reflexivity|]. intros _. exact Htf.
  - exists []. split; [now rewrite app_nil_r|].
    split; [constructor; [reflexivity|exact Hcdp]|].
    split; [exists evm; split; [now left|reflexivity]|].
    split; [exact Eb|]. split; [reflexivity|]. intros H. now elim H.
Qed.

(** What the [finally] clause does, for any module object.  A run ends
    whenever reading text never turns the clock back, fulfilled pauses last
    their 400 ms and the iteration bound is [fuel_for] the budget.  On every
    run that ends and in which a page was opened, whether it returns or
    raises: if the loaded module has the close function, the trace ends with
    the one close call, made for the opened page, and there is no other
    close call; the optional call [?.(...)] makes none when the function is
    missing.  What the close call answers does not matter: the run returns,
    or raises [AtlasUnavailableError]. *)
Lemma runAtlasPrompt_closes_page (fuel : nat) (options : PromptOptions Config)
  (w w' : W) (r : Res AtlasPromptResult) (tr : list Event) :
  runAtlasPrompt api env fuel options w = (r, w', tr) ->
  (reads_keep_time env -> pauses_take_time env ->
   fuel_for (timeoutMs options) <= fuel -> r <> OutOfFuel)
  /\ (r <> OutOfFuel ->
      forall e cdp info,
        In e tr -> opened_page e = Some (cdp, info) ->
        exists m em,
          In em tr /\ loaded_module em = Some m
          /\ (if has_closePageByTargetIdViaPlaywright m then
                exists front t reply,
                  tr = (front ++ [mkEvent t (CClosePage cdp (targetId info))
                                          reply])%list
                  /\ close_calls front = []
              else close_calls tr = [])
          /\ match r with
             | Throw err => is_AtlasUnavailable err = true
             | _ => True
             end).
Proof.
  intros Hrun. apply runAtlasPrompt_anatomy in Hrun.
  destruct Hrun as [[Hnone Hr]|Hrun].
  { split; [intros _ _ _; exact Hr|].
    intros _ e cdp info He Ho. rewrite Forall_forall in Hnone.
    rewrite (Hnone e He) in Ho. discriminate. }
  destruct Hrun as (m & cdp & chatUrl & info & start & before & t0 & w0 & rb
                    & wb & tb & closing & -> & Hbefore & (em & Hem & Hm)
                    & Hguard & -> & Hclosing).
  assert (Htb : Forall (fun e => inner_call (ev_call e) = true) tb).
  { pose proof (calls_in_try_catch inner_call _ _
                  (runAtlasPrompt_body_calls fuel options cdp info start)
                  runAtlasPrompt_catch_calls w0) as H.
    now rewrite Hguard in H. }
  split.
  { intros Hread Hpause Hfuel.
    pose proof (ends_try_catch _ _
                  (runAtlasPrompt_body_ends Hread Hpause fuel options cdp info
                     start Hfuel)
                  runAtlasPrompt_catch_ends w0) as H.
    now rewrite Hguard in H. }
  intros Hr e cdp' info' He Ho. specialize (Hclosing Hr).
  assert (Hec : cdp' = cdp /\ info' = info).
  { pose proof (opened_page_is_create _ _ Ho) as Hc.
    apply in_app_or in He as [He|[<-|He]].
    - rewrite (inner_is_not_create _ _ Hbefore He) in Hc. discriminate.
    - cbn in Ho. injection Ho as <- <-. split; reflexivity.
    - apply in_app_or in He as [He|He].
      + rewrite (inner_is_not_create _ _ Htb He) in Hc. discriminate.
      + rewrite Hclosing in He.
        destruct (has_closePageByTargetIdViaPlaywright m);
          [destruct He as [<-|[]]; discriminate|destruct He]. }
  destruct Hec as [-> ->].
  exists m, em. split; [apply in_or_app; now left|]. split; [exact Hm|].
  split.
  - rewrite Hclosing.
    destruct (has_closePageByTargetIdViaPlaywright m).
    + exists (before
              ++ mkEvent t0 (CCreatePage cdp chatUrl)
                   (Fulfilled (APageInfo info)) :: tb)%list.
      eexists. eexists. split.
      * rewrite <- app_assoc. reflexivity.
      * unfold close_calls. rewrite filter_app. cbn [filter is_close_call ev_call].
        fold (close_calls before). fold (close_calls tb).
        now rewrite (inner_has_no_close _ Hbefore), (inner_has_no_close _ Htb).
    + rewrite app_nil_r. unfold close_calls. rewrite filter_app.
      cbn [filter is_close_call ev_call].
      fold (close_calls before). fold (close_calls tb).
      now rewrite (inner_has_no_close _ Hbefore), (inner_has_no_close _ Htb).
  - destruct rb as [a|err|]; try exact I.
    pose proof (runAtlasPrompt_try_wraps fuel options cdp info start w0 err)
      as H.
    rewrite Hguard in H. now apply H.
Qed.


End Orchestrator.


(** C1 at the failing inputs. Opening the page happens before the [try]
    block: when [createPageViaPlaywright] rejects, [runAtlasPrompt] rejects
    with that very value, which is not an [AtlasUnavailableError].  The same
    holds when resolving the profile throws. *)
Theorem runAtlasPrompt_raw_fault :
  runAtlasPrompt good_api replay_env 0 (ask "Hi" 30000) page_open_fails
  = (Throw (script_error "connect ECONNREFUSED 127.0.0.1:9222"),
     mkReplay 0 [],
     [ mkEvent 0 CGetPwAiModule (Fulfilled (AModule (Some full_module)));
       mkEvent 0 (CBrowserStatus "atlas") (Fulfilled (AStatus live_status));
       mkEvent 0 (CCreatePage "http://127.0.0.1:9222" "https://chatgpt.com")
               (Rejected (script_error "connect ECONNREFUSED 127.0.0.1:9222")) ])
  /\ is_AtlasUnavailable (script_error "connect ECONNREFUSED 127.0.0.1:9222")
     = false
  /\ runAtlasPrompt throwing_api replay_env 0 (ask "Hi" 30000) (mkReplay 0 [])
     = (Throw (script_error "Invalid browser config"), mkReplay 0 [], [])
  /\ is_AtlasUnavailable (script_error "Invalid browser config") = false.
Proof. repeat split. Qed.

(** ** Further properties: the gate and the endpoint *)

Lemma env_truthy_true (penv : ProcessEnv) (key : string) :
  env_truthy penv key = true -> holds_text penv key.
Proof.
  unfold env_truthy, holds_text. destruct (penv key) as [v|]; [|discriminate].
  intros H. exists v. split; [reflexivity|]. intros ->. discriminate.
Qed.

Lemma env_equals_true (penv : ProcessEnv) (key v : string) :
  env_equals penv key v = true -> penv key = Some v.
Proof.
  unfold env_equals. destruct (penv key) as [x|]; [|discriminate].
  intros H. apply String.eqb_eq in H. now subst.
Qed.

Lemma marker_test (penv : ProcessEnv) :
  env_equals penv "NODE_ENV" "test" || env_truthy penv "VITEST"
  || env_truthy penv "VITEST_WORKER_ID" || env_truthy penv "JEST_WORKER_ID"
  = true <-> test_marker_set penv.
Proof.
  unfold test_marker_set. rewrite !orb_true_iff. split.
  - intros [[[H|H]|H]|H].
    + left. now apply env_equals_true.
    + right. left. now apply env_truthy_true.
    + right. right. left. now apply env_truthy_true.
    + right. right. right. now apply env_truthy_true.
  - intros [H|[H|[H|H]]].
    + left. left. left. now apply env_equals_holds.
    + left. left. right. now apply env_truthy_holds.
    + left. right. now apply env_truthy_holds.
    + right. now apply env_truthy_holds.
Qed.

Lemma flag_declares {Config : Type} (options : option (GateOptions Config)) :
  flag (match options with Some o => gate_sandboxed o | None => None end) = true
  <-> declares_sandboxed options.
Proof.
  unfold declares_sandboxed. split.
  - destruct options as [o|]; [|discriminate].
    destruct (gate_sandboxed o) as [[|]|] eqn:E; try discriminate.
    intros _. now exists o.
  - intros [o [-> ->]]. reflexivity.
Qed.

Section GateMore.
Context {Config BrowserConfig Resolved : Type}.
Variable api : ConfigApi Config BrowserConfig Resolved.

(** X6. [canUseAtlas] returns [true] exactly when no test-environment
    marker is set, the caller is not sandboxed, and a profile resolves
    without throwing; and a profile resolves exactly when the browser
    configuration resolves, is enabled, and holds the Atlas profile. *)
Theorem canUseAtlas_true_iff (penv : ProcessEnv)
  (options : option (GateOptions Config)) :
  (canUseAtlas api penv options = Fulfilled true <->
   ~ test_marker_set penv /\ ~ declares_sandboxed options
   /\ exists p, resolveAtlasProfile api (gate_config_of options)
                = Fulfilled (Some p))
  /\ (forall cfg p,
        resolveAtlasProfile api cfg = Fulfilled (Some p) <->
        exists resolved,
          resolveBrowserConfig api
            (match cfg with Some c => browser api c | None => None end) cfg
          = Fulfilled resolved
          /\ enabled api resolved = true
          /\ resolveProfile api resolved (DEFAULT_ATLAS_BROWSER_PROFILE_NAME api)
             = Fulfilled (Some p)).
Proof.
  split.
  - unfold canUseAtlas. fold (gate_config_of options).
    pose proof (marker_test penv) as Hm.
    pose proof (flag_declares options) as Hf.
    destruct (_ || _ || _ || _).
    { split; [discriminate|]. intros [H _]. elim H. now apply Hm. }
    destruct (flag _).
    { split; [discriminate|]. intros (_ & H & _). elim H. now apply Hf. }
    assert (Hnm : ~ test_marker_set penv)
      by (intros H; apply Hm in H; discriminate).
    assert (Hns : ~ declares_sandboxed options)
      by (intros H; apply Hf in H; discriminate).
    destruct (resolveAtlasProfile api (gate_config_of options)) as [[p|]|e].
    + split; [|reflexivity]. intros _. split; [exact Hnm|].
      split; [exact Hns|]. now exists p.
    + split; [discriminate|]. intros (_ & _ & p & H). discriminate.
    + split; [discriminate|]. intros (_ & _ & p & H). discriminate.
  - intros cfg p. unfold resolveAtlasProfile.
    destruct (resolveBrowserConfig api _ cfg) as [resolved|e].
    + destruct (enabled api resolved) eqn:E; cbn [negb].
      * split.
        -- intros H. now exists resolved.
        -- intros (r' & [= <-] & _ & H). exact H.
      * split; [discriminate|].
        intros (r' & [= <-] & H & _). congruence.
    + split; [discriminate|]. intros (r' & H & _). discriminate.
Qed.

Context {W : Type}.
Variable env : Env W.

(** X7. The gate predicts the orchestrator.  With no test-environment
    marker set: when [canUseAtlas] answers [false] for the options of a
    prompt, [runAtlasPrompt] throws without calling any collaborator and
    leaves the world as it was; when it answers [true], the first thing
    [runAtlasPrompt] does is load the Playwright module. *)
Theorem canUseAtlas_predicts_runAtlasPrompt (penv : ProcessEnv) (fuel : nat)
  (options : PromptOptions Config) (w : W) :
  ~ test_marker_set penv ->
  (canUseAtlas api penv (gate_of options) = Fulfilled false ->
   exists e, runAtlasPrompt api env fuel options w = (Throw e, w, []))
  /\ (canUseAtlas api penv (gate_of options) = Fulfilled true ->
      exists reply rest,
        snd (runAtlasPrompt api env fuel options w)
        = mkEvent (clock env w) CGetPwAiModule reply :: rest).
Proof.
  intros Hnm. unfold canUseAtlas, runAtlasPrompt, gate_of.
  cbn [gate_sandboxed gate_config].
  pose proof (marker_test penv) as Hm.
  destruct (_ || _ || _ || _); [elim Hnm; now apply Hm|].
  destruct (flag (sandboxed options)).
  { split; [intros _; eexists; reflexivity|discriminate]. }
  destruct (resolveAtlasProfile api (config options)) as [[p|]|e];
    cbn [lift_settled].
  - split; [discriminate|]. intros _.
    unfold bind at 1. cbn [ret]. unfold bind at 1, call at 1.
    destruct (getPwAiModule env w) as [[[m|]|e1] w1]; cbn [app snd].
    + destruct (negb (has_createPageViaPlaywright m)
                || negb (has_getPageForTargetId m)).
      * eexists. eexists. reflexivity.
      * destruct (bind _ _ w1) as [[r w2] t2]. eexists. eexists. reflexivity.
    + eexists. eexists. reflexivity.
    + eexists. eexists. reflexivity.
  - split; [intros _; eexists; reflexivity|discriminate].
  - split; [intros _; eexists; reflexivity|discriminate].
Qed.

End GateMore.

Lemma no_env_has_no_marker : ~ test_marker_set no_env.
Proof.
  intros [H|[[v [H _]]|[[v [H _]]|[v [H _]]]]]; discriminate.
Qed.

Lemma canUseAtlas_predicts_runAtlasPrompt_witness :
  (exists e,
      runAtlasPrompt throwing_api replay_env 0 (ask "Hi" 30000) never_running
      = (Throw e, never_running, []))
  /\ (exists reply rest,
         snd (runAtlasPrompt good_api replay_env 0 (ask "Hi" 30000) never_running)
         = mkEvent 0 CGetPwAiModule reply :: rest).
Proof.
  split.
  - apply (canUseAtlas_predicts_runAtlasPrompt throwing_api replay_env no_env 0
             (ask "Hi" 30000) never_running no_env_has_no_marker).
    reflexivity.
  - apply (canUseAtlas_predicts_runAtlasPrompt good_api replay_env no_env 0
             (ask "Hi" 30000) never_running no_env_has_no_marker).
    reflexivity.
Defined.

Section EndpointMore.
Context {W : Type}.
Variable env : Env W.
Variable profile : ResolvedBrowserProfile.

(** How a run of [ensureAtlasCdpUrl] ends once a status is in hand. *)
Local Abbreviation settle status w tr :=
  (if truthy (pick_cdp status profile)
   then (Ok (pick_cdp status profile), w, tr)
   else (Throw (AtlasUnavailable "Atlas profile has no CDP URL."), w, tr)).

Lemma ensureAtlasCdpUrl_unfold (w : W) :
  ensureAtlasCdpUrl env profile w =
  let q1 := browserStatus env (name profile) w in
  let ev1 := mkEvent (clock env w) (CBrowserStatus (name profile))
                     (settled_answer (fst q1)) in
  match fst q1 with
  | Rejected e => (Throw (as_unreachable e), snd q1, [ev1])
  | Fulfilled st1 =>
      if running st1 then settle st1 (snd q1) [ev1]
      else
        let q2 := browserStart env (name profile) (snd q1) in
        let ev2 := mkEvent (clock env (snd q1)) (CBrowserStart (name profile))
                           (settled_answer (fst q2)) in
        match fst q2 with
        | Rejected e => (Throw (as_unreachable e), snd q2, [ev1; ev2])
        | Fulfilled _ =>
            let q3 := browserStatus env (name profile) (snd q2) in
            let ev3 := mkEvent (clock env (snd q2))
                               (CBrowserStatus (name profile))
                               (settled_answer (fst q3)) in
            match fst q3 with
            | Rejected e => (Throw (as_unreachable e), snd q3, [ev1; ev2; ev3])
            | Fulfilled st2 => settle st2 (snd q3) [ev1; ev2; ev3]
            end
        end
  end.
Proof.
  unfold ensureAtlasCdpUrl, try_catch, as_unreachable, pick_cdp.
  unfold bind at 1, call at 1.
  destruct (browserStatus env (name profile) w) as [[st1|e] w1];
    cbn [fst snd settled_answer].
  2:{ destruct (is_AtlasUnavailable e); reflexivity. }
  unfold bind at 1.
  destruct (running st1); cbn [negb ret app].
  { destruct (truthy _); reflexivity. }
  unfold bind at 1, call at 1.
  destruct (browserStart env (name profile) w1) as [[[]|e] w2];
    cbn [fst snd settled_answer app].
  2:{ destruct (is_AtlasUnavailable e); reflexivity. }
  unfold call at 1.
  destruct (browserStatus env (name profile) w2) as [[st2|e] w3];
    cbn [fst snd settled_answer app].
  2:{ destruct (is_AtlasUnavailable e); reflexivity. }
  destruct (truthy _); reflexivity.
Qed.

(** X8. Every run of [ensureAtlasCdpUrl] ends.  When it returns, the URL is
    not empty and is the choice made from the last status answered (the live
    URL when non-blank, else the profile's).  When it throws, the value is an
    [AtlasUnavailableError]: either "Atlas profile has no CDP URL.", or the
    rejection of the last call, passed on as it is if it already was one and
    otherwise wrapped as "Atlas browser is not reachable: ...".  At most
    three calls are made, of which at most one start request, and none when
    the first status reports the browser running. *)
Theorem ensureAtlasCdpUrl_outcome (w w' : W) (r : Res string)
  (tr : list Event) :
  ensureAtlasCdpUrl env profile w = (r, w', tr) ->
  match r with
  | Ok cdp =>
      cdp <> ""
      /\ exists front t st,
          tr = (front ++ [mkEvent t (CBrowserStatus (name profile))
                                  (Fulfilled (AStatus st))])%list
          /\ cdp = pick_cdp st profile
  | Throw e =>
      is_AtlasUnavailable e = true
      /\ (e = AtlasUnavailable "Atlas profile has no CDP URL."
          \/ exists front t c e0,
              tr = (front ++ [mkEvent t c (Rejected e0)])%list
              /\ e = as_unreachable e0)
  | OutOfFuel => False
  end
  /\ List.length tr <= 3
  /\ List.length (filter is_start_call tr) <= 1
  /\ (forall t st rest,
        tr = mkEvent t (CBrowserStatus (name profile)) (Fulfilled (AStatus st))
             :: rest ->
        running st = true -> rest = []).
Proof.
  rewrite ensureAtlasCdpUrl_unfold. cbv zeta.
  assert (Hwrap : forall e0, is_AtlasUnavailable (as_unreachable e0) = true).
  { intros e0. unfold as_unreachable.
    destruct (is_AtlasUnavailable e0) eqn:E; [exact E|reflexivity]. }
  assert (Htruthy : forall s, truthy s = true -> s <> "").
  { intros s H ->. discriminate. }
  destruct (browserStatus env (name profile) w) as [[st1|e] w1];
    cbn [fst snd settled_answer].
  2:{ intros [= <- <- <-]. split; [|cbn; repeat split; try lia; discriminate].
      split; [apply Hwrap|]. right. eexists [], _, _, e.
      split; reflexivity. }
  destruct (running st1) eqn:Er1.
  { destruct (truthy (pick_cdp st1 profile)) eqn:Et; intros [= <- <- <-].
    - split; [|cbn; repeat split; try lia; now intros t st rest [= _ _ <-]].
      split; [now apply Htruthy|]. exists [], (clock env w), st1.
      split; reflexivity.
    - split; [|cbn; repeat split; try lia; now intros t st rest [= _ _ <-]].
      split; [reflexivity|]. now left. }
  assert (Hfirst : forall evs t st rest,
             mkEvent (clock env w) (CBrowserStatus (name profile))
                     (Fulfilled (to_answer st1)) :: evs
             = mkEvent t (CBrowserStatus (name profile)) (Fulfilled (AStatus st))
               :: rest ->
             running st = true -> rest = []).
  { intros evs t st rest [= _ <- _] Hr. congruence. }
  destruct (browserStart env (name profile) w1) as [[[]|e] w2];
    cbn [fst snd settled_answer].
  2:{ intros [= <- <- <-].
      split; [|cbn; repeat split; try lia; apply Hfirst].
      split; [apply Hwrap|]. right. eexists [_], _, _, e.
      split; reflexivity. }
  destruct (browserStatus env (name profile) w2) as [[st2|e] w3];
    cbn [fst snd settled_answer].
  2:{ intros [= <- <- <-].
      split; [|cbn; repeat split; try lia; apply Hfirst].
      split; [apply Hwrap|]. right. eexists [_; _], _, _, e.
      split; reflexivity. }
  destruct (truthy (pick_cdp st2 profile)) eqn:Et; intros [= <- <- <-].
  - split; [|cbn; repeat split; try lia; apply Hfirst].
    split; [now apply Htruthy|]. eexists [_; _], _, st2.
    split; reflexivity.
  - split; [|cbn; repeat split; try lia; apply Hfirst].
    split; [reflexivity|]. now left.
Qed.

End EndpointMore.

Lemma ensureAtlasCdpUrl_outcome_witness :
  let run := ensureAtlasCdpUrl replay_env blank_profile restarted_browser in
  fst (fst run) = Ok "ws://h:1"
  /\ calls_of (snd run)
     = [CBrowserStatus "atlas"; CBrowserStart "atlas"; CBrowserStatus "atlas"]
  /\ List.length (snd run) <= 3.
Proof.
  cbv zeta. split; [reflexivity|]. split; [reflexivity|].
  exact (proj1 (proj2
           (ensureAtlasCdpUrl_outcome replay_env blank_profile
              restarted_browser
              (snd (fst (ensureAtlasCdpUrl replay_env blank_profile
                           restarted_browser)))
              (fst (fst (ensureAtlasCdpUrl replay_env blank_profile
                           restarted_browser)))
              (snd (ensureAtlasCdpUrl replay_env blank_profile
                      restarted_browser))
              eq_refl))).
Defined.

(** ** Further properties: locating, submitting, detecting *)

Lemma wait_budget_bounds (deadline : Z) (tr : list Event) :
  waits_follow_deadline deadline tr ->
  (500 * Z.of_nat (List.length (waited_on tr)) <= wait_budget tr
   <= 2500 * Z.of_nat (List.length (waited_on tr)))%Z.
Proof.
  induction 1 as [|e tr He _ IH]; [cbn; lia|].
  cbn [waited_on wait_budget]. destruct (ev_call e); try exact IH.
  subst timeout. cbn [List.length].
  pose proof (strategy_timeout_floor deadline (ev_time e)). lia.
Qed.

(** X9. Whatever the budget, [findPromptInput] waits on a prefix of the
    four selectors; the visibility waiting it asks for totals between 500
    and 2500 ms times the number of selectors waited on, and therefore at
    most 10 s; it always ends, returns only the first locator of a listed
    selector, and the only value it throws is the sign-in message:
    rejections of the waits and of the enabled checks are swallowed. *)
Theorem findPromptInput_wait_budget {W : Type} (env : Env W) (page : Page)
  (timeoutMs : Z) (w w' : W) (r : Res Locator) (tr : list Event) :
  findPromptInput env page timeoutMs w = (r, w', tr) ->
  (exists later, prompt_selectors = (waited_on tr ++ later)%list)
  /\ (500 * Z.of_nat (List.length (waited_on tr)) <= wait_budget tr
      <= 2500 * Z.of_nat (List.length (waited_on tr)))%Z
  /\ (wait_budget tr <= 10000)%Z
  /\ match r with
     | Ok l => exists selector,
         In selector prompt_selectors /\ l = first (locator selector)
     | Throw e => e = AtlasUnavailable input_not_found
     | OutOfFuel => False
     end.
Proof.
  intros Hrun. apply findPromptInput_spec in Hrun as [Hw Hcase].
  pose proof (wait_budget_bounds _ _ Hw) as Hb.
  assert (Hprefix : exists later, prompt_selectors = (waited_on tr ++ later)%list).
  { destruct Hcase as [(tried & s & later & Hsel & _ & ->)|[_ ->]].
    - exists later. now rewrite <- app_assoc.
    - exists []. now rewrite app_nil_r. }
  split; [exact Hprefix|]. split; [exact Hb|]. split.
  - destruct Hprefix as [later Hl].
    assert (List.length (waited_on tr) <= 4).
    { apply (f_equal (@List.length string)) in Hl.
      rewrite length_app in Hl. cbn in Hl. lia. }
    lia.
  - destruct Hcase as [(tried & s & later & Hsel & -> & _)|[-> _]];
      [|reflexivity].
    exists s. split; [|reflexivity].
    rewrite Hsel. apply in_or_app. right. now left.
Qed.

Lemma findPromptInput_wait_budget_witness :
  (exists later,
      prompt_selectors
      = (waited_on (snd (findPromptInput replay_env page0 1000 late_second_match))
         ++ later)%list)
  /\ wait_budget (snd (findPromptInput replay_env page0 1000 late_second_match))
     = 2500%Z.
Proof.
  split; [|reflexivity].
  exact (proj1 (findPromptInput_wait_budget replay_env page0 1000
                  late_second_match
                  (snd (fst (findPromptInput replay_env page0 1000
                               late_second_match)))
                  (fst (fst (findPromptInput replay_env page0 1000
                               late_second_match)))
                  (snd (findPromptInput replay_env page0 1000 late_second_match))
                  eq_refl)).
Defined.

Section SubmitDetect.
Context {W : Type}.
Variable env : Env W.
Variable page : Page.

(** X10. [clickSend] never raises and performs exactly one action: it
    clicks the send button when that button is reported visible and then
    reported enabled, and presses Enter on the input in every other case
    (the button hidden or disabled, or either check rejecting).  A rejection
    of the click or of the key press is swallowed. *)
Theorem clickSend_one_action (input : Locator) (w : W) :
  let v := isVisible env page send_button w in
  let e := isEnabled env page send_button (snd v) in
  let clicks := match fst v, fst e with
                | Fulfilled true, Fulfilled true => true
                | _, _ => false
                end in
  fst (fst (clickSend env page input w)) = Ok tt
  /\ calls_of (snd (clickSend env page input w))
     = match fst v with
       | Fulfilled true =>
           [CIsVisible send_button; CIsEnabled send_button;
            if clicks then CClick send_button else CPress input "Enter"]
       | _ => [CIsVisible send_button; CPress input "Enter"]
       end.
Proof.
  cbv zeta. unfold clickSend. fold send_button.
  unfold bind, catch_default, try_catch, call, ret.
  destruct (isVisible env page send_button w) as [[[|]|ev] w1];
    cbn [fst snd app].
  - destruct (isEnabled env page send_button w1) as [[[|]|ee] w2];
      cbn [fst snd app].
    + destruct (click env page send_button w2) as [[[]|ec] w3];
        split; reflexivity.
    + destruct (press env page input "Enter" w2) as [[[]|ec] w3];
        split; reflexivity.
    + destruct (press env page input "Enter" w2) as [[[]|ec] w3];
        split; reflexivity.
  - destruct (press env page input "Enter" w1) as [[[]|ec] w3];
      split; reflexivity.
  - destruct (press env page input "Enter" w1) as [[[]|ec] w3];
      split; reflexivity.
Qed.

(** X11. [waitForAssistantMessage] waits at least 2000 ms for a message
    beyond the baseline, and how that wait settles never changes the
    result: the messages are counted afterwards; a count of zero fails with
    "No ChatGPT response detected.", a positive count returns the last
    message (index count - 1), and a rejected count is passed on as it is. *)
Theorem waitForAssistantMessage_outcome (baseline : nat) (timeoutMs : Z)
  (w : W) :
  let q := waitForFunction env page baseline assistant_selector
             (Z.max 2000 timeoutMs) w in
  let c := count env page messages (snd q) in
  fst (waitForAssistantMessage env page baseline timeoutMs w)
  = (match fst c with
     | Fulfilled 0 => Throw (AtlasUnavailable "No ChatGPT response detected.")
     | Fulfilled (S n) => Ok (nth_match messages n)
     | Rejected e => Throw e
     end, snd c)
  /\ calls_of (snd (waitForAssistantMessage env page baseline timeoutMs w))
     = [CWaitForFunction baseline assistant_selector (Z.max 2000 timeoutMs);
        CCount messages]
  /\ (2000 <= Z.max 2000 timeoutMs)%Z.
Proof.
  cbv zeta. unfold waitForAssistantMessage. fold messages.
  unfold bind, try_catch, call, ret, throw.
  destruct (waitForFunction env page baseline assistant_selector
              (Z.max 2000 timeoutMs) w) as [[[]|e] w1];
    cbn [fst snd app];
    destruct (count env page messages w1) as [[[|n]|e'] w2];
    cbn [fst snd Nat.eqb app Nat.sub];
    rewrite ?Nat.sub_0_r; (split; [reflexivity|split; [reflexivity|lia]]).
Qed.

End SubmitDetect.

(** ** Further properties: the stability reader *)

Section StabilityReaderMore.
Context {W : Type}.
Variable env : Env W.
Variables (page : Page) (l : Locator) (start timeoutMs : Z).

Local Abbreviation rloop fuel := (readStableText_loop env fuel page l start timeoutMs).

(** With pauses that last, the samples are bounded by the time left. *)
Lemma readStableText_loop_samples (Hread : reads_keep_time env)
  (Hpause : pauses_take_time env) (fuel : nat) :
  forall (seen : list string) (w : W),
    List.length (samples_of (snd (rloop fuel (hd "" seen) (ticks_after seen) w)))
    <= Z.to_nat ((timeoutMs - (clock env w - start) + 399) / 400).
Proof.
  induction fuel as [|fuel IH]; intros seen w; [cbn; lia|].
  rewrite readStableText_loop_step.
  destruct (clock env w - start <? timeoutMs)%Z eqn:Et; [|cbn; lia].
  apply Z.ltb_lt in Et. cbv zeta.
  pose proof (Hread page l w) as Hr.
  assert (Hpos : (1 <= (timeoutMs - (clock env w - start) + 399) / 400)%Z)
    by (apply Z.div_le_lower_bound; lia).
  destruct (innerText env page l w) as [s w1]. cbn [fst snd] in *.
  destruct (stable_newest_first _); [cbn; lia|].
  pose proof (Hpause page 400%Z w1) as Hp.
  destruct (waitForTimeout env page 400 w1) as [[[]|e2] w2];
    cbn [fst snd]; [|cbn; lia].
  specialize (Hp w2 eq_refl).
  specialize (IH (sample_text (settled_answer s) :: seen) w2).
  destruct (rloop fuel _ _ w2) as [[r3 w3] t3]. cbn [fst snd] in *.
  change (samples_of (_ :: _ :: t3))
    with (sample_text (settled_answer s) :: samples_of t3).
  cbn [List.length].
  assert (Hq : ((timeoutMs - (clock env w2 - start) + 399) / 400
                <= (timeoutMs - (clock env w - start) + 399) / 400 - 1)%Z).
  { replace ((timeoutMs - (clock env w - start) + 399) / 400 - 1)%Z
      with ((timeoutMs - (clock env w - start) + 399 + (-1) * 400) / 400)%Z
      by (rewrite Z.div_add by lia; lia).
    apply Z.div_le_mono; lia. }
  lia.
Qed.

(** With pauses that last, a run that returns has spent 400 ms for every
    sample after the first. *)
Lemma readStableText_loop_elapsed (Hread : reads_keep_time env)
  (Hpause : pauses_take_time env) (fuel : nat) :
  forall (seen : list string) (w w' : W) (t : string) (tr : list Event),
    rloop fuel (hd "" seen) (ticks_after seen) w = (Ok t, w', tr) ->
    (clock env w + 400 * Z.of_nat (pred (List.length (samples_of tr)))
     <= clock env w')%Z.
Proof.
  induction fuel as [|fuel IH]; intros seen w w' t tr Hrun;
    [cbn in Hrun; discriminate|].
  rewrite readStableText_loop_step in Hrun.
  destruct (clock env w - start <? timeoutMs)%Z.
  2:{ injection Hrun as _ <- <-. cbn. lia. }
  cbv zeta in Hrun.
  pose proof (Hread page l w) as Hr.
  destruct (innerText env page l w) as [s w1]. cbn [fst snd] in *.
  destruct (stable_newest_first _).
  { injection Hrun as _ <- <-. cbn. lia. }
  pose proof (Hpause page 400%Z w1) as Hp.
  destruct (waitForTimeout env page 400 w1) as [[[]|e2] w2];
    cbn [fst snd] in Hrun; [|discriminate].
  specialize (Hp w2 eq_refl).
  destruct (rloop fuel _ _ w2) as [[r3 w3] t3] eqn:E.
  injection Hrun as -> <- <-.
  specialize (IH _ _ _ _ _ E).
  change (samples_of (_ :: _ :: t3))
    with (sample_text (settled_answer s) :: samples_of t3).
  cbn [List.length pred].
  destruct (samples_of t3) as [|x xs]; cbn [List.length pred] in *; lia.
Qed.

End StabilityReaderMore.

Section StabilityReaderBounds.
Context {W : Type}.
Variable env : Env W.

(** X12. When reading text never turns the clock back and a fulfilled pause
    lasts at least its 400 ms, the stability reader takes at most
    ceil(timeoutMs / 400) samples, whatever the page answers and however the
    run ends. *)
Theorem readStableText_sample_bound (Hread : reads_keep_time env)
  (Hpause : pauses_take_time env) (fuel : nat) (page : Page) (l : Locator)
  (timeoutMs : Z) (w : W) :
  List.length (samples_of (snd (readStableText env fuel page l timeoutMs w)))
  <= Z.to_nat ((timeoutMs + 399) / 400).
Proof.
  rewrite readStableText_unfold.
  pose proof (readStableText_loop_samples env page l (clock env w) timeoutMs
                Hread Hpause fuel [] w) as H.
  replace (timeoutMs - (clock env w - clock env w))%Z with timeoutMs in H by lia.
  exact H.
Qed.

(** X13. Under the same clock assumptions, a text returned because it was
    stable (the run ended right after a sample) was observed over at least
    1200 ms: four samples with three pauses between them. *)
Theorem readStableText_stable_takes_time (Hread : reads_keep_time env)
  (Hpause : pauses_take_time env) (fuel : nat) (page : Page) (l : Locator)
  (timeoutMs : Z) (w w' : W) (t : string) (tr : list Event) :
  readStableText env fuel page l timeoutMs w = (Ok t, w', tr) ->
  ended_on_sample tr = true ->
  4 <= List.length (samples_of tr)
  /\ (clock env w + 1200 <= clock env w')%Z.
Proof.
  rewrite readStableText_unfold. intros Hrun Hend.
  pose proof (readStableText_loop_elapsed env page l (clock env w) timeoutMs
                Hread Hpause fuel [] w w' t tr Hrun) as Htime.
  apply readStableText_loop_spec in Hrun as (_ & _ & _ & Hst & _);
    [|reflexivity].
  rewrite app_nil_r, Hend in Hst. symmetry in Hst.
  fold (stable (samples_of tr)) in Hst.
  apply stable_four_equal in Hst as (front & x & _ & Hs).
  assert (Hlen : 4 <= List.length (samples_of tr)).
  { rewrite Hs, length_app. cbn. lia. }
  split; [exact Hlen|]. lia.
Qed.

(** With a budget that is not positive the reader makes no call at all and
    returns the empty string, leaving the world as it was. *)
Lemma readStableText_without_budget (fuel : nat) (page : Page) (l : Locator)
  (timeoutMs : Z) (w : W) :
  (timeoutMs <= 0)%Z ->
  readStableText env (S fuel) page l timeoutMs w = (Ok "", w, []).
Proof.
  intros H. rewrite readStableText_unfold.
  rewrite (readStableText_loop_step env page l (clock env w) timeoutMs fuel [] w).
  destruct (Z.ltb_spec (clock env w - clock env w) timeoutMs); [lia|reflexivity].
Qed.

End StabilityReaderBounds.

Lemma readStableText_sample_bound_witness :
  List.length
    (samples_of (snd (readStableText replay_env 4 page0 reply_locator 1000
                        growing_text)))
  <= 3.
Proof.
  exact (readStableText_sample_bound replay_env replay_reads_keep_time
           replay_pauses_take_time 4 page0 reply_locator 1000 growing_text).
Defined.

Lemma readStableText_stable_takes_time_witness :
  4 <= List.length
         (samples_of (snd (readStableText replay_env 8 page0 reply_locator 60000
                             six_samples)))
  /\ (r_clock six_samples + 1200 <= 2000)%Z.
Proof.
  exact (readStableText_stable_takes_time replay_env replay_reads_keep_time
           replay_pauses_take_time 8 page0 reply_locator 60000 six_samples
           (mkReplay 2000 [paused; says "b!"; paused]) "b"
           (snd (readStableText replay_env 8 page0 reply_locator 60000
                   six_samples))
           eq_refl eq_refl).
Defined.

(** ** Further properties: which calls each stage makes *)

Lemma calls_in_weaken {W A : Type} (ok ok' : Call -> bool) (m : M W A) :
  (forall c, ok c = true -> ok' c = true) -> calls_in ok m -> calls_in ok' m.
Proof.
  intros Himp Hm w. specialize (Hm w).
  eapply Forall_impl; [|exact Hm]. intros e He. now apply Himp.
Qed.

Lemma samples_of_app (t1 t2 : list Event) :
  samples_of (t1 ++ t2) = (samples_of t1 ++ samples_of t2)%list.
Proof.
  induction t1 as [|e t1 IH]; [reflexivity|].
  cbn [app samples_of]. destruct (ev_call e); rewrite IH; reflexivity.
Qed.

Lemma no_reads_no_samples (tr : list Event) :
  Forall (fun e => not_a_read (ev_call e) = true) tr -> samples_of tr = [].
Proof.
  induction 1 as [|e tr He _ IH]; [reflexivity|].
  cbn [samples_of]. destruct (ev_call e); try exact IH. discriminate.
Qed.

Section Footprints.
Context {W : Type}.
Variable env : Env W.

Lemma ensureAtlasCdpUrl_footprint (profile : ResolvedBrowserProfile) :
  calls_in endpoint_call (ensureAtlasCdpUrl env profile).
Proof. unfold ensureAtlasCdpUrl. walk. Qed.

Lemma findPromptInput_footprint (page : Page) (timeoutMs : Z) :
  calls_in locate_call (findPromptInput env page timeoutMs).
Proof.
  unfold findPromptInput. walk.
  induction prompt_selectors as [|selector rest IH];
    cbn [findPromptInput_loop]; walk.
Qed.

Lemma clickSend_footprint (page : Page) (input : Locator) :
  calls_in submit_call (clickSend env page input).
Proof. unfold clickSend. walk. Qed.

Lemma waitForAssistantMessage_footprint (page : Page) (baseline : nat)
  (timeoutMs : Z) :
  calls_in detect_call (waitForAssistantMessage env page baseline timeoutMs).
Proof. unfold waitForAssistantMessage. walk. Qed.

Lemma readStableText_footprint (fuel : nat) (page : Page) (l : Locator)
  (timeoutMs : Z) :
  calls_in poll_call (readStableText env fuel page l timeoutMs).
Proof.
  assert (Hloop : forall start last ticks,
             calls_in poll_call
               (readStableText_loop env fuel page l start timeoutMs last ticks)).
  { induction fuel as [|fuel' IH]; intros start last ticks;
      cbn [readStableText_loop].
    - intros w. constructor.
    - walk. }
  unfold readStableText. apply calls_in_bind; [apply calls_in_now|].
  intros start. apply Hloop.
Qed.

(** X17. Each stage keeps to its own calls, on every run: the endpoint
    check only queries and starts the browser; the input locator only waits
    for visibility and checks enabledness (it never types or clicks); the
    submission only checks the send button, clicks it or presses a key; the
    reply detector only waits for and counts messages; the stability reader
    only reads text and pauses. *)
Theorem stage_footprints (profile : ResolvedBrowserProfile) (fuel : nat)
  (page : Page) (l : Locator) (baseline : nat) (timeoutMs : Z) :
  calls_in endpoint_call (ensureAtlasCdpUrl env profile)
  /\ calls_in locate_call (findPromptInput env page timeoutMs)
  /\ calls_in submit_call (clickSend env page l)
  /\ calls_in detect_call (waitForAssistantMessage env page baseline timeoutMs)
  /\ calls_in poll_call (readStableText env fuel page l timeoutMs).
Proof.
  split; [apply ensureAtlasCdpUrl_footprint|].
  split; [apply findPromptInput_footprint|].
  split; [apply clickSend_footprint|].
  split; [apply waitForAssistantMessage_footprint|].
  apply readStableText_footprint.
Qed.

End Footprints.

(** ** Further properties: the clock *)

Section Clock.
Context {W : Type}.
Variable env : Env W.

Lemma keeps_time_ret {A : Type} (a : A) : keeps_time env (@ret W A a).
Proof. intros w. cbn. lia. Qed.

Lemma keeps_time_throw {A : Type} (e : Thrown) : keeps_time env (@throw W A e).
Proof. intros w. cbn. lia. Qed.

Lemma keeps_time_now : keeps_time env (now env).
Proof. intros w. cbn. lia. Qed.

Lemma keeps_time_out {A : Type} :
  keeps_time env (fun w : W => (@OutOfFuel A, w, @nil Event)).
Proof. intros w. cbn. lia. Qed.

Lemma keeps_time_call {A : Type} `{ToAnswer A} (c : Call)
  (op : W -> Settled A * W) :
  keeps_time_op env op -> keeps_time env (call env c op).
Proof.
  intros Hop w. specialize (Hop w). unfold call.
  destruct (op w) as [s w1]. exact Hop.
Qed.

Lemma keeps_time_bind {A B : Type} (m : M W A) (k : A -> M W B) :
  keeps_time env m -> (forall a, keeps_time env (k a)) ->
  keeps_time env (bind m k).
Proof.
  intros Hm Hk w. unfold bind. specialize (Hm w).
  destruct (m w) as [[[a|e|] w1] t1]; cbn [fst snd] in *; try exact Hm.
  specialize (Hk a w1). destruct (k a w1) as [[r w2] t2]. cbn [fst snd] in *.
  lia.
Qed.

Lemma keeps_time_try_catch {A : Type} (m : M W A) (h : Thrown -> M W A) :
  keeps_time env m -> (forall e, keeps_time env (h e)) ->
  keeps_time env (try_catch m h).
Proof.
  intros Hm Hh w. unfold try_catch. specialize (Hm w).
  destruct (m w) as [[[a|e|] w1] t1]; cbn [fst snd] in *; try exact Hm.
  specialize (Hh e w1). destruct (h e w1) as [[r w2] t2]. cbn [fst snd] in *.
  lia.
Qed.

Lemma keeps_time_catch_default {A : Type} (m : M W A) (dflt : A) :
  keeps_time env m -> keeps_time env (catch_default m dflt).
Proof.
  intros Hm. apply keeps_time_try_catch; [exact Hm|].
  intros e. apply keeps_time_ret.
Qed.

End Clock.

(** Walk down a computation to show that it keeps time; the assumptions on
    the collaborators are taken from the context. *)
Ltac tick :=
  repeat first
    [ assumption
    | apply keeps_time_ret
    | apply keeps_time_throw
    | apply keeps_time_now
    | apply keeps_time_out
    | apply keeps_time_bind; [|intro]
    | apply keeps_time_try_catch; [|intro]
    | apply keeps_time_catch_default
    | apply keeps_time_call; solve [auto]
    | match goal with
      | |- keeps_time _ (if ?b then _ else _) => destruct b
      | |- keeps_time _ (match ?x with _ => _ end) => destruct x
      end ].

Section ClockStages.
Context {Config : Type} {W : Type}.
Variable env : Env W.
Hypothesis Hsteady : steady_clock env.

Lemma findPromptInput_keeps_time (page : Page) (timeoutMs : Z) :
  keeps_time env (findPromptInput env page timeoutMs).
Proof.
  destruct Hsteady. unfold findPromptInput.
  apply keeps_time_bind; [apply keeps_time_now|]. intros t0.
  apply keeps_time_bind; [|intro; tick].
  induction prompt_selectors as [|selector rest IH];
    cbn [findPromptInput_loop]; tick.
Qed.

Lemma clickSend_keeps_time (page : Page) (input : Locator) :
  keeps_time env (clickSend env page input).
Proof. destruct Hsteady. unfold clickSend. tick. Qed.

Lemma waitForAssistantMessage_keeps_time (page : Page) (baseline : nat)
  (timeoutMs : Z) :
  keeps_time env (waitForAssistantMessage env page baseline timeoutMs).
Proof. destruct Hsteady. unfold waitForAssistantMessage. tick. Qed.

Lemma readStableText_keeps_time (fuel : nat) (page : Page) (l : Locator)
  (timeoutMs : Z) :
  keeps_time env (readStableText env fuel page l timeoutMs).
Proof.
  destruct Hsteady as [_ _ _ _ _ _ _ _ _ _ _ Hread Hpause].
  assert (H400 : forall p, keeps_time_op env (waitForTimeout env p 400))
    by (intros p; apply Hpause; lia).
  assert (Hloop : forall start last ticks,
             keeps_time env
               (readStableText_loop env fuel page l start timeoutMs last ticks)).
  { induction fuel as [|fuel' IH]; intros start last ticks;
      cbn [readStableText_loop]; tick; try apply IH. }
  unfold readStableText. apply keeps_time_bind; [apply keeps_time_now|].
  intros start. apply Hloop.
Qed.

Lemma runAtlasPrompt_body_keeps_time (fuel : nat)
  (options : PromptOptions Config) (cdp : string) (info : PageInfo)
  (start : Z) :
  keeps_time env (runAtlasPrompt_body env fuel options cdp info start).
Proof.
  pose proof findPromptInput_keeps_time as Hf.
  pose proof clickSend_keeps_time as Hc.
  pose proof waitForAssistantMessage_keeps_time as Hw.
  pose proof readStableText_keeps_time as Hr.
  destruct Hsteady. unfold runAtlasPrompt_body.
  apply keeps_time_bind; [tick|]. intros page.
  apply keeps_time_bind; [tick|]. intros _.
  apply keeps_time_bind; [apply Hf|]. intros input.
  apply keeps_time_bind; [tick|]. intros baseline.
  apply keeps_time_bind; [tick|]. intros _.
  apply keeps_time_bind; [apply Hc|]. intros _.
  apply keeps_time_bind; [apply Hw|]. intros message.
  apply keeps_time_bind; [apply Hr|]. intros txt.
  tick.
Qed.

End ClockStages.

Lemma replay_keeps_time {A : Type} `{OfAnswer A} (pause : Z) :
  (0 <= pause)%Z -> keeps_time_op replay_env (@replay A _ pause).
Proof.
  intros Hp [c script]. unfold replay. cbn.
  destruct script as [|[dt [a|e]] rest]; cbn; try lia.
  destruct (of_answer a); cbn; lia.
Qed.

Lemma replay_steady : steady_clock replay_env.
Proof.
  constructor; intros; cbn; apply replay_keeps_time; lia.
Qed.

(** ** Further properties: successful runs *)

Lemma bind_Ok {W A B : Type} (m : M W A) (k : A -> M W B) (w w' : W) (b : B)
  (tr : list Event) :
  bind m k w = (Ok b, w', tr) ->
  exists a w1 t1 t2,
    m w = (Ok a, w1, t1) /\ k a w1 = (Ok b, w', t2) /\ tr = (t1 ++ t2)%list.
Proof.
  unfold bind. destruct (m w) as [[[a|e|] w1] t1]; try discriminate.
  destruct (k a w1) as [[r w2] t2] eqn:E. intros [= -> -> <-].
  now exists a, w1, t1, t2.
Qed.

Lemma calls_in_run {W A : Type} (ok : Call -> bool) (m : M W A) (w w' : W)
  (r : Res A) (tr : list Event) :
  calls_in ok m -> m w = (r, w', tr) ->
  Forall (fun e => ok (ev_call e) = true) tr.
Proof. intros H E. specialize (H w). now rewrite E in H. Qed.

Section Success.
Context {Config BrowserConfig Resolved W : Type}.
Variable api : ConfigApi Config BrowserConfig Resolved.
Variable env : Env W.

(** A successful run of the guarded block: everything before the reading
    made no text read, the reading returned the text of the result, which is
    not empty, and the elapsed time is counted up to the end of the block. *)
Lemma runAtlasPrompt_body_success (fuel : nat) (options : PromptOptions Config)
  (cdp : string) (info : PageInfo) (start : Z) (w0 wb : W)
  (res : AtlasPromptResult) (tb : list Event) :
  runAtlasPrompt_body env fuel options cdp info start w0 = (Ok res, wb, tb) ->
  exists page l w1 pre reading,
    tb = (pre ++ reading)%list
    /\ Forall (fun e => not_a_read (ev_call e) = true) pre
    /\ Forall (fun e => inner_call (ev_call e) = true) tb
    /\ readStableText env fuel page l (timeoutMs options) w1
       = (Ok (text res), wb, reading)
    /\ truthy (text res) = true
    /\ tookMs res = (clock env wb - start)%Z.
Proof.
  intros Hrun.
  pose proof (calls_in_run _ _ _ _ _ _
                (runAtlasPrompt_body_calls env fuel options cdp info start) Hrun)
    as Hinner.
  unfold runAtlasPrompt_body in Hrun.
  apply bind_Ok in Hrun as (page & wa & ta & ra & Ea & Hrun & ->).
  apply bind_Ok in Hrun as (u1 & wb1 & tb1 & rb1 & Eb & Hrun & ->).
  apply bind_Ok in Hrun as (input & wc & tc & rc & Ec & Hrun & ->).
  apply bind_Ok in Hrun as (baseline & wd & td & rd & Ed & Hrun & ->).
  apply bind_Ok in Hrun as (u2 & we & te & re & Ee & Hrun & ->).
  apply bind_Ok in Hrun as (u3 & wf & tf & rf & Ef & Hrun & ->).
  apply bind_Ok in Hrun as (message & wg & tg & rg & Eg & Hrun & ->).
  apply bind_Ok in Hrun as (txt & wh & th & rh & Eh & Hrun & ->).
  destruct (truthy txt) eqn:Etxt; cbn [negb] in Hrun; [|discriminate].
  unfold bind, now, ret in Hrun. injection Hrun as <- <- <-.
  exists page, message, wg,
    (ta ++ tb1 ++ tc ++ td ++ te ++ tf ++ tg)%list, th.
  split; [now rewrite app_nil_r, <- !app_assoc|].
  split.
  { assert (Hw : forall c, locate_call c = true -> not_a_read c = true)
      by (intros []; cbn; congruence).
    assert (Hs : forall c, submit_call c = true -> not_a_read c = true)
      by (intros []; cbn; congruence).
    assert (Hd : forall c, detect_call c = true -> not_a_read c = true)
      by (intros []; cbn; congruence).
    repeat (apply Forall_app; split).
    - eapply calls_in_run; [|exact Ea]. now apply calls_in_call.
    - eapply calls_in_run; [|exact Eb].
      apply calls_in_catch_default. now apply calls_in_call.
    - eapply calls_in_run; [|exact Ec].
      eapply calls_in_weaken; [exact Hw|apply findPromptInput_footprint].
    - eapply calls_in_run; [|exact Ed]. now apply calls_in_call.
    - eapply calls_in_run; [|exact Ee]. now apply calls_in_call.
    - eapply calls_in_run; [|exact Ef].
      eapply calls_in_weaken; [exact Hs|apply clickSend_footprint].
    - eapply calls_in_run; [|exact Eg].
      eapply calls_in_weaken; [exact Hd|apply waitForAssistantMessage_footprint]. }
  split; [exact Hinner|].
  split; [exact Eh|]. split; [exact Etxt|]. reflexivity.
Qed.

(** A run that returns a result opened a page, ran the guarded block to its
    end and then ran the [finally] clause. *)
Lemma runAtlasPrompt_success (fuel : nat) (options : PromptOptions Config)
  (w w' : W) (res : AtlasPromptResult) (tr : list Event) :
  runAtlasPrompt api env fuel options w = (Ok res, w', tr) ->
  exists m cdp chatUrl info before w2 w0 wb tb closing,
    tr = (before
            ++ mkEvent (clock env w2) (CCreatePage cdp chatUrl)
                 (Fulfilled (APageInfo info))
            :: tb ++ closing)%list
    /\ Forall (fun e => preparing_call (ev_call e) = true) before
    /\ createPageViaPlaywright env cdp chatUrl w2 = (Fulfilled info, w0)
    /\ runAtlasPrompt_body env fuel options cdp info (clock env w2) w0
       = (Ok res, wb, tb)
    /\ closing = (if has_closePageByTargetIdViaPlaywright m then
                    [mkEvent (clock env wb) (CClosePage cdp (targetId info))
                       (settled_answer
                          (fst (closePageByTargetIdViaPlaywright env cdp
                                  (targetId info) wb)))]
                  else []).
Proof.
  unfold runAtlasPrompt.
  destruct (flag (sandboxed options)); [discriminate|].
  destruct (resolveAtlasProfile api (config options)) as [[profile|]|e0];
    cbn [lift_settled]; [|discriminate|discriminate].
  unfold bind at 1. cbn [ret]. unfold bind at 1, call at 1.
  destruct (getPwAiModule env w) as [[[m|]|e1] w1]; cbn [settled_answer];
    [|discriminate|discriminate].
  destruct (negb (has_createPageViaPlaywright m)
            || negb (has_getPageForTargetId m)); [discriminate|].
  unfold bind at 1.
  pose proof (ensureAtlasCdpUrl_footprint env profile w1) as Hcdp.
  destruct (ensureAtlasCdpUrl env profile w1) as [[[cdp|e2|] w2] t2];
    cbn [fst snd] in Hcdp; [|discriminate|discriminate].
  cbv zeta. unfold bind at 1, now at 1. unfold bind at 1, call at 1.
  set (chatUrl := or_else (opt_trim (url options)) DEFAULT_ATLAS_CHAT_URL).
  destruct (createPageViaPlaywright env cdp chatUrl w2) as [[info|e3] w3] eqn:Ec;
    cbn [settled_answer]; [|discriminate].
  unfold try_finally, try_catch.
  destruct (runAtlasPrompt_body env fuel options cdp info (clock env w2) w3)
    as [[[a|e|] wb] tb] eqn:Eb.
  - destruct (runAtlasPrompt_finally_spec env m cdp info wb)
      as (wf & tf & Ef & Htf).
    rewrite Ef. intros [= <- <- <-].
    exists m, cdp, chatUrl, info,
      (mkEvent (clock env w) CGetPwAiModule (Fulfilled (to_answer (Some m)))
       :: t2), w2, w3, wb, tb, tf.
    split; [reflexivity|]. split.
    { constructor; [reflexivity|].
      eapply Forall_impl; [|exact Hcdp].
      intros ev Hev. cbn beta in *.
      destruct (ev_call ev); cbn in *; congruence. }
    split; [exact Ec|]. split; [exact Eb|]. exact Htf.
  - pose proof (runAtlasPrompt_try_wraps env fuel options cdp info
                  (clock env w2) w3) as Hwrap.
    unfold try_catch in Hwrap. rewrite Eb in Hwrap.
    destruct (runAtlasPrompt_catch env e wb) as [[[x|e'|] wc] tc] eqn:Ecatch.
    + exfalso. unfold runAtlasPrompt_catch, bind, log_debug in Ecatch.
      destruct (is_AtlasUnavailable e); discriminate.
    + destruct (runAtlasPrompt_finally env m cdp info wc) as [[[u|ef|] wf] tf];
        discriminate.
    + discriminate.
  - discriminate.
Qed.

End Success.

Section SuccessFacts.
Context {Config BrowserConfig Resolved W : Type}.
Variable api : ConfigApi Config BrowserConfig Resolved.
Variable env : Env W.

(** X14. A result returned by [runAtlasPrompt] never carries an empty text:
    at least one text sample was taken during the run, and the text of the
    result is the last sample taken (trimmed, as every sample is). *)
Theorem runAtlasPrompt_result_text (fuel : nat) (options : PromptOptions Config)
  (w w' : W) (res : AtlasPromptResult) (tr : list Event) :
  runAtlasPrompt api env fuel options w = (Ok res, w', tr) ->
  text res <> ""
  /\ samples_of tr <> []
  /\ text res = last (samples_of tr) "".
Proof.
  intros Hrun.
  apply runAtlasPrompt_success in Hrun
    as (m & cdp & chatUrl & info & before & w2 & w0 & wb & tb & closing
        & -> & Hbefore & _ & Hbody & ->).
  apply runAtlasPrompt_body_success in Hbody
    as (page & l & w1 & pre & reading & -> & Hpre & _ & Hread & Htxt & _).
  assert (Hs : samples_of
                 (before
                    ++ mkEvent (clock env w2) (CCreatePage cdp chatUrl)
                         (Fulfilled (APageInfo info))
                    :: (pre ++ reading)
                    ++ (if has_closePageByTargetIdViaPlaywright m then
                          [mkEvent (clock env wb)
                             (CClosePage cdp (targetId info))
                             (settled_answer
                                (fst (closePageByTargetIdViaPlaywright env cdp
                                        (targetId info) wb)))]
                        else []))
               = samples_of reading).
  { rewrite samples_of_app. cbn [samples_of ev_call].
    rewrite !samples_of_app.
    rewrite (no_reads_no_samples before), (no_reads_no_samples pre).
    - destruct (has_closePageByTargetIdViaPlaywright m); cbn;
        now rewrite app_nil_r.
    - exact Hpre.
    - eapply Forall_impl; [|exact Hbefore].
      intros ev Hev. cbn beta in *. destruct (ev_call ev); cbn in *; congruence. }
  rewrite Hs. clear Hs.
  rewrite readStableText_unfold in Hread.
  apply readStableText_loop_spec in Hread as (_ & _ & Ht & _); [|reflexivity].
  rewrite hd_rev_last in Ht.
  assert (Hne : text res <> "") by (intros E; rewrite E in Htxt; discriminate).
  split; [exact Hne|]. split; [|exact Ht].
  intros E. rewrite E in Ht. cbn in Ht. congruence.
Qed.

(** X15. A run cannot succeed on a budget that is not positive: with
    [timeoutMs <= 0] no text is ever read, so [runAtlasPrompt] never returns
    a result, whatever the page does. *)
Theorem runAtlasPrompt_needs_budget (fuel : nat) (options : PromptOptions Config)
  (w : W) (res : AtlasPromptResult) :
  (timeoutMs options <= 0)%Z ->
  fst (fst (runAtlasPrompt api env fuel options w)) <> Ok res.
Proof.
  intros Hbudget Hok.
  destruct (runAtlasPrompt api env fuel options w) as [[r w'] tr] eqn:Hrun.
  cbn [fst] in Hok. subst r.
  apply runAtlasPrompt_success in Hrun
    as (m & cdp & chatUrl & info & before & w2 & w0 & wb & tb & closing
        & _ & _ & _ & Hbody & _).
  apply runAtlasPrompt_body_success in Hbody
    as (page & l & w1 & pre & reading & _ & _ & _ & Hread & Htxt & _).
  destruct fuel as [|fuel].
  - unfold readStableText, bind, now in Hread. cbn in Hread. discriminate.
  - rewrite (readStableText_without_budget env fuel page l _ w1 Hbudget) in Hread.
    injection Hread as Ht _ _. rewrite <- Ht in Htxt. discriminate.
Qed.

(** X16. When no call made while the page is open turns the clock back, the
    elapsed time of a result is not negative; it runs from the moment just
    before the page is opened to the end of the reading, which is the moment
    the page is closed: the duration of the close call is not counted. *)
Theorem runAtlasPrompt_elapsed (Hsteady : steady_clock env) (fuel : nat)
  (options : PromptOptions Config) (w w' : W) (res : AtlasPromptResult)
  (tr : list Event) :
  runAtlasPrompt api env fuel options w = (Ok res, w', tr) ->
  (0 <= tookMs res)%Z
  /\ (forall e c, In e tr -> is_create_call e = true ->
                  In c tr -> is_close_call c = true ->
                  tookMs res = (ev_time c - ev_time e)%Z).
Proof.
  intros Hrun.
  apply runAtlasPrompt_success in Hrun
    as (m & cdp & chatUrl & info & before & w2 & w0 & wb & tb & closing
        & -> & Hbefore & Hopen & Hbody & ->).
  pose proof (runAtlasPrompt_body_keeps_time env Hsteady fuel options cdp info
                (clock env w2) w0) as Hkeep.
  rewrite Hbody in Hkeep. cbn [fst snd] in Hkeep.
  pose proof (steady_createPage env Hsteady cdp chatUrl w2) as Hcreate.
  rewrite Hopen in Hcreate. cbn [snd] in Hcreate.
  apply runAtlasPrompt_body_success in Hbody
    as (page & l & w1 & pre & reading & Htb & _ & Hinner & _ & _ & Htook).
  split; [lia|].
  assert (Hprep : forall x, In x before ->
                            is_create_call x = false /\ is_close_call x = false).
  { intros x Hx. rewrite Forall_forall in Hbefore. specialize (Hbefore x Hx).
    unfold is_create_call, is_close_call.
    destruct (ev_call x); cbn in *; split; congruence. }
  assert (Hin : forall x, In x tb ->
                          is_create_call x = false /\ is_close_call x = false).
  { intros x Hx. rewrite Forall_forall in Hinner. specialize (Hinner x Hx).
    unfold is_create_call, is_close_call.
    destruct (ev_call x); cbn in *; split; congruence. }
  intros e c He Hce Hc Hcc.
  assert (Ee : ev_time e = clock env w2).
  { apply in_app_or in He as [He|[<-|He]]; [|reflexivity|].
    - apply Hprep in He. destruct He; congruence.
    - apply in_app_or in He as [He|He].
      + apply Hin in He. destruct He; congruence.
      + destruct (has_closePageByTargetIdViaPlaywright m);
          [destruct He as [<-|[]]; discriminate|destruct He]. }
  assert (Ecl : ev_time c = clock env wb).
  { apply in_app_or in Hc as [Hc|[<-|Hc]]; [|discriminate|].
    - apply Hprep in Hc. destruct Hc; congruence.
    - apply in_app_or in Hc as [Hc|Hc].
      + apply Hin in Hc. destruct Hc; congruence.
      + destruct (has_closePageByTargetIdViaPlaywright m);
          [destruct Hc as [<-|[]]; reflexivity|destruct Hc]. }
  lia.
Qed.

End SuccessFacts.

Lemma runAtlasPrompt_result_text_witness :
  let run := runAtlasPrompt good_api replay_env 80 (ask "Hi" 30000)
               (slow_conversation 700) in
  fst (fst run) = Ok (mkResult "Hello" 1950)
  /\ text (mkResult "Hello" 1950) <> ""
  /\ samples_of (snd run) <> []
  /\ text (mkResult "Hello" 1950) = last (samples_of (snd run)) "".
Proof.
  cbv zeta. split; [vm_compute; reflexivity|].
  apply (runAtlasPrompt_result_text good_api replay_env 80 (ask "Hi" 30000)
           (slow_conversation 700)
           (snd (fst (runAtlasPrompt good_api replay_env 80 (ask "Hi" 30000)
                        (slow_conversation 700))))).
  vm_compute. reflexivity.
Defined.

Lemma runAtlasPrompt_needs_budget_witness :
  fst (fst (runAtlasPrompt good_api replay_env 80 (ask "Hi" 0)
              (slow_conversation 700)))
  <> Ok (mkResult "Hello" 1950)
  /\ fst (fst (runAtlasPrompt good_api replay_env 80 (ask "Hi" 0)
                 (slow_conversation 700)))
     = Throw (AtlasUnavailable "ChatGPT returned an empty response.").
Proof.
  split; [|vm_compute; reflexivity].
  apply (runAtlasPrompt_needs_budget good_api replay_env 80 (ask "Hi" 0)
           (slow_conversation 700)).
  cbn. lia.
Defined.

Lemma runAtlasPrompt_elapsed_witness :
  (0 <= tookMs (mkResult "Hello" 1950))%Z
  /\ (forall e c,
        In e (snd (runAtlasPrompt good_api replay_env 80 (ask "Hi" 30000)
                     (slow_conversation 700))) ->
        is_create_call e = true ->
        In c (snd (runAtlasPrompt good_api replay_env 80 (ask "Hi" 30000)
                     (slow_conversation 700))) ->
        is_close_call c = true ->
        tookMs (mkResult "Hello" 1950) = (ev_time c - ev_time e)%Z).
Proof.
  apply (runAtlasPrompt_elapsed good_api replay_env replay_steady 80
           (ask "Hi" 30000) (slow_conversation 700)
           (snd (fst (runAtlasPrompt good_api replay_env 80 (ask "Hi" 30000)
                        (slow_conversation 700))))).
  vm_compute. reflexivity.
Defined.

(** ** Further properties: one page per run *)

Lemma preparing_is_not_page_call (tr : list Event) :
  Forall (fun e => preparing_call (ev_call e) = true) tr ->
  filter is_create_call tr = [] /\ close_calls tr = [].
Proof.
  induction 1 as [|e tr He _ [IH1 IH2]]; [split; reflexivity|].
  unfold close_calls in *. cbn [filter]. rewrite IH1, IH2.
  unfold is_create_call, is_close_call.
  destruct (ev_call e); try discriminate; split; reflexivity.
Qed.

Lemma inner_has_no_create (tr : list Event) :
  Forall (fun e => inner_call (ev_call e) = true) tr ->
  filter is_create_call tr = [].
Proof.
  induction 1 as [|e tr He _ IH]; [reflexivity|].
  cbn [filter]. rewrite IH.
  unfold is_create_call. destruct (ev_call e); try reflexivity; discriminate.
Qed.

Section OnePage.
Context {Config BrowserConfig Resolved W : Type}.
Variable api : ConfigApi Config BrowserConfig Resolved.
Variable env : Env W.

(** The trace of any run, cut off or not: the calls that prepare, then at
    most one create call, and after a fulfilled one the calls of the guarded
    block and at most one close call. *)
Lemma runAtlasPrompt_shape (fuel : nat) (options : PromptOptions Config)
  (w w' : W) (r : Res AtlasPromptResult) (tr : list Event) :
  runAtlasPrompt api env fuel options w = (r, w', tr) ->
  exists before,
    Forall (fun e => preparing_call (ev_call e) = true) before
    /\ (tr = before
        \/ (exists t cdp u e,
               tr = (before ++ [mkEvent t (CCreatePage cdp u) (Rejected e)])%list)
        \/ (exists t cdp u info tb closing,
               tr = (before
                       ++ mkEvent t (CCreatePage cdp u) (Fulfilled (APageInfo info))
                       :: tb ++ closing)%list
               /\ Forall (fun e => inner_call (ev_call e) = true) tb
               /\ (closing = []
                   \/ exists t' reply,
                       closing = [mkEvent t' (CClosePage cdp (targetId info))
                                          reply]))).
Proof.
  unfold runAtlasPrompt.
  destruct (flag (sandboxed options)).
  { intros [= <- <- <-]. exists []. split; [constructor|now left]. }
  destruct (resolveAtlasProfile api (config options)) as [[profile|]|e0];
    cbn [lift_settled].
  2:{ intros [= <- <- <-]. exists []. split; [constructor|now left]. }
  2:{ intros [= <- <- <-]. exists []. split; [constructor|now left]. }
  unfold bind at 1. cbn [ret]. unfold bind at 1, call at 1.
  destruct (getPwAiModule env w) as [[[m|]|e1] w1]; cbn [settled_answer].
  2:{ intros [= <- <- <-]. eexists. split; [|left; reflexivity].
      repeat constructor. }
  2:{ intros [= <- <- <-]. eexists. split; [|left; reflexivity].
      repeat constructor. }
  set (evm := mkEvent (clock env w) CGetPwAiModule
                      (Fulfilled (to_answer (Some m)))).
  destruct (negb (has_createPageViaPlaywright m)
            || negb (has_getPageForTargetId m)).
  { intros [= <- <- <-]. exists [evm].
    split; [repeat constructor|now left]. }
  unfold bind at 1.
  pose proof (ensureAtlasCdpUrl_footprint env profile w1) as Hcdp.
  pose proof (ensureAtlasCdpUrl_ends env profile w1) as Hcdp_ends.
  assert (Hprep : forall t2,
             Forall (fun e => endpoint_call (ev_call e) = true) t2 ->
             Forall (fun e => preparing_call (ev_call e) = true) (evm :: t2)).
  { intros t2 H. constructor; [reflexivity|].
    eapply Forall_impl; [|exact H].
    intros ev Hev. cbn beta in *. destruct (ev_call ev); cbn in *; congruence. }
  destruct (ensureAtlasCdpUrl env profile w1) as [[[cdp|e2|] w2] t2];
    cbn [fst snd] in Hcdp, Hcdp_ends.
  2:{ intros [= <- <- <-]. exists (evm :: t2). split; [now apply Hprep|now left]. }
  2:{ now elim Hcdp_ends. }
  cbv zeta. unfold bind at 1, now at 1. unfold bind at 1, call at 1.
  set (chatUrl := or_else (opt_trim (url options)) DEFAULT_ATLAS_CHAT_URL).
  destruct (createPageViaPlaywright env cdp chatUrl w2) as [[info|e3] w3];
    cbn [settled_answer].
  2:{ intros [= <- <- <-]. exists (evm :: t2). split; [now apply Hprep|].
      right. left. now exists (clock env w2), cdp, chatUrl, e3. }
  unfold try_finally.
  pose proof (calls_in_try_catch inner_call _ _
                (runAtlasPrompt_body_calls env fuel options cdp info
                   (clock env w2))
                (runAtlasPrompt_catch_calls env) w3) as Htb.
  destruct (try_catch (runAtlasPrompt_body env fuel options cdp info (clock env w2))
                      (runAtlasPrompt_catch env) w3) as [[rb wb] tb].
  cbn [snd] in Htb.
  destruct (runAtlasPrompt_finally_spec env m cdp info wb) as (wf & tf & Ef & Htf).
  assert (Hclosing : tf = []
                     \/ exists t' reply,
                         tf = [mkEvent t' (CClosePage cdp (targetId info)) reply]).
  { rewrite Htf. destruct (has_closePageByTargetIdViaPlaywright m);
      [right; eexists; eexists; reflexivity|now left]. }
  intros Hrun. exists (evm :: t2). split; [now apply Hprep|].
  right. right. exists (clock env w2), cdp, chatUrl, info, tb.
  destruct rb as [a|e|]; rewrite ?Ef in Hrun; injection Hrun as <- <- <-.
  - exists tf. split; [reflexivity|]. split; [exact Htb|exact Hclosing].
  - exists tf. split; [reflexivity|]. split; [exact Htb|exact Hclosing].
  - exists []. split; [now rewrite app_nil_r|]. split; [exact Htb|now left].
Qed.

(** X18. On every run, complete or cut off, [runAtlasPrompt] asks for at
    most one page and makes at most one close call; a close call is only
    ever made after a page was opened, for that page, and it is then the
    last call of the run. *)
Theorem runAtlasPrompt_one_page (fuel : nat) (options : PromptOptions Config)
  (w : W) :
  let tr := snd (runAtlasPrompt api env fuel options w) in
  List.length (filter is_create_call tr) <= 1
  /\ List.length (close_calls tr) <= 1
  /\ (forall c, In c (close_calls tr) ->
      exists front e cdp info,
        tr = (front ++ [c])%list
        /\ In e front
        /\ opened_page e = Some (cdp, info)
        /\ ev_call c = CClosePage cdp (targetId info)).
Proof.
  cbv zeta.
  destruct (runAtlasPrompt api env fuel options w) as [[r w'] tr] eqn:Hrun.
  cbn [snd]. apply runAtlasPrompt_shape in Hrun as (before & Hbefore & Hcase).
  destruct (preparing_is_not_page_call _ Hbefore) as [Hb1 Hb2].
  destruct Hcase as [->|[(t & cdp & u & e & ->)
                        |(t & cdp & u & info & tb & closing & -> & Htb & Hcl)]].
  - rewrite Hb1, Hb2. cbn. split; [lia|]. split; [lia|]. intros c [].
  - unfold close_calls in *. rewrite !filter_app, Hb1, Hb2. cbn.
    split; [lia|]. split; [lia|]. intros c [].
  - pose proof (inner_has_no_create _ Htb) as Ht1.
    pose proof (inner_has_no_close _ Htb) as Ht2.
    unfold close_calls in *.
    rewrite !filter_app. cbn [filter is_create_call is_close_call ev_call].
    rewrite !filter_app, Hb1, Hb2, Ht1, Ht2. cbn [app].
    destruct Hcl as [->|(t' & reply & ->)]; cbn.
    + split; [lia|]. split; [lia|]. intros c [].
    + split; [lia|]. split; [lia|]. intros c [<-|[]].
      exists (before
                ++ mkEvent t (CCreatePage cdp u) (Fulfilled (APageInfo info))
                :: tb)%list,
        (mkEvent t (CCreatePage cdp u) (Fulfilled (APageInfo info))), cdp, info.
      split; [now rewrite <- app_assoc|].
      split; [apply in_or_app; right; now left|].
      split; reflexivity.
Qed.

End OnePage.

(** ** Further properties: failures after the page is open, and typing *)

Lemma passive_counts (tr : list Event) :
  Forall (fun e => passive_call (ev_call e) = true) tr ->
  filter is_fill_call tr = [] /\ filter is_submit_action tr = []
  /\ filter is_log_call tr = [].
Proof.
  induction 1 as [|e tr He _ (IH1 & IH2 & IH3)]; [repeat split|].
  cbn [filter]. rewrite IH1, IH2, IH3.
  unfold is_fill_call, is_submit_action, is_log_call.
  destruct (ev_call e); try discriminate; repeat split.
Qed.

Lemma quiet_has_no_log (tr : list Event) :
  Forall (fun e => not_a_log (ev_call e) = true) tr ->
  Forall (fun e => is_log_call e = false) tr.
Proof.
  intros H. eapply Forall_impl; [|exact H].
  intros ev Hev. cbn beta in Hev. unfold is_log_call.
  destruct (ev_call ev); try reflexivity; discriminate.
Qed.

Section Reporting.
Context {Config BrowserConfig Resolved W : Type}.
Variable api : ConfigApi Config BrowserConfig Resolved.
Variable env : Env W.

Lemma runAtlasPrompt_body_quiet (fuel : nat) (options : PromptOptions Config)
  (cdp : string) (info : PageInfo) (start : Z) :
  calls_in not_a_log (runAtlasPrompt_body env fuel options cdp info start).
Proof.
  unfold runAtlasPrompt_body.
  apply calls_in_bind; [now apply calls_in_call|]. intros page.
  apply calls_in_bind;
    [apply calls_in_catch_default; now apply calls_in_call|]. intros _.
  apply calls_in_bind.
  { eapply calls_in_weaken; [|apply findPromptInput_footprint].
    intros []; cbn; congruence. }
  intros input.
  apply calls_in_bind; [now apply calls_in_call|]. intros baseline.
  apply calls_in_bind; [now apply calls_in_call|]. intros _.
  apply calls_in_bind.
  { eapply calls_in_weaken; [|apply clickSend_footprint].
    intros []; cbn; congruence. }
  intros _.
  apply calls_in_bind.
  { eapply calls_in_weaken; [|apply waitForAssistantMessage_footprint].
    intros []; cbn; congruence. }
  intros message.
  apply calls_in_bind.
  { eapply calls_in_weaken; [|apply readStableText_footprint].
    intros []; cbn; congruence. }
  intros txt. destruct (negb (truthy txt)); [apply calls_in_throw|].
  apply calls_in_bind; [apply calls_in_now|]. intros t. apply calls_in_ret.
Qed.

(** How the guarded block ends: as the body did, or, when the body threw
    [err], with one more call, the debug note about [err], and [err] turned
    into an [AtlasUnavailableError]. *)
Lemma runAtlasPrompt_guarded (fuel : nat) (options : PromptOptions Config)
  (cdp : string) (info : PageInfo) (start : Z) (w0 wb : W)
  (rb : Res AtlasPromptResult) (tb : list Event) :
  try_catch (runAtlasPrompt_body env fuel options cdp info start)
            (runAtlasPrompt_catch env) w0 = (rb, wb, tb) ->
  exists rbody tbody,
    runAtlasPrompt_body env fuel options cdp info start w0 = (rbody, wb, tbody)
    /\ Forall (fun e => is_log_call e = false) tbody
    /\ match rbody with
       | Throw err =>
           rb = Throw (as_prompt_failure err)
           /\ tb = (tbody ++ [mkEvent (clock env wb)
                                (CLogDebug (failure_note err))
                                (Fulfilled AUnit)])%list
       | _ => rb = rbody /\ tb = tbody
       end.
Proof.
  unfold try_catch.
  pose proof (runAtlasPrompt_body_quiet fuel options cdp info start w0) as Hq.
  destruct (runAtlasPrompt_body env fuel options cdp info start w0)
    as [[[a|e|] w1] t1]; cbn [snd] in Hq.
  - intros [= <- <- <-]. exists (Ok a), t1. split; [reflexivity|].
    split; [now apply quiet_has_no_log|now split].
  - unfold runAtlasPrompt_catch, bind, log_debug, as_prompt_failure,
      failure_note.
    destruct (is_AtlasUnavailable e) eqn:E; cbn; intros [= <- <- <-];
      (exists (Throw e), t1; split; [reflexivity|]; split;
       [now apply quiet_has_no_log
       |unfold as_prompt_failure, failure_note; rewrite ?E; split;
        reflexivity]).
  - intros [= <- <- <-]. exists OutOfFuel, t1. split; [reflexivity|].
    split; [now apply quiet_has_no_log|now split].
Qed.

(** A run that opened a page, taken apart. *)
Lemma runAtlasPrompt_opened (fuel : nat) (options : PromptOptions Config)
  (w w' : W) (r : Res AtlasPromptResult) (tr : list Event) :
  runAtlasPrompt api env fuel options w = (r, w', tr) ->
  (exists e, In e tr /\ opened_page e <> None) ->
  exists cdp chatUrl info before w2 w0 wb tb closing,
    tr = (before
            ++ mkEvent (clock env w2) (CCreatePage cdp chatUrl)
                 (Fulfilled (APageInfo info))
            :: tb ++ closing)%list
    /\ Forall (fun e => preparing_call (ev_call e) = true) before
    /\ createPageViaPlaywright env cdp chatUrl w2 = (Fulfilled info, w0)
    /\ try_catch (runAtlasPrompt_body env fuel options cdp info (clock env w2))
                 (runAtlasPrompt_catch env) w0 = (r, wb, tb)
    /\ Forall (fun e => is_close_call e = true) closing.
Proof.
  intros Hrun [e0 [He0 Ho]].
  assert (Hprep : forall l x,
             Forall (fun e => preparing_call (ev_call e) = true) l ->
             In x l -> opened_page x = None).
  { intros l x Hl Hx. rewrite Forall_forall in Hl. specialize (Hl x Hx).
    unfold opened_page. destruct (ev_call x); try reflexivity; discriminate. }
  revert Hrun. unfold runAtlasPrompt.
  destruct (flag (sandboxed options)).
  { intros [= <- <- <-]. destruct He0. }
  destruct (resolveAtlasProfile api (config options)) as [[profile|]|e1];
    cbn [lift_settled].
  2:{ intros [= <- <- <-]. destruct He0. }
  2:{ intros [= <- <- <-]. destruct He0. }
  unfold bind at 1. cbn [ret]. unfold bind at 1, call at 1.
  destruct (getPwAiModule env w) as [[[m|]|e1] w1]; cbn [settled_answer].
  2:{ intros [= <- <- <-]. destruct He0 as [<-|[]]. now elim Ho. }
  2:{ intros [= <- <- <-]. destruct He0 as [<-|[]]. now elim Ho. }
  set (evm := mkEvent (clock env w) CGetPwAiModule
                      (Fulfilled (to_answer (Some m)))).
  destruct (negb (has_createPageViaPlaywright m)
            || negb (has_getPageForTargetId m)).
  { intros [= <- <- <-]. destruct He0 as [<-|[]]. now elim Ho. }
  unfold bind at 1.
  pose proof (ensureAtlasCdpUrl_footprint env profile w1) as Hcdp.
  pose proof (ensureAtlasCdpUrl_ends env profile w1) as Hcdp_ends.
  assert (Hbefore : forall t2,
             Forall (fun e => endpoint_call (ev_call e) = true) t2 ->
             Forall (fun e => preparing_call (ev_call e) = true) (evm :: t2)).
  { intros t2 H. constructor; [reflexivity|].
    eapply Forall_impl; [|exact H].
    intros ev Hev. cbn beta in *. destruct (ev_call ev); cbn in *; congruence. }
  destruct (ensureAtlasCdpUrl env profile w1) as [[[cdp|e2|] w2] t2];
    cbn [fst snd] in Hcdp, Hcdp_ends.
  2:{ intros [= <- <- <-]. elim Ho.
      now apply (Hprep (evm :: t2) e0 (Hbefore t2 Hcdp)). }
  2:{ now elim Hcdp_ends. }
  cbv zeta. unfold bind at 1, now at 1. unfold bind at 1, call at 1.
  set (chatUrl := or_else (opt_trim (url options)) DEFAULT_ATLAS_CHAT_URL).
  destruct (createPageViaPlaywright env cdp chatUrl w2) as [[info|e3] w3]
    eqn:Ecreate; cbn [settled_answer].
  2:{ intros [= <- <- <-]. elim Ho. cbn [app] in He0.
      change (In e0 ((evm :: t2) ++ [mkEvent (clock env w2)
                                       (CCreatePage cdp chatUrl) (Rejected e3)]))
        in He0.
      apply in_app_or in He0 as [He0|[<-|[]]]; [|reflexivity].
      now apply (Hprep (evm :: t2) e0 (Hbefore t2 Hcdp)). }
  unfold try_finally.
  destruct (try_catch (runAtlasPrompt_body env fuel options cdp info (clock env w2))
                      (runAtlasPrompt_catch env) w3) as [[rb wb] tb] eqn:Eb.
  destruct (runAtlasPrompt_finally_spec env m cdp info wb) as (wf & tf & Ef & Htf).
  assert (Hclosing : Forall (fun e => is_close_call e = true) tf).
  { rewrite Htf. destruct (has_closePageByTargetIdViaPlaywright m);
      repeat constructor. }
  intros Hrun.
  exists cdp, chatUrl, info, (evm :: t2), w2, w3, wb, tb.
  destruct rb as [a|e|]; rewrite ?Ef in Hrun; injection Hrun as <- <- <-.
  - exists tf. split; [reflexivity|]. split; [now apply Hbefore|].
    split; [exact Ecreate|]. split; [exact Eb|exact Hclosing].
  - exists tf. split; [reflexivity|]. split; [now apply Hbefore|].
    split; [exact Ecreate|]. split; [exact Eb|exact Hclosing].
  - exists []. split; [now rewrite app_nil_r|]. split; [now apply Hbefore|].
    split; [exact Ecreate|]. split; [exact Eb|constructor].
Qed.

(** X19. Once the page is open, the rest of the run is the guarded body,
    started in the world the page was opened in.  When the body throws
    [err], the run reports it exactly once through [log.debug], as
    "Atlas prompt failed: " followed by [String(err)], right after the
    body's calls, and raises [err] itself if it is an
    [AtlasUnavailableError] and otherwise an [AtlasUnavailableError] whose
    message is that same note.  When the body does not throw, the run ends
    as the body did and logs nothing. *)
Theorem runAtlasPrompt_reports_failure (fuel : nat)
  (options : PromptOptions Config) (w w' : W) (r : Res AtlasPromptResult)
  (tr : list Event) :
  runAtlasPrompt api env fuel options w = (r, w', tr) ->
  (exists e, In e tr /\ opened_page e <> None) ->
  exists cdp chatUrl info before w2 w0 rbody wbody tbody closing,
    Forall (fun e => preparing_call (ev_call e) = true) before
    /\ createPageViaPlaywright env cdp chatUrl w2 = (Fulfilled info, w0)
    /\ runAtlasPrompt_body env fuel options cdp info (clock env w2) w0
       = (rbody, wbody, tbody)
    /\ Forall (fun e => is_close_call e = true) closing
    /\ match rbody with
       | Throw err =>
           r = Throw (if is_AtlasUnavailable err then err
                      else AtlasUnavailable
                             ("Atlas prompt failed: " ++ String_of_thrown err))
           /\ tr = (before
                      ++ mkEvent (clock env w2) (CCreatePage cdp chatUrl)
                           (Fulfilled (APageInfo info))
                      :: tbody
                      ++ mkEvent (clock env wbody)
                           (CLogDebug
                              ("Atlas prompt failed: " ++ String_of_thrown err))
                           (Fulfilled AUnit)
                      :: closing)%list
           /\ filter is_log_call tr
              = [mkEvent (clock env wbody)
                         (CLogDebug
                            ("Atlas prompt failed: " ++ String_of_thrown err))
                         (Fulfilled AUnit)]
       | _ =>
           r = rbody
           /\ tr = (before
                      ++ mkEvent (clock env w2) (CCreatePage cdp chatUrl)
                           (Fulfilled (APageInfo info))
                      :: tbody ++ closing)%list
           /\ filter is_log_call tr = []
       end.
Proof.
  intros Hrun Hopened.
  destruct (runAtlasPrompt_opened fuel options w w' r tr Hrun Hopened)
    as (cdp & chatUrl & info & before & w2 & w0 & wb & tb & closing
        & -> & Hbefore & Hcreate & Hguard & Hclosing).
  apply runAtlasPrompt_guarded in Hguard as (rbody & tbody & Hbody & Hquiet & Hrb).
  exists cdp, chatUrl, info, before, w2, w0, rbody, wb, tbody, closing.
  split; [exact Hbefore|]. split; [exact Hcreate|]. split; [exact Hbody|].
  split; [exact Hclosing|].
  assert (Hnolog : forall l, Forall (fun e => is_log_call e = false) l ->
                             filter is_log_call l = []).
  { induction 1 as [|x l Hx _ IH]; [reflexivity|]. cbn. now rewrite Hx. }
  assert (Hb : filter is_log_call before = []).
  { apply Hnolog. eapply Forall_impl; [|exact Hbefore].
    intros ev Hev. cbn beta in Hev. unfold is_log_call.
    destruct (ev_call ev); try reflexivity; discriminate. }
  assert (Hc : filter is_log_call closing = []).
  { apply Hnolog. eapply Forall_impl; [|exact Hclosing].
    intros ev Hev. cbn beta in Hev. unfold is_log_call, is_close_call in *.
    destruct (ev_call ev); try reflexivity; discriminate. }
  specialize (Hnolog _ Hquiet).
  rewrite filter_app. cbn [filter is_log_call ev_call].
  rewrite filter_app, Hb, Hc, app_nil_r. cbn [app].
  destruct rbody as [a|err|].
  - destruct Hrb as [-> ->]. rewrite Hnolog. repeat split.
  - destruct Hrb as [-> ->]. unfold as_prompt_failure, failure_note.
    split; [reflexivity|]. split; [now rewrite <- app_assoc|].
    rewrite filter_app, Hnolog. reflexivity.
  - destruct Hrb as [-> ->]. rewrite Hnolog. repeat split.
Qed.

End Reporting.

Lemma runAtlasPrompt_reports_failure_witness :
  let run := runAtlasPrompt good_api replay_env 0 (ask "Hi" 30000)
               page_handle_fails in
  fst (fst run)
  = Throw (AtlasUnavailable "Atlas prompt failed: Error: No page for target T1")
  /\ filter is_log_call (snd run)
     = [mkEvent 0 (CLogDebug "Atlas prompt failed: Error: No page for target T1")
                (Fulfilled AUnit)]
  /\ exists cdp chatUrl info before w2 w0 rbody wbody tbody closing,
       Forall (fun e => preparing_call (ev_call e) = true) before
       /\ createPageViaPlaywright replay_env cdp chatUrl w2 = (Fulfilled info, w0)
       /\ runAtlasPrompt_body replay_env 0 (ask "Hi" 30000) cdp info
            (clock replay_env w2) w0
          = (rbody, wbody, tbody)
       /\ Forall (fun e => is_close_call e = true) closing
       /\ match rbody with
          | Throw err =>
              fst (fst run)
              = Throw (if is_AtlasUnavailable err then err
                       else AtlasUnavailable
                              ("Atlas prompt failed: " ++ String_of_thrown err))
              /\ snd run
                 = (before
                      ++ mkEvent (clock replay_env w2) (CCreatePage cdp chatUrl)
                           (Fulfilled (APageInfo info))
                      :: tbody
                      ++ mkEvent (clock replay_env wbody)
                           (CLogDebug
                              ("Atlas prompt failed: " ++ String_of_thrown err))
                           (Fulfilled AUnit)
                      :: closing)%list
              /\ filter is_log_call (snd run)
                 = [mkEvent (clock replay_env wbody)
                            (CLogDebug
                               ("Atlas prompt failed: " ++ String_of_thrown err))
                            (Fulfilled AUnit)]
          | _ =>
              fst (fst run) = rbody
              /\ snd run
                 = (before
                      ++ mkEvent (clock replay_env w2) (CCreatePage cdp chatUrl)
                           (Fulfilled (APageInfo info))
                      :: tbody ++ closing)%list
              /\ filter is_log_call (snd run) = []
          end.
Proof.
  cbv zeta. split; [reflexivity|]. split; [reflexivity|].
  apply (runAtlasPrompt_reports_failure good_api replay_env 0 (ask "Hi" 30000)
           page_handle_fails
           (snd (fst (runAtlasPrompt good_api replay_env 0 (ask "Hi" 30000)
                        page_handle_fails)))).
  - reflexivity.
  - exists (mkEvent 0 (CCreatePage "http://127.0.0.1:9222" "https://chatgpt.com")
                    (Fulfilled (APageInfo (mkPageInfo "T1")))).
    split; [vm_compute; tauto|discriminate].
Defined.

Section Typing.
Context {Config BrowserConfig Resolved W : Type}.
Variable api : ConfigApi Config BrowserConfig Resolved.
Variable env : Env W.

Lemma clickSend_counts (page : Page) (input : Locator) (w : W) :
  List.length (filter is_submit_action (snd (clickSend env page input w))) = 1
  /\ filter is_fill_call (snd (clickSend env page input w)) = [].
Proof.
  unfold clickSend, bind, catch_default, try_catch, call, ret.
  destruct (isVisible env page _ w) as [[[|]|ev] w1]; cbn [fst snd app].
  - destruct (isEnabled env page _ w1) as [[[|]|ee] w2]; cbn [fst snd app].
    + destruct (click env page _ w2) as [[[]|ec] w3]; split; reflexivity.
    + destruct (press env page input "Enter" w2) as [[[]|ec] w3];
        split; reflexivity.
    + destruct (press env page input "Enter" w2) as [[[]|ec] w3];
        split; reflexivity.
  - destruct (press env page input "Enter" w1) as [[[]|ec] w3];
      split; reflexivity.
  - destruct (press env page input "Enter" w1) as [[[]|ec] w3];
      split; reflexivity.
Qed.

Lemma weaken_run {A : Type} (ok : Call -> bool) (m : M W A) (w w' : W)
  (r : Res A) (tr : list Event) :
  calls_in ok m -> (forall c, ok c = true -> passive_call c = true) ->
  m w = (r, w', tr) ->
  Forall (fun e => passive_call (ev_call e) = true) tr.
Proof.
  intros Hm Himp E. eapply calls_in_run; [|exact E].
  eapply calls_in_weaken; [exact Himp|exact Hm].
Qed.

Lemma no_query_no_match (tr : list Event) :
  Forall (fun e => not_a_query (ev_call e) = true) tr ->
  filter is_match tr = [].
Proof.
  induction 1 as [|e tr He _ IH]; [reflexivity|].
  cbn [filter]. rewrite IH. unfold is_match.
  destruct (ev_call e); try reflexivity; discriminate.
Qed.

(** In a successful run of the guarded block the prompt was typed once,
    into the input that was just found, and one submit action followed. *)
Lemma runAtlasPrompt_body_typing (fuel : nat) (options : PromptOptions Config)
  (cdp : string) (info : PageInfo) (start : Z) (w0 wb : W)
  (res : AtlasPromptResult) (tb : list Event) :
  runAtlasPrompt_body env fuel options cdp info start w0 = (Ok res, wb, tb) ->
  exists front selector tw ms te tc n t back,
    tb = (front
            ++ mkEvent tw (CWaitFor (first (locator selector)) ms)
                 (Fulfilled AUnit)
            :: mkEvent te (CIsEnabled (first (locator selector)))
                 (Fulfilled (ABool true))
            :: mkEvent tc (CCount (locator assistant_selector))
                 (Fulfilled (ACount n))
            :: mkEvent t (CFill (first (locator selector)) (prompt options)
                            (Z.min (timeoutMs options) 10000))
                 (Fulfilled AUnit)
            :: back)%list
    /\ In selector prompt_selectors
    /\ Forall (fun e => passive_call (ev_call e) = true) front
    /\ filter is_match front = []
    /\ filter is_fill_call back = []
    /\ List.length (filter is_submit_action back) = 1.
Proof.
  intros Hrun. unfold runAtlasPrompt_body in Hrun.
  apply bind_Ok in Hrun as (page & wa & ta & ra & Ea & Hrun & ->).
  apply bind_Ok in Hrun as (u1 & wb1 & tb1 & rb1 & Eb & Hrun & ->).
  apply bind_Ok in Hrun as (input & wc & tc & rc & Ec & Hrun & ->).
  apply bind_Ok in Hrun as (baseline & wd & td & rd & Ed & Hrun & ->).
  apply bind_Ok in Hrun as (u2 & we & te & re & Ee & Hrun & ->).
  apply bind_Ok in Hrun as (u3 & wf & tf & rf & Ef & Hrun & ->).
  apply bind_Ok in Hrun as (message & wg & tg & rg & Eg & Hrun & ->).
  apply bind_Ok in Hrun as (txt & wh & th & rh & Eh & Hrun & ->).
  destruct (truthy txt); cbn [negb] in Hrun; [|discriminate].
  unfold bind, now, ret in Hrun. injection Hrun as _ _ <-.
  (* the calls before the input is looked for *)
  assert (Ha : Forall (fun e => passive_call (ev_call e) = true) ta
               /\ filter is_match ta = []).
  { split.
    - eapply weaken_run; [|intros c H; exact H|exact Ea]. now apply calls_in_call.
    - apply no_query_no_match. eapply calls_in_run; [|exact Ea].
      now apply calls_in_call. }
  assert (Hb : Forall (fun e => passive_call (ev_call e) = true) tb1
               /\ filter is_match tb1 = []).
  { split.
    - eapply weaken_run; [|intros c H; exact H|exact Eb].
      apply calls_in_catch_default. now apply calls_in_call.
    - apply no_query_no_match. eapply calls_in_run; [|exact Eb].
      apply calls_in_catch_default. now apply calls_in_call. }
  (* the located input *)
  assert (Hc : Forall (fun e => passive_call (ev_call e) = true) tc).
  { eapply weaken_run; [apply findPromptInput_footprint| |exact Ec].
    intros []; cbn; congruence. }
  destruct (findPromptInput_found env page _ _ _ _ _ Ec)
    as (frontc & selector & tw & ms & tq & Hinput & Hsel & Htc & Hnomatch).
  subst input tc. apply Forall_app in Hc as [Hc _].
  (* the baseline count *)
  unfold call in Ed.
  destruct (count env page _ wc) as [[n|ec] wx0] eqn:Ecount; [|discriminate].
  injection Ed as _ <- <-.
  (* the fill call *)
  unfold call in Ee.
  destruct (fill env page _ (prompt options) _ wx0) as [[[]|ef] wx] eqn:Efill;
    [|discriminate].
  injection Ee as _ <- <-.
  exists (ta ++ tb1 ++ frontc)%list, selector, tw, ms, tq, (clock env wc), n,
    (clock env wx0), (tf ++ tg ++ th ++ [])%list.
  split; [repeat rewrite <- app_assoc; reflexivity|].
  split; [exact Hsel|].
  split; [repeat (apply Forall_app; split); tauto|].
  split.
  { destruct Ha as [_ Ha], Hb as [_ Hb].
    now rewrite !filter_app, Ha, Hb, Hnomatch. }
  assert (Hg : Forall (fun e => passive_call (ev_call e) = true) tg).
  { eapply weaken_run; [apply waitForAssistantMessage_footprint| |exact Eg].
    intros []; cbn; congruence. }
  assert (Hh : Forall (fun e => passive_call (ev_call e) = true) th).
  { eapply weaken_run; [apply readStableText_footprint| |exact Eh].
    intros []; cbn; congruence. }
  destruct (passive_counts _ Hg) as (Hg1 & Hg2 & _).
  destruct (passive_counts _ Hh) as (Hh1 & Hh2 & _).
  pose proof (clickSend_counts page (first (locator selector)) wx) as [Hf1 Hf2].
  rewrite Ef in Hf1, Hf2. cbn [snd] in Hf1, Hf2.
  rewrite !filter_app, Hg1, Hg2, Hh1, Hh2, Hf2, !app_nil_r.
  split; [reflexivity|exact Hf1].
Qed.

(** X20. In every run that returns a result, the prompt was typed exactly
    once, unchanged and with a timeout of min(timeoutMs, 10000), into the
    input that [findPromptInput] matched: the first locator of a listed
    selector whose wait was fulfilled and which then answered the first
    [isEnabled] query of the run to come back true.  The match, the count
    of the assistant messages and the typing are consecutive calls.
    Nothing was typed or submitted before, nothing is typed again, and
    exactly one submit action (a click or a key press) follows. *)
Theorem runAtlasPrompt_types_once (fuel : nat) (options : PromptOptions Config)
  (w w' : W) (res : AtlasPromptResult) (tr : list Event) :
  runAtlasPrompt api env fuel options w = (Ok res, w', tr) ->
  exists front selector tw ms te tc n t back,
    tr = (front
            ++ mkEvent tw (CWaitFor (first (locator selector)) ms)
                 (Fulfilled AUnit)
            :: mkEvent te (CIsEnabled (first (locator selector)))
                 (Fulfilled (ABool true))
            :: mkEvent tc (CCount (locator assistant_selector))
                 (Fulfilled (ACount n))
            :: mkEvent t (CFill (first (locator selector)) (prompt options)
                            (Z.min (timeoutMs options) 10000))
                 (Fulfilled AUnit)
            :: back)%list
    /\ In selector prompt_selectors
    /\ filter is_match front = []
    /\ filter is_fill_call front = []
    /\ filter is_submit_action front = []
    /\ filter is_fill_call back = []
    /\ List.length (filter is_submit_action back) = 1.
Proof.
  intros Hrun.
  apply runAtlasPrompt_success in Hrun
    as (m & cdp & chatUrl & info & before & w2 & w0 & wb & tb & closing
        & -> & Hbefore & _ & Hbody & ->).
  apply runAtlasPrompt_body_typing in Hbody
    as (front & selector & tw & ms & te & tc & n & t & back
        & -> & Hsel & Hfront & Hmatch & Hb1 & Hb2).
  set (closing := if has_closePageByTargetIdViaPlaywright m then _ else _).
  exists (before
            ++ mkEvent (clock env w2) (CCreatePage cdp chatUrl)
                 (Fulfilled (APageInfo info))
            :: front)%list, selector, tw, ms, te, tc, n, t,
    (back ++ closing)%list.
  split; [now rewrite <- !app_assoc|]. split; [exact Hsel|].
  assert (Hpass : Forall (fun e => passive_call (ev_call e) = true) before).
  { eapply Forall_impl; [|exact Hbefore].
    intros ev Hev. cbn beta in *. destruct (ev_call ev); cbn in *; congruence. }
  assert (Hquery : filter is_match before = []).
  { apply no_query_no_match. eapply Forall_impl; [|exact Hbefore].
    intros ev Hev. cbn beta in *. destruct (ev_call ev); cbn in *; congruence. }
  destruct (passive_counts _ Hpass) as (Hp1 & Hp2 & _).
  destruct (passive_counts _ Hfront) as (Hf1 & Hf2 & _).
  assert (Hc : filter is_fill_call closing = []
               /\ filter is_submit_action closing = []).
  { subst closing. destruct (has_closePageByTargetIdViaPlaywright m);
      split; reflexivity. }
  destruct Hc as [Hc1 Hc2].
  rewrite !filter_app.
  cbn [filter is_match is_fill_call is_submit_action ev_call].
  rewrite Hquery, Hmatch, Hp1, Hp2, Hf1, Hf2, Hb1, Hc1, Hc2, !app_nil_r.
  repeat split. exact Hb2.
Qed.

End Typing.

Lemma runAtlasPrompt_types_once_witness :
  let run := runAtlasPrompt good_api replay_env 80 (ask "Hi" 30000)
               (slow_conversation 700) in
  fst (fst run) = Ok (mkResult "Hello" 1950)
  /\ filter is_fill_call (snd run)
     = [mkEvent 750 (CFill (first (locator "textarea#prompt-textarea")) "Hi" 10000)
                (Fulfilled AUnit)]
  /\ exists front selector tw ms te tc n t back,
       snd run
       = (front
            ++ mkEvent tw (CWaitFor (first (locator selector)) ms)
                 (Fulfilled AUnit)
            :: mkEvent te (CIsEnabled (first (locator selector)))
                 (Fulfilled (ABool true))
            :: mkEvent tc (CCount (locator assistant_selector))
                 (Fulfilled (ACount n))
            :: mkEvent t (CFill (first (locator selector)) "Hi"
                            (Z.min 30000 10000))
                 (Fulfilled AUnit)
            :: back)%list
       /\ In selector prompt_selectors
       /\ filter is_match front = []
       /\ filter is_fill_call front = []
       /\ filter is_submit_action front = []
       /\ filter is_fill_call back = []
       /\ List.length (filter is_submit_action back) = 1.
Proof.
  cbv zeta. split; [vm_compute; reflexivity|].
  split; [vm_compute; reflexivity|].
  apply (runAtlasPrompt_types_once good_api replay_env 80 (ask "Hi" 30000)
           (slow_conversation 700)
           (snd (fst (runAtlasPrompt good_api replay_env 80 (ask "Hi" 30000)
                        (slow_conversation 700))))
           (mkResult "Hello" 1950)).
  vm_compute. reflexivity.
Defined.

End AtlasFacts.
